(** * Go_MuteCut: the argument builder, timestamp parser, binary resolver
      and process runner of [main.go], its audio-extraction companion and
      its video fetch, embedded in Rocq.

    Go strings are byte sequences, so they are [string] (a list of 8-bit
    [ascii]); [float64] is IEEE 754 binary64, taken from the Standard
    Library's [SpecFloat] with [prec = 53] and [emax = 1024]; [int] is [Z],
    64 bits wide where it is incremented without bound.

    A function that prints, reads the network, writes a file, starts a
    process or exits is a [Prog]: the events it causes, in order, and how it
    ends. What the operating system and the network answer (the file
    system, the search path, the standard input, the video site, the child
    process) is read from a [World]; a file the program creates is in the
    file system from then on. The one loop without a bound, in
    [ensureUniqueFilename], takes fuel. The library functions the program's
    results depend on are modelled with it: [strconv.ParseFloat],
    [strconv.Itoa], the ["%.3f"] verb, [strings.Split], [strings.TrimSuffix],
    [filepath.Ext], the regular expression of [sanitizeFilename]. *)

From Stdlib Require Import ZArith List Bool Ascii String Lia.
From Stdlib Require Import Floats.SpecFloat.
From Stdlib Require Import Numbers.DecimalString.
Import ListNotations.

Local Open Scope string_scope.
Local Open Scope list_scope.

(** ** Bytes and the [strings] package *)

Module Strings.

Definition code (c : ascii) : Z := Z.of_N (N_of_ascii c).

Definition inRange (lo hi c : ascii) : bool :=
  ((code lo <=? code c) && (code c <=? code hi))%Z.

Definition isDigit (c : ascii) : bool := inRange "0" "9" c.

(** [strings.HasPrefix(s, prefix)] *)
Definition HasPrefix (s pre : string) : bool := String.prefix pre s.

(** [strings.HasSuffix(s, suffix)]:
    [len(s) >= len(suffix) && s[len(s)-len(suffix):] == suffix] *)
Definition HasSuffix (s suf : string) : bool :=
  (String.length suf <=? String.length s)%nat &&
  String.eqb (substring (String.length s - String.length suf)
                        (String.length suf) s) suf.

(** [strings.TrimSuffix(s, suffix)] *)
Definition TrimSuffix (s suf : string) : string :=
  if HasSuffix s suf
  then substring 0 (String.length s - String.length suf) s
  else s.

(** [strings.Split(s, sep)] for a one-byte separator: the pieces between
    the occurrences of [sep], one more than there are occurrences. *)
Fixpoint Split (s : string) (sep : ascii) : list string :=
  match s with
  | EmptyString => [EmptyString]
  | String c r =>
      if Ascii.eqb c sep then EmptyString :: Split r sep
      else match Split r sep with
           | p :: ps => String c p :: ps
           | [] => [String c EmptyString]
           end
  end.

(** [strings.Join(elems, sep)] *)
Fixpoint Join (elems : list string) (sep : string) : string :=
  match elems with
  | [] => EmptyString
  | [e] => e
  | e :: rest => e ++ sep ++ Join rest sep
  end.

Definition isASCII (s : string) : bool :=
  forallb (fun c => (code c <? 128)%Z) (list_ascii_of_string s).

Definition lowerASCII (c : ascii) : ascii :=
  if inRange "A" "Z" c
  then ascii_of_N (N_of_ascii c + 32)
  else c.

Fixpoint mapBytes (f : ascii -> ascii) (s : string) : string :=
  match s with
  | EmptyString => EmptyString
  | String c r => String (f c) (mapBytes f r)
  end.

(** [strings.ToLower(s)]: an ASCII-only string is lowered byte by byte;
    any other string goes through [strings.Map(unicode.ToLower, s)], whose
    Unicode case tables are the parameter [unicodeLower]. *)
Definition ToLower (unicodeLower : string -> string) (s : string) : string :=
  if isASCII s then mapBytes lowerASCII s else unicodeLower s.

End Strings.

(** ** IEEE 754 binary64 *)

Module Float64.

Definition prec : Z := 53.
Definition emax : Z := 1024.

Definition float64 := spec_float.

Definition add : float64 -> float64 -> float64 := SFadd prec emax.
Definition mul : float64 -> float64 -> float64 := SFmul prec emax.
Definition ltb : float64 -> float64 -> bool := SFltb.

Definition zero : float64 := S754_zero false.
Definition inf (neg : bool) : float64 := S754_infinity neg.
Definition nan : float64 := S754_nan.

(** The float64 nearest to the integer [z]. *)
Definition ofZ (z : Z) : float64 := binary_normalize prec emax z 0 false.

(** The float64 nearest to [m * 2^e], ties to even. *)
Definition ofBinary (neg : bool) (m : positive) (e : Z) : float64 :=
  binary_round prec emax neg m e.

(** The float64 nearest to [m * 10^e], ties to even. *)
Definition ofDecimal (neg : bool) (m : positive) (e : Z) : float64 :=
  if (0 <=? e)%Z
  then binary_round prec emax neg (m * Z.to_pos (10 ^ e))%positive 0
  else
    let '(q, eq, loc) :=
      SFdiv_core_binary prec emax (Zpos m) 0 (10 ^ (- e))%Z 0 in
    binary_round_aux prec emax neg q eq loc.

Definition isInf (x : float64) : bool :=
  match x with S754_infinity _ => true | _ => false end.

End Float64.

(** ** The [strconv] package: [ParseFloat(s, 64)], [Itoa] and the ['f']
       format used by [fmt.Sprintf("%.3f", x)] *)

Module Strconv.

Import Strings Float64.

Local Open Scope Z_scope.

Inductive NumErr := ErrSyntax | ErrRange.

(** [lower(c)] of atoi.go: [c | ('x' - 'X')]. *)
Definition lower (c : ascii) : Z := Z.lor (code c) 32.

(** [commonPrefixLenIgnoreCase(s, prefix)]; [prefix] is lower case. *)
Fixpoint commonPrefixLenIgnoreCase (s pre : string) : nat :=
  match s, pre with
  | String c s', String p pre' =>
      if Ascii.eqb (lowerASCII c) p
      then S (commonPrefixLenIgnoreCase s' pre')
      else O
  | _, _ => O
  end.

(** [special(s)]: the optionally signed "inf"/"infinity" and the unsigned
    "nan", ignoring case; the result is the value and the number of bytes
    consumed. *)
Definition specialInf (neg : bool) (nsign : nat) (s : string)
  : option (float64 * nat) :=
  let n := commonPrefixLenIgnoreCase s "infinity" in
  let n := if ((3 <? n) && (n <? 8))%nat then 3%nat else n in
  if ((n =? 3) || (n =? 8))%nat then Some (inf neg, (nsign + n)%nat)
  else None.

Definition special (s : string) : option (float64 * nat) :=
  match s with
  | EmptyString => None
  | String c r =>
      if Ascii.eqb c "+" then specialInf false 1 r
      else if Ascii.eqb c "-" then specialInf true 1 r
      else if Ascii.eqb c "i" || Ascii.eqb c "I" then specialInf false 0 s
      else if Ascii.eqb c "n" || Ascii.eqb c "N" then
        if (commonPrefixLenIgnoreCase s "nan" =? 3)%nat
        then Some (nan, 3%nat) else None
      else None
  end.

(** The loop variables of [readFloat]. The mantissa keeps every digit:
    where [readFloat] stops at 19 digits and sets [trunc], [atof64] reads
    the digits again into its [decimal] and rounds that. *)
Record mantState := MantState {
  sawdot : bool;
  sawdigits : bool;
  nd : Z;
  dp : Z;
  mantissa : Z;
  underscores : bool
}.

Definition mant0 : mantState := MantState false false 0 0 0 false.

(** The [loop:] of [readFloat]: returns the state and what is left of the
    input at the first byte that is not part of the mantissa. *)
Fixpoint readMantissa (hex : bool) (s : string) (st : mantState)
  : mantState * string :=
  match s with
  | EmptyString => (st, s)
  | String c r =>
      let '(MantState sdot sdig n d m us) := st in
      if Ascii.eqb c "_" then
        readMantissa hex r (MantState sdot sdig n d m true)
      else if Ascii.eqb c "." then
        if sdot then (st, s)
        else readMantissa hex r (MantState true sdig n n m us)
      else if isDigit c then
        if Ascii.eqb c "0" && (n =? 0) then
          readMantissa hex r (MantState sdot true n (d - 1) m us)
        else
          readMantissa hex r
            (MantState sdot true (n + 1) d
               (m * (if hex then 16 else 10) + (code c - code "0")) us)
      else if hex && (code "a" <=? lower c) && (lower c <=? code "f") then
        readMantissa hex r
          (MantState sdot true (n + 1) d
             (m * 16 + (lower c - code "a" + 10)) us)
      else (st, s)
  end.

(** The digits of the exponent: [e] stops growing once it reaches 10000. *)
Fixpoint readExpDigits (s : string) (e : Z) (us : bool)
  : Z * bool * string :=
  match s with
  | EmptyString => (e, us, s)
  | String c r =>
      if Ascii.eqb c "_" then readExpDigits r e true
      else if isDigit c then
        readExpDigits r
          (if e <? 10000 then e * 10 + (code c - code "0") else e) us
      else (e, us, s)
  end.

(** The optional exponent of [readFloat]: [None] is a syntax error,
    otherwise the signed exponent (0 when there is none), the underscore
    flag and the rest of the input. *)
Definition readExponent (hex : bool) (s : string) (us : bool)
  : option (Z * bool * string) :=
  let expChar := if hex then code "p" else code "e" in
  match s with
  | String c r =>
      if lower c =? expChar then
        match r with
        | EmptyString => None
        | String c1 r1 =>
            let '(esign, r2) :=
              if Ascii.eqb c1 "+" then (1, r1)
              else if Ascii.eqb c1 "-" then (-1, r1)
              else (1, r) in
            match r2 with
            | EmptyString => None
            | String c2 _ =>
                if isDigit c2 then
                  let '(e, us', rest) := readExpDigits r2 0 us in
                  Some (e * esign, us', rest)
                else None
            end
        end
      else if hex then None else Some (0, us, s)
  | EmptyString => if hex then None else Some (0, us, s)
  end.

(** [underscoreOK(s)]: underscores only between digits, or between a base
    prefix and a digit. [saw] is 0 for '^', 1 for a digit or base prefix,
    2 for '_' and 3 for anything else. *)
Fixpoint underscoreLoop (hex : bool) (s : string) (saw : nat) : bool :=
  match s with
  | EmptyString => negb (saw =? 2)%nat
  | String c r =>
      if isDigit c
         || (hex && (code "a" <=? lower c) && (lower c <=? code "f"))
      then underscoreLoop hex r 1
      else if Ascii.eqb c "_" then
        if (saw =? 1)%nat then underscoreLoop hex r 2 else false
      else if (saw =? 2)%nat then false
      else underscoreLoop hex r 3
  end.

Definition underscoreOK (s : string) : bool :=
  let s :=
    match s with
    | String c r => if Ascii.eqb c "-" || Ascii.eqb c "+" then r else s
    | EmptyString => s
    end in
  match s with
  | String c0 (String c1 r) =>
      if Ascii.eqb c0 "0"
         && ((lower c1 =? code "b") || (lower c1 =? code "o")
             || (lower c1 =? code "x"))
      then underscoreLoop (lower c1 =? code "x") r 1
      else underscoreLoop false s 0
  | _ => underscoreLoop false s 0
  end.

(** What [readFloat] returns when [ok]: sign, base, the complete mantissa,
    the exponent of the base ([exp], in bits for base 16) and the
    unconsumed rest of the input. *)
Record floatLit := FloatLit {
  neg : bool;
  hex : bool;
  mant : Z;
  exp : Z;
  rest : string
}.

Definition readFloat (s : string) : option floatLit :=
  match s with
  | EmptyString => None
  | String c r =>
      let '(ng, s1) :=
        if Ascii.eqb c "+" then (false, r)
        else if Ascii.eqb c "-" then (true, r)
        else (false, s) in
      let '(hx, s2) :=
        match s1 with
        | String c0 (String c1 (String c2 r2)) =>
            if Ascii.eqb c0 "0" && (lower c1 =? code "x")
            then (true, String c2 r2) else (false, s1)
        | _ => (false, s1)
        end in
      let '(st, s3) := readMantissa hx s2 mant0 in
      if negb (sawdigits st) then None
      else
        let dp0 := if sawdot st then dp st else nd st in
        let dp1 := if hx then dp0 * 4 else dp0 in
        let ndMant := if hx then nd st * 4 else nd st in
        match readExponent hx s3 (underscores st) with
        | None => None
        | Some (e, us, s4) =>
            let ex := if mantissa st =? 0 then 0 else dp1 + e - ndMant in
            let consumed :=
              substring 0 (String.length s - String.length s4) s in
            if us && negb (underscoreOK consumed) then None
            else Some (FloatLit ng hx (mantissa st) ex s4)
        end
  end.

(** The value of a literal: correctly rounded, ties to even, as [atofHex]
    and the [decimal] conversion of [atof64] compute it. *)
Definition floatValue (l : floatLit) : float64 :=
  match mant l with
  | Zpos m =>
      if hex l then ofBinary (neg l) m (exp l)
      else ofDecimal (neg l) m (exp l)
  | _ => S754_zero (neg l)
  end.

(** [atof64(s)]: value, rest of the input, error. *)
Definition atof64 (s : string) : float64 * string * option NumErr :=
  match special s with
  | Some (v, n) =>
      (v, substring n (String.length s - n) s, None)
  | None =>
      match readFloat s with
      | None => (zero, s, Some ErrSyntax)
      | Some l =>
          let f := floatValue l in
          (f, rest l, if isInf f then Some ErrRange else None)
      end
  end.

(** [strconv.ParseFloat(s, 64)]: the whole of [s] must be consumed; a
    value out of range comes back as an infinity together with
    [ErrRange]. *)
Definition ParseFloat (s : string) : float64 * option NumErr :=
  let '(f, r, err) := atof64 s in
  match r, err with
  | EmptyString, _ => (f, err)
  | _, Some ErrSyntax => (f, err)
  | _, _ => (zero, Some ErrSyntax)
  end.

(** Decimal digits of a natural number, "0" for zero. *)
Definition digits (n : Z) : string :=
  NilZero.string_of_uint (N.to_uint (Z.to_N n)).

(** [strconv.Itoa(i)] *)
Definition Itoa (i : Z) : string :=
  if i <? 0 then "-" ++ digits (- i) else digits i.

(** [m * 2^e * 1000] rounded to an integer, ties to even: the digits that
    [decimal.Round(d.dp + 3)] keeps of the exact decimal expansion. *)
Definition roundMilli (m : positive) (e : Z) : Z :=
  if 0 <=? e then Zpos m * 2 ^ e * 1000
  else
    let d := 2 ^ (- e) in
    let q := (Zpos m * 1000) / d in
    let r := (Zpos m * 1000) mod d in
    match 2 * r ?= d with
    | Lt => q
    | Gt => q + 1
    | Eq => if Z.even q then q else q + 1
    end.

Definition pad3 (n : Z) : string :=
  let s := digits n in
  match String.length s with
  | 1%nat => "00" ++ s
  | 2%nat => "0" ++ s
  | _ => s
  end.

(** The ["%.3f"] verb of [fmt.Sprintf] on a float64: [strconv]'s ['f']
    format with precision 3, and [fmt]'s spelling of the non-finite
    values. *)
Definition fmtFloat3 (x : float64) : string :=
  match x with
  | S754_nan => "NaN"
  | S754_infinity false => "+Inf"
  | S754_infinity true => "-Inf"
  | S754_zero sg => (if sg then "-" else EmptyString) ++ "0.000"
  | S754_finite sg m e =>
      let n := roundMilli m e in
      (if sg then "-" else EmptyString)
      ++ digits (n / 1000) ++ "." ++ pad3 (n mod 1000)
  end.

End Strconv.

(** ** The [path/filepath] package *)

Module Filepath.

Import Strings.

Inductive OS := Unix | Windows.

(** [os.IsPathSeparator(c)]: '/' everywhere, and also the backslash on
    Windows. *)
Definition IsPathSeparator (goos : OS) (c : ascii) : bool :=
  match goos with
  | Unix => Ascii.eqb c "/"
  | Windows => Ascii.eqb c "\" || Ascii.eqb c "/"
  end.

(** The loop of [filepath.Ext]; [n] is [i + 1]:
    [for i := len(path) - 1; i >= 0 && !os.IsPathSeparator(path[i]); i--] *)
Fixpoint extLoop (goos : OS) (path : string) (n : nat) : string :=
  match n with
  | O => EmptyString
  | S i =>
      match String.get i path with
      | Some c =>
          if IsPathSeparator goos c then EmptyString
          else if Ascii.eqb c "."
               then substring i (String.length path - i) path
               else extLoop goos path i
      | None => EmptyString
      end
  end.

(** [filepath.Ext(path)]: the suffix from the last dot of the last
    element of [path], empty when that element has no dot. *)
Definition Ext (goos : OS) (path : string) : string :=
  extLoop goos path (String.length path).

(** *** [filepath.Clean], [filepath.Dir] and [filepath.Join] on Unix

    On Unix a path has no volume name and '/' is the only separator. These
    three serve the concrete machines below; the program itself is stated
    for any [filepath.Join] and [filepath.Dir]. *)

Definition isSlash (c : ascii) : bool := Ascii.eqb c "/".

Definition startsElement (rest : string) : bool :=
  match rest with
  | EmptyString => false
  | String c _ => negb (isSlash c)
  end.

(** The [..] case of [Clean] when it can backtrack:
    [out.w--; for out.w > dotdot && !os.IsPathSeparator(out.index(out.w))
    { out.w-- }]. *)
Fixpoint backtrack (out : string) (dotdot w : nat) : nat :=
  match w with
  | O => O
  | S w' =>
      match String.get w out with
      | Some c =>
          if (dotdot <? w)%nat && negb (isSlash c)
          then backtrack out dotdot w'
          else w
      | None => w
      end
  end.

(** Before a path element is copied:
    [if rooted && out.w != 1 || !rooted && out.w != 0 { out.append(Separator) }] *)
Definition beforeElement (rooted : bool) (out : string) : string :=
  let w := String.length out in
  if rooted && negb (w =? 1)%nat || negb rooted && negb (w =? 0)%nat
  then (out ++ "/")%string
  else out.

(** The loop [for r < n] of [Clean] over what is left of the path; [out]
    is the buffer written so far, and [copying] says that the bytes of a
    path element are being copied (the inner [for] of the default case,
    which stops at the next separator). *)
Fixpoint cleanLoop (rooted : bool) (rest out : string) (dotdot : nat)
                   (copying : bool) : string :=
  match rest with
  | EmptyString => out
  | String c rest' =>
      if copying then
        if isSlash c then cleanLoop rooted rest' out dotdot false
        else cleanLoop rooted rest' (out ++ String c EmptyString)%string
                       dotdot true
      else if isSlash c then
        cleanLoop rooted rest' out dotdot false
      else if Ascii.eqb c "." && negb (startsElement rest') then
        cleanLoop rooted rest' out dotdot false
      else
        match rest' with
        | String "." rest'' =>
            if Ascii.eqb c "." && negb (startsElement rest'') then
              let w := String.length out in
              if (dotdot <? w)%nat then
                let w := backtrack out dotdot (w - 1) in
                cleanLoop rooted rest'' (substring 0 w out) dotdot false
              else if negb rooted then
                let out :=
                  if (0 <? w)%nat then (out ++ "/")%string else out in
                let out := (out ++ "..")%string in
                cleanLoop rooted rest'' out (String.length out) false
              else cleanLoop rooted rest'' out dotdot false
            else
              cleanLoop rooted rest'
                (beforeElement rooted out ++ String c EmptyString)%string
                dotdot true
        | _ =>
            cleanLoop rooted rest'
              (beforeElement rooted out ++ String c EmptyString)%string
              dotdot true
        end
  end.

Definition unixClean (path : string) : string :=
  match path with
  | EmptyString => "."
  | String c rest =>
      let out :=
        if isSlash c then cleanLoop true rest "/" 1 false
        else cleanLoop false path EmptyString 0 false in
      if String.eqb out EmptyString then "." else out
  end.

(** The loop of [filepath.Dir]; [n] is [i + 1]:
    [for i >= len(vol) && !os.IsPathSeparator(path[i]) { i-- }] *)
Fixpoint dirLoop (path : string) (n : nat) : nat :=
  match n with
  | O => O
  | S i =>
      match String.get i path with
      | Some c => if isSlash c then n else dirLoop path i
      | None => n
      end
  end.

Definition unixDir (path : string) : string :=
  unixClean (substring 0 (dirLoop path (String.length path)) path).

(** [filepath.Join(elem...)]: the elements from the first non-empty one on,
    joined by '/' and cleaned; empty when all are empty. *)
Fixpoint unixJoin (elem : list string) : string :=
  match elem with
  | [] => EmptyString
  | e :: more =>
      if String.eqb e EmptyString then unixJoin more
      else unixClean (Join elem "/")
  end.

End Filepath.

(** ** The [github.com/kkdai/youtube/v2] client, as far as the program
       reads it *)

Module Youtube.

Record Format := mkFormat {
  MimeType : string;
  QualityLabel : string;
  AudioChannels : Z
}.

Record Video := mkVideo {
  Title : string;
  Formats : list Format
}.

(** [FormatList.WithAudioChannels()]: the formats that carry audio, those
    with [AudioChannels > 0], in the order of the list. *)
Definition WithAudioChannels (formats : list Format) : list Format :=
  filter (fun f => (0 <? AudioChannels f)%Z) formats.

End Youtube.

(** ** Effects: what the program prints and runs, and how it ends *)

Module Effects.

Import Youtube.

Inductive Event :=
| EvPrint (text : string)               (* written to standard output *)
| EvStderr (text : string)              (* written to standard error *)
| EvGetVideo (url : string)             (* [client.GetVideo(url)] *)
| EvGetStream (video : Video) (format : Format)
                                        (* [client.GetStream(video, format)] *)
| EvCreate (path : string)              (* [os.Create(path)] *)
| EvCopy (path : string)                (* [io.Copy(file, stream)] *)
| EvCloseFile (path : string)           (* the deferred [file.Close()] *)
| EvCloseStream                         (* the deferred [stream.Close()] *)
| EvMkdirAll (path : string)
| EvRun (bin : string) (args : list string) (stdout stderr : bool).

(** A run ends by returning, by [os.Exit(code)], or by a runtime panic; or
    it is still inside a loop when the fuel given to that loop is spent. *)
Inductive Status (A : Type) :=
| Returned (a : A)
| Exited (code : Z)
| Panicked
| Unfinished.

Arguments Returned {A} a.
Arguments Exited {A} code.
Arguments Panicked {A}.
Arguments Unfinished {A}.

Definition Prog (A : Type) : Type := list Event * Status A.

Definition ret {A} (a : A) : Prog A := ([], Returned a).

Definition bind {A B} (m : Prog A) (k : A -> Prog B) : Prog B :=
  match m with
  | (t, Returned a) => let '(t', st) := k a in (t ++ t', st)
  | (t, Exited c) => (t, Exited c)
  | (t, Panicked) => (t, Panicked)
  | (t, Unfinished) => (t, Unfinished)
  end.

Definition emit (e : Event) : Prog unit := ([e], Returned tt).
Definition exit {A} (code : Z) : Prog A := ([], Exited code).

(** A loop whose fuel is spent. *)
Definition unfinished {A} : Prog A := ([], Unfinished).

(** An operation that panics when it has no result. *)
Definition orPanic {A} (o : option A) : Prog A :=
  match o with
  | Some a => ret a
  | None => ([], Panicked)
  end.

Definition trace {A} (m : Prog A) : list Event := fst m.
Definition status {A} (m : Prog A) : Status A := snd m.

(** The argument lists handed to [exec.Command(...).Run()], in order. *)
Fixpoint runArgs (t : list Event) : list (list string) :=
  match t with
  | [] => []
  | EvRun _ args _ _ :: t' => args :: runArgs t'
  | _ :: t' => runArgs t'
  end.

End Effects.

Import Strings Float64 Strconv Filepath Youtube Effects.

Notation "x <- m ;; k" := (bind m (fun x => k))
  (at level 61, m at next level, right associativity).
Notation "m ;;; k" := (bind m (fun _ => k))
  (at level 61, right associativity).

(** ** The program *)

Definition nl : string := String (ascii_of_nat 10) EmptyString.

Definition Print (s : string) : Prog unit := emit (EvPrint s).
Definition Println (s : string) : Prog unit := emit (EvPrint (s ++ nl)).

Definition nonEmpty (s : string) : bool := negb (String.eqb s EmptyString).

Record Config := mkConfig {
  InputFile : string;
  OutputFile : string;
  MaxVideoLen : float64;
  MaxFileSize : Z;
  Preset : string;
  CRF : Z;
  MuteStart : string;
  MuteEnd : string;
  StartTime : string;
  EndTime : string;
  FfmpegBin : string;
  FfprobeBin : string;
  Verbose : bool;
  ExtractMP3 : bool
}.

(** The zero value [Config{}]. *)
Definition emptyConfig : Config :=
  mkConfig EmptyString EmptyString zero 0 EmptyString 0 EmptyString EmptyString
           EmptyString EmptyString EmptyString EmptyString false false.

Definition withInputFile (cfg : Config) (v : string) : Config :=
  mkConfig v (OutputFile cfg) (MaxVideoLen cfg) (MaxFileSize cfg)
    (Preset cfg) (CRF cfg) (MuteStart cfg) (MuteEnd cfg) (StartTime cfg)
    (EndTime cfg) (FfmpegBin cfg) (FfprobeBin cfg) (Verbose cfg)
    (ExtractMP3 cfg).

Definition withOutputFile (cfg : Config) (v : string) : Config :=
  mkConfig (InputFile cfg) v (MaxVideoLen cfg) (MaxFileSize cfg)
    (Preset cfg) (CRF cfg) (MuteStart cfg) (MuteEnd cfg) (StartTime cfg)
    (EndTime cfg) (FfmpegBin cfg) (FfprobeBin cfg) (Verbose cfg)
    (ExtractMP3 cfg).

Definition withStartTime (cfg : Config) (v : string) : Config :=
  mkConfig (InputFile cfg) (OutputFile cfg) (MaxVideoLen cfg)
    (MaxFileSize cfg) (Preset cfg) (CRF cfg) (MuteStart cfg) (MuteEnd cfg)
    v (EndTime cfg) (FfmpegBin cfg) (FfprobeBin cfg) (Verbose cfg)
    (ExtractMP3 cfg).

Definition withEndTime (cfg : Config) (v : string) : Config :=
  mkConfig (InputFile cfg) (OutputFile cfg) (MaxVideoLen cfg)
    (MaxFileSize cfg) (Preset cfg) (CRF cfg) (MuteStart cfg) (MuteEnd cfg)
    (StartTime cfg) v (FfmpegBin cfg) (FfprobeBin cfg) (Verbose cfg)
    (ExtractMP3 cfg).

Definition withMuteStart (cfg : Config) (v : string) : Config :=
  mkConfig (InputFile cfg) (OutputFile cfg) (MaxVideoLen cfg)
    (MaxFileSize cfg) (Preset cfg) (CRF cfg) v (MuteEnd cfg) (StartTime cfg)
    (EndTime cfg) (FfmpegBin cfg) (FfprobeBin cfg) (Verbose cfg)
    (ExtractMP3 cfg).

Definition withMuteEnd (cfg : Config) (v : string) : Config :=
  mkConfig (InputFile cfg) (OutputFile cfg) (MaxVideoLen cfg)
    (MaxFileSize cfg) (Preset cfg) (CRF cfg) (MuteStart cfg) v
    (StartTime cfg) (EndTime cfg) (FfmpegBin cfg) (FfprobeBin cfg)
    (Verbose cfg) (ExtractMP3 cfg).

Definition withExtractMP3 (cfg : Config) (v : bool) : Config :=
  mkConfig (InputFile cfg) (OutputFile cfg) (MaxVideoLen cfg)
    (MaxFileSize cfg) (Preset cfg) (CRF cfg) (MuteStart cfg) (MuteEnd cfg)
    (StartTime cfg) (EndTime cfg) (FfmpegBin cfg) (FfprobeBin cfg)
    (Verbose cfg) v.

Definition withFfmpegBin (cfg : Config) (v : string) : Config :=
  mkConfig (InputFile cfg) (OutputFile cfg) (MaxVideoLen cfg)
    (MaxFileSize cfg) (Preset cfg) (CRF cfg) (MuteStart cfg) (MuteEnd cfg)
    (StartTime cfg) (EndTime cfg) v (FfprobeBin cfg) (Verbose cfg)
    (ExtractMP3 cfg).

Definition withFfprobeBin (cfg : Config) (v : string) : Config :=
  mkConfig (InputFile cfg) (OutputFile cfg) (MaxVideoLen cfg)
    (MaxFileSize cfg) (Preset cfg) (CRF cfg) (MuteStart cfg) (MuteEnd cfg)
    (StartTime cfg) (EndTime cfg) (FfmpegBin cfg) v (Verbose cfg)
    (ExtractMP3 cfg).

(** *** [getInputArgs] *)

Definition getInputArgs (cfg : Config) : list string :=
  let args := [] in
  let args :=
    if nonEmpty (StartTime cfg) then args ++ ["-ss"; StartTime cfg] else args in
  let args :=
    if nonEmpty (EndTime cfg) then args ++ ["-to"; EndTime cfg] else args in
  args ++ ["-i"; InputFile cfg].

(** *** [parseTimeToSeconds] *)

(** The loop [for i := len(parts) - 1; i >= 0; i--] with [n = i + 1];
    [parts[i]] out of range would panic. The error of [ParseFloat] is
    dropped ([val, _ :=]). The product and the sum are rounded one after
    the other, as the amd64 compiler emits them (no fused multiply-add). *)
Fixpoint sumParts (parts : list string) (n : nat)
                  (seconds multiplier : float64) : option float64 :=
  match n with
  | O => Some seconds
  | S i =>
      match nth_error parts i with
      | None => None
      | Some part =>
          let val := fst (ParseFloat part) in
          sumParts parts i (add seconds (mul val multiplier))
                   (mul multiplier (ofZ 60))
      end
  end.

Definition parseTimeToSeconds (ts : string) : option float64 :=
  match ParseFloat ts with
  | (val, None) => Some val
  | (_, Some _) =>
      let parts := Split ts ":" in
      sumParts parts (List.length parts) zero (ofZ 1)
  end.

(** *** The world outside the program *)

Inductive StatResult :=
| StatOk (isDir : bool)
| StatNotExist
| StatErr (msg : string).

(** Why [cmd.Run()] failed: the process exited with a non-zero code, or it
    could not be started or waited for. *)
Inductive RunError :=
| ExitError (code : Z)
| StartError (msg : string).

(** [err.Error()] *)
Definition errorText (e : RunError) : string :=
  match e with
  | ExitError c => "exit status " ++ Itoa c
  | StartError m => m
  end.

(** What the operating system and the network answer during one
    invocation. Calls that return [(value, error)] keep that shape, the
    error being its text; a call whose value is not read when it fails is a
    sum, and a call read for its error alone gives that error. *)
Record World := mkWorld {
  stdin : list string;                      (* lines [bufio.Scanner] yields *)
  Executable : option string;               (* [os.Executable()] *)
  Getwd : option string;                    (* [os.Getwd()] *)
  Stat : string -> StatResult;              (* [os.Stat(path)] *)
  LookPath : string -> string * option string;  (* [exec.LookPath(name)] *)
  GetVideo : string -> Video + string;      (* [client.GetVideo(url)] *)
  GetStream : Video -> Format -> option string;
                                            (* [client.GetStream(video, format)] *)
  Create : string -> option string;         (* [os.Create(path)] *)
  Copy : string -> option string;           (* [io.Copy] into the file [path] *)
  Run : string -> list string -> option RunError  (* [cmd.Run()] *)
}.

(** The file system once [os.Create(path)] has succeeded: [path] is a
    regular file, and every other path answers as before. *)
Definition created (w : World) (path : string) : World :=
  mkWorld (stdin w) (Executable w) (Getwd w)
    (fun p => if String.eqb p path then StatOk false else Stat w p)
    (LookPath w) (GetVideo w) (GetStream w) (Create w) (Copy w) (Run w).

Record Flags := mkFlags {
  inputPtr : string;
  outputPtr : string;
  startPtr : string;
  endPtr : string;
  muteStartPtr : string;
  muteEndPtr : string;
  presetPtr : string;
  crfPtr : Z;
  verbosePtr : bool;
  mp3Ptr : bool;
  urlPtr : string
}.

(** [flag.Parse()] with no flag given. *)
Definition defaultFlags : Flags :=
  mkFlags EmptyString EmptyString EmptyString EmptyString EmptyString
          EmptyString "medium" 23 false false EmptyString.

(** What [flag.Parse()] (line 57) makes of the command line. The flag set
    is [flag.CommandLine], which handles errors by [flag.ExitOnError]: the
    call returns with the flag values, or it ends the process itself, with
    status 0 after the usage text that [-h] or [-help] asks for, with status
    2 after its report on a command line it rejects; both texts go to
    standard error. *)
Inductive CommandLine :=
| Accepted (fl : Flags)
| HelpRequested (usage : string)
| Rejected (report : string).

(** *** [sanitizeFilename] *)

(** The character class of the regular expression: the nine bytes
    less-than, greater-than, colon, double quote, slash, backslash, bar,
    question mark and star. A byte of a multi-byte or invalid UTF-8
    sequence is none of them. *)
Definition invalidByte (c : ascii) : bool :=
  existsb (Ascii.eqb c)
    ["<"%char; ">"%char; ":"%char; ascii_of_nat 34; "/"%char; "\"%char;
     "|"%char; "?"%char; "*"%char].

(** [re.ReplaceAllString(name, "_")] *)
Definition sanitizeFilename (name : string) : string :=
  mapBytes (fun c => if invalidByte c then "_"%char else c) name.

(** [i++] on [int], 64 bits wide. *)
Definition incr (i : Z) : Z :=
  if (i =? 9223372036854775807)%Z then (-9223372036854775808)%Z
  else (i + 1)%Z.

Section Program.

(** Library functions the program calls and that are parameters here: the
    Unicode half of [strings.ToLower], [strings.TrimSpace], [filepath.Join]
    and [filepath.Dir]; and the platform. *)
Variable goos : OS.
Variable unicodeLower : string -> string.
Variable TrimSpace : string -> string.
Variable filepath_Join : list string -> string.
Variable filepath_Dir : string -> string.

Variable w : World.

(** *** [runFFmpeg] *)

Definition runFFmpeg (cfg : Config) (args : list string) : Prog unit :=
  emit (EvRun (FfmpegBin cfg) args (Verbose cfg) true) ;;;
  match Run w (FfmpegBin cfg) args with
  | Some err =>
      Print (" FFmpeg Error: " ++ errorText err ++ nl) ;;;
      exit 1
  | None => ret tt
  end.

(** *** [simpleCut] *)

(** [fmt.Sprintf("volume=0:enable='between(t,%.3f,%.3f)'", startSec, endSec)] *)
Definition muteFilter (startSec endSec : float64) : string :=
  "volume=0:enable='between(t," ++ fmtFloat3 startSec ++ ","
    ++ fmtFloat3 endSec ++ ")'".

Definition simpleCut (cfg : Config) : Prog unit :=
  let inputArgs := getInputArgs cfg in
  filters <-
    (if nonEmpty (MuteStart cfg) && nonEmpty (MuteEnd cfg) then
       startSec <- orPanic (parseTimeToSeconds (MuteStart cfg)) ;;
       endSec <- orPanic (parseTimeToSeconds (MuteEnd cfg)) ;;
       ret ([] ++ [muteFilter startSec endSec])
     else ret []) ;;
  let args :=
    inputArgs ++
      ["-c:v"; "libx264"; "-preset"; Preset cfg; "-crf"; Itoa (CRF cfg);
       "-c:a"; "aac"; "-b:a"; "192k"] in
  let args :=
    if (0 <? List.length filters)%nat
    then args ++ ["-af"; Join filters ","]
    else args in
  let args := args ++ ["-y"; OutputFile cfg] in
  runFFmpeg cfg args.

(** *** [extractAudio] *)

Definition extractAudio (cfg : Config) : Prog unit :=
  let outputFile := OutputFile cfg in
  let outputFile :=
    if String.eqb outputFile EmptyString then
      let ext := Ext goos (InputFile cfg) in
      let base := TrimSuffix (InputFile cfg) ext in
      (base ++ ".mp3")%string
    else if negb (HasSuffix (ToLower unicodeLower outputFile) ".mp3")
         then (outputFile ++ ".mp3")%string
         else outputFile in
  let cfg := withOutputFile cfg outputFile in
  Print ("Extracting MP3 to: " ++ OutputFile cfg ++ nl) ;;;
  let args :=
    ["-i"; InputFile cfg; "-vn"; "-acodec"; "libmp3lame"; "-q:a"; "2";
     "-y"; OutputFile cfg] in
  runFFmpeg cfg args.

(** *** [resolveBinary] *)

Definition statOk (path : string) : bool :=
  match Stat w path with
  | StatOk _ => true
  | _ => false
  end.

(** One [bin] directory: the bare name, then the name with ".exe". *)
Definition tryBin (dir : string) (name : string) : option string :=
  let binPath := filepath_Join [dir; "bin"; name] in
  if statOk binPath then Some binPath
  else if statOk (binPath ++ ".exe")%string
       then Some (binPath ++ ".exe")%string
  else None.

Definition resolveBinary (name : string) : string :=
  match
    match Executable w with
    | Some exePath => tryBin (filepath_Dir exePath) name
    | None => None
    end
  with
  | Some found => found
  | None =>
      match
        match Getwd w with
        | Some cwd => tryBin cwd name
        | None => None
        end
      with
      | Some found => found
      | None => fst (LookPath w name)
      end
  end.

(** *** [printStats] *)

Definition printStats (cfg : Config) : Prog unit :=
  Println (nl ++ " Done!") ;;;
  Print ("Output: " ++ OutputFile cfg ++ nl).

(** *** [interactiveMode] *)

(** [scanner.Scan()] and [scanner.Text()]: the next line, if any. *)
Definition scan (lines : list string) : option string * list string :=
  match lines with
  | [] => (None, [])
  | l :: r => (Some l, r)
  end.

(** [if scanner.Scan() { field = strings.TrimSpace(scanner.Text()) }] *)
Definition scanInto (set : Config -> string -> Config) (cfg : Config)
                    (lines : list string) : Config * list string :=
  match scan lines with
  | (Some text, r) => (set cfg (TrimSpace text), r)
  | (None, r) => (cfg, r)
  end.

Definition interactiveMode : Prog Config :=
  let cfg := emptyConfig in
  Print "Enter input video file path or YouTube URL: " ;;;
  let '(cfg, lines) := scanInto withInputFile cfg (stdin w) in
  Println "Select Mode:" ;;;
  Println "1. Cut (Trim video)" ;;;
  Println "2. Mute (Mute a section)" ;;;
  Println "3. Extract MP3" ;;;
  Print "Enter choice (1, 2, or 3): " ;;;
  let '(mode, lines) :=
    match scan lines with
    | (Some text, r) => (TrimSpace text, r)
    | (None, r) => (EmptyString, r)
    end in
  if String.eqb mode "1" then
    Println "--- Cut Mode ---" ;;;
    Print "Enter Start Time (e.g., 00:05 or 5): " ;;;
    let '(cfg, lines) := scanInto withStartTime cfg lines in
    Print "Enter End Time (e.g., 00:10 or 10): " ;;;
    let '(cfg, lines) := scanInto withEndTime cfg lines in
    ret cfg
  else if String.eqb mode "2" then
    Println "--- Mute Mode ---" ;;;
    Print "Enter Start Time to Mute (e.g., 00:05 or 5): " ;;;
    let '(cfg, lines) := scanInto withMuteStart cfg lines in
    Print "Enter End Time to Mute (e.g., 00:10 or 10): " ;;;
    let '(cfg, lines) := scanInto withMuteEnd cfg lines in
    ret cfg
  else if String.eqb mode "3" then
    Println "--- MP3 Extraction Mode ---" ;;;
    ret (withExtractMP3 cfg true)
  else
    Println "Invalid mode selected. Exiting." ;;;
    ret cfg.

(** *** The output path of [main] *)

(** Lines 124-134 of [main]: the output path, generated from the input
    path when [-o] is empty. *)
Definition outputFileOf (outputFlag input muteStart : string) : string :=
  let outputFile := outputFlag in
  if String.eqb outputFile EmptyString then
    let ext := Ext goos input in
    let base := TrimSuffix input ext in
    let suffix := "_cleaned" in
    let suffix :=
      if nonEmpty muteStart then (suffix ++ "_muted")%string else suffix in
    (base ++ suffix ++ ext)%string
  else outputFile.

(** *** [ensureUniqueFilename] *)

(** The loop [for i := 1; ; i++], which has no exit but its [return]:
    [fuel] bounds the iterations, and [None] says that the loop is still
    running when they are spent. *)
Fixpoint uniqueLoop (fuel : nat) (base ext : string) (i : Z)
  : option string :=
  match fuel with
  | O => None
  | S fuel' =>
      let newPath := (base ++ "_" ++ Itoa i ++ ext)%string in
      match Stat w newPath with
      | StatNotExist => Some newPath
      | _ => uniqueLoop fuel' base ext (incr i)
      end
  end.

Definition ensureUniqueFilename (fuel : nat) (path : string)
  : option string :=
  match Stat w path with
  | StatNotExist => Some path
  | _ =>
      let ext := Ext goos path in
      let base := TrimSuffix path ext in
      uniqueLoop fuel base ext 1
  end.

(** *** [downloadYoutubeVideo] *)

(** The result is the pair [(string, error)] the function returns and the
    file system it leaves. The deferred calls run when it returns, the last
    deferred first. *)
Definition downloadYoutubeVideo (fuel : nat) (url : string)
  : Prog (string * option string * World) :=
  Println "Initializing YouTube client..." ;;;
  Print ("Fetching video info for: " ++ url ++ nl) ;;;
  emit (EvGetVideo url) ;;;
  match GetVideo w url with
  | inr err =>
      ret (EmptyString, Some ("failed to get video info: " ++ err)%string, w)
  | inl video =>
      Print ("Found video: " ++ Title video ++ nl) ;;;
      let formats := WithAudioChannels (Formats video) in
      match formats with
      | [] =>
          ret (EmptyString,
               Some "no suitable video format with audio found", w)
      | format :: _ =>
          Print ("Downloading format: " ++ MimeType format
                 ++ " (Quality: " ++ QualityLabel format ++ ")" ++ nl) ;;;
          emit (EvGetStream video format) ;;;
          match GetStream w video format with
          | Some err =>
              ret (EmptyString,
                   Some ("failed to get stream: " ++ err)%string, w)
          | None =>
              let cleanTitle := sanitizeFilename (Title video) in
              let outputFile := (cleanTitle ++ ".mp4")%string in
              match ensureUniqueFilename fuel outputFile with
              | None => unfinished
              | Some outputFile =>
                  Print ("Downloading to: " ++ outputFile ++ nl) ;;;
                  emit (EvCreate outputFile) ;;;
                  match Create w outputFile with
                  | Some err =>
                      emit EvCloseStream ;;;
                      ret (EmptyString,
                           Some ("failed to create file: " ++ err)%string, w)
                  | None =>
                      let w' := created w outputFile in
                      emit (EvCopy outputFile) ;;;
                      match Copy w outputFile with
                      | Some err =>
                          emit (EvCloseFile outputFile) ;;;
                          emit EvCloseStream ;;;
                          ret (EmptyString,
                               Some ("failed to download video: " ++ err)%string,
                               w')
                      | None =>
                          emit (EvCloseFile outputFile) ;;;
                          emit EvCloseStream ;;;
                          ret (outputFile, None, w')
                      end
                  end
              end
          end
      end
  end.

(** *** [main] *)

(** Lines 92-97 and 101-106 of [main]: the fetch, which ends the process
    when it fails; the result is the fetched file and the file system it
    is in. *)
Definition download (fuel : nat) (url : string) : Prog (string * World) :=
  fetched <- downloadYoutubeVideo fuel url ;;
  let '(downloadedFile, err, w') := fetched in
  match err with
  | Some e =>
      Print ("Error downloading YouTube video: " ++ e ++ nl) ;;;
      exit 1
  | None => ret (downloadedFile, w')
  end.

(** Lines 109-168 of [main]: what [main] does once the input is settled,
    in the file system it is then in: the check of the input, the
    Configuration, the two tools, the output directory, the encoder and the
    report. *)
Definition process (fl : Flags) (input : string) : Prog unit :=
  match Stat w input with
  | StatNotExist =>
      Print ("Error: Input file '" ++ input ++ "' does not exist." ++ nl) ;;;
      exit 1
  | StatErr msg =>
      Print ("Error: Cannot access input file: " ++ msg ++ nl) ;;;
      exit 1
  | StatOk true =>
      Print ("Error: Input '" ++ input
             ++ "' is a directory. Please specify a video file." ++ nl) ;;;
      exit 1
  | StatOk false =>
      let outputFile := outputFileOf (outputPtr fl) input (muteStartPtr fl) in
      let cfg :=
        mkConfig input outputFile zero 0 (presetPtr fl) (crfPtr fl)
                 (muteStartPtr fl) (muteEndPtr fl) (startPtr fl) (endPtr fl)
                 EmptyString EmptyString (verbosePtr fl) (mp3Ptr fl) in
      let cfg := withFfmpegBin cfg (resolveBinary "ffmpeg") in
      let cfg := withFfprobeBin cfg (resolveBinary "ffprobe") in
      if String.eqb (FfmpegBin cfg) EmptyString
         || String.eqb (FfprobeBin cfg) EmptyString then
        Println
          "Error: ffmpeg or ffprobe not found in 'bin' folder or system PATH." ;;;
        Println "Please run the setup script to download them." ;;;
        exit 1
      else
        emit (EvMkdirAll (filepath_Dir (OutputFile cfg))) ;;;
        Println "Mode: Processing (Cut/Mute)..." ;;;
        (if ExtractMP3 cfg then extractAudio cfg else simpleCut cfg) ;;;
        printStats cfg
  end.

End Program.

Section Main.

Variable goos : OS.
Variable unicodeLower : string -> string.
Variable TrimSpace : string -> string.
Variable filepath_Join : list string -> string.
Variable filepath_Dir : string -> string.

(** The world [main] starts in. *)
Variable w : World.

(** Lines 59-107 of [main], from the flag values that [flag.Parse()]
    returned, and then [process]. The fetch leaves its file in the file
    system, so what follows it runs in the world [w'] the fetch left; with
    no fetch that is [w]. The fuel is for the loop of
    [ensureUniqueFilename] inside the fetch. *)
Definition main (fuel : nat) (fl : Flags) : Prog unit :=
  fl <-
    (if String.eqb (inputPtr fl) EmptyString
        && String.eqb (urlPtr fl) EmptyString then
       Println
         "No input file provided via flags. Entering Interactive Mode..." ;;;
       ic <- interactiveMode TrimSpace w ;;
       ret (mkFlags
              (if nonEmpty (InputFile ic) then InputFile ic else inputPtr fl)
              (OutputFile ic) (StartTime ic) (EndTime ic)
              (MuteStart ic) (MuteEnd ic)
              (presetPtr fl) (crfPtr fl) (verbosePtr fl)
              (ExtractMP3 ic) (urlPtr fl))
     else ret fl) ;;
  (if String.eqb (inputPtr fl) EmptyString
      && String.eqb (urlPtr fl) EmptyString then
     Println "Error: Input file or YouTube URL required." ;;;
     exit 1
   else ret tt) ;;;
  located <-
    (if nonEmpty (urlPtr fl) then
       Println "YouTube URL provided. Downloading..." ;;;
       download goos w fuel (urlPtr fl)
     else if HasPrefix (inputPtr fl) "http://"
             || HasPrefix (inputPtr fl) "https://"
             || HasPrefix (inputPtr fl) "www." then
       Println "YouTube URL detected. Downloading..." ;;;
       download goos w fuel (inputPtr fl)
     else ret (inputPtr fl, w)) ;;
  let '(input, w') := located in
  process goos unicodeLower filepath_Join filepath_Dir w' fl input.

(** [main] from its first line: [flag.Parse()] returns the flag values or
    ends the process. *)
Definition mainFromCommandLine (fuel : nat) (cl : CommandLine) : Prog unit :=
  match cl with
  | Accepted fl => main fuel fl
  | HelpRequested usage => emit (EvStderr usage) ;;; exit 0
  | Rejected report => emit (EvStderr report) ;;; exit 2
  end.

End Main.

(** * Definitions used to state the properties *)

(** ** The timestamp parser *)

(** What a segment is worth: the value [ParseFloat] returns for it, its
    error dropped. *)
Definition segmentValue (part : string) : float64 := fst (ParseFloat part).

(** The weight of the [k]-th segment from the right: 1, 60, 3600, ...,
    each the float64 product of the one before and 60. *)
Fixpoint pow60 (k : nat) : float64 :=
  match k with
  | O => ofZ 1
  | S k' => mul (pow60 k') (ofZ 60)
  end.

(** The float64 sum of the segments, listed from the right, each times its
    weight, starting at the [k]-th weight from [acc]. *)
Fixpoint placeValueSum (fromRight : list string) (k : nat) (acc : float64)
  : float64 :=
  match fromRight with
  | [] => acc
  | part :: more =>
      placeValueSum more (S k) (add acc (mul (segmentValue part) (pow60 k)))
  end.

(** The claimed contract, in the spec's words: a string that parses is
    returned as it is; otherwise the segments between the colons are summed
    by place value, and a segment that does not parse adds zero. *)
Definition specTerm (part : string) (k : nat) : float64 :=
  match ParseFloat part with
  | (val, None) => mul val (pow60 k)
  | (_, Some _) => zero
  end.

Fixpoint specSum (fromRight : list string) (k : nat) (acc : float64)
  : float64 :=
  match fromRight with
  | [] => acc
  | part :: more => specSum more (S k) (add acc (specTerm part k))
  end.

Definition spec_parseTimeToSeconds (ts : string) : float64 :=
  match ParseFloat ts with
  | (val, None) => val
  | (_, Some _) => specSum (rev (Split ts ":")) 0 zero
  end.

(** The parsed second offset as a total function. *)
Definition seconds (ts : string) : float64 :=
  match ParseFloat ts with
  | (val, None) => val
  | (_, Some _) => placeValueSum (rev (Split ts ":")) 0 zero
  end.

(** A weight that has not overflowed: finite and positive. *)
Definition posFinite (x : float64) : bool :=
  match x with
  | S754_finite false _ _ => true
  | _ => false
  end.

(** [n] colons: a timestamp of [n + 1] empty segments. *)
Fixpoint colons (n : nat) : string :=
  match n with
  | O => EmptyString
  | S k => String ":" (colons k)
  end.

(** ** The argument builder *)

(** The codec, preset and quality flags [simpleCut] always passes. *)
Definition encodeFlags (cfg : Config) : list string :=
  ["-c:v"; "libx264"; "-preset"; Preset cfg; "-crf"; Itoa (CRF cfg);
   "-c:a"; "aac"; "-b:a"; "192k"].

(** A mute window: both boundaries given. *)
Definition muteWindow (cfg : Config) : bool :=
  nonEmpty (MuteStart cfg) && nonEmpty (MuteEnd cfg).

(** ** The binary resolver *)

(** The two candidates of one [bin] directory. *)
Definition binCandidates (filepath_Join : list string -> string)
    (dir name : string) : list string :=
  [filepath_Join [dir; "bin"; name];
   (filepath_Join [dir; "bin"; name] ++ ".exe")%string].

(** The candidates in the order the spec gives them: next to the running
    executable, then under the working directory. *)
Definition searchOrder (filepath_Join : list string -> string)
    (filepath_Dir : string -> string) (w : World) (name : string)
  : list string :=
  match Executable w with
  | Some exePath => binCandidates filepath_Join (filepath_Dir exePath) name
  | None => []
  end
  ++ match Getwd w with
     | Some cwd => binCandidates filepath_Join cwd name
     | None => []
     end.

(** ** The process runner *)

(** A step that does not run the encoder, and goes on, ends the process
    with status 1, or is not over. *)
Definition Silent {A} (m : Prog A) : Prop :=
  runArgs (trace m) = []
  /\ (status m = Exited 1 \/ status m = Unfinished
      \/ exists a, status m = Returned a).

(** What [runFFmpeg] prints when [cmd.Run()] fails. *)
Definition failureReport (err : RunError) : Event :=
  EvPrint (" FFmpeg Error: " ++ errorText err ++ nl).

(** The worlds [main] can be in: the one it started in, or that one with
    the fetched file created in it. *)
Definition reaches (w w' : World) : Prop :=
  w' = w \/ exists path, w' = created w path.

(** A run that starts the encoder at most once; when it does and the
    encoder fails, the failure report is the last thing that happens and
    the process ends with status 1. *)
Definition RunsOnce (w : World) {A} (m : Prog A) : Prop :=
  Silent m
  \/ exists pre bin args so se post,
       runArgs pre = [] /\ runArgs post = []
       /\ trace m = pre ++ EvRun bin args so se :: post
       /\ match Run w bin args with
          | Some err => post = [failureReport err] /\ status m = Exited 1
          | None =>
              status m = Exited 1 \/ status m = Unfinished
              \/ exists a, status m = Returned a
          end.

(** ** Concrete machines and Configurations *)

(** The machines are Unix machines: [filepath.Join] is [unixJoin] and
    [filepath.Dir] is [unixDir]. What is typed on them has no white space
    around it and their paths are ASCII, so [strings.TrimSpace] and the
    Unicode half of [strings.ToLower] change nothing there. *)
Definition sameString (s : string) : string := s.

(** A machine with the input file and both tools in place, whose encoder
    exits with code 2. *)
Definition failingWorld : World :=
  mkWorld []
    (Some "/opt/mutecut/mutecut")
    (Some "/home/user")
    (fun path =>
       if String.eqb path "a.mp4"
          || String.eqb path "/opt/mutecut/bin/ffmpeg"
          || String.eqb path "/home/user/bin/ffprobe.exe"
       then StatOk false else StatNotExist)
    (fun _ => (EmptyString, Some "executable file not found in $PATH"))
    (fun _ => inr "no network")
    (fun _ _ => Some "no network")
    (fun _ => None)
    (fun _ => None)
    (fun _ _ => Some (ExitError 2)).

(** The same machine with a working encoder, and a user who answers the
    prompts: the file, mode 2 (mute), start "10", and an empty line for the
    end. *)
Definition workingWorld : World :=
  mkWorld ["a.mp4"; "2"; "10"; EmptyString]
    (Executable failingWorld) (Getwd failingWorld) (Stat failingWorld)
    (LookPath failingWorld) (GetVideo failingWorld) (GetStream failingWorld)
    (Create failingWorld) (Copy failingWorld)
    (fun _ _ => None).

(** A machine with no tools anywhere. *)
Definition bareWorld : World :=
  mkWorld []
    (Some "/opt/mutecut/mutecut")
    (Some "/home/user")
    (fun _ => StatNotExist)
    (fun _ => (EmptyString, Some "executable file not found in $PATH"))
    (fun _ => inr "no network")
    (fun _ _ => Some "no network")
    (fun _ => None)
    (fun _ => None)
    (fun _ _ => None).

Definition configOf (muteStart muteEnd : string) : Config :=
  mkConfig "a.mp4" "out.mp4" zero 0 "medium" 23 muteStart muteEnd
           EmptyString EmptyString "/opt/mutecut/bin/ffmpeg"
           "/home/user/bin/ffprobe.exe" false false.

(** [-i a.mp4 -mute-start 10 -mute-end 5] *)
Definition reversedMuteFlags : Flags :=
  mkFlags "a.mp4" EmptyString EmptyString EmptyString "10" "5"
          "medium" 23 false false EmptyString.


(** ** Whole runs *)

(** What [printStats] prints for the output path [out]. *)
Definition doneReport (out : string) : list Event :=
  [EvPrint (nl ++ " Done!" ++ nl); EvPrint ("Output: " ++ out ++ nl)].

(** How a run that reaches the encoder can go: it stops with status 1
    before running anything; or it runs [bin] once, after steps [pre] that
    run nothing, with standard output mirrored when [so] and standard error
    always, and then either reports the failure and stops with status 1, or
    goes on with the events [done] and returns. *)
Definition Outcome (w : World) (bin : string) (so : bool)
    (done : list Event) {A} (m : Prog A) : Prop :=
  (runArgs (trace m) = [] /\ status m = Exited 1)
  \/ exists pre args,
       runArgs pre = []
       /\ match Run w bin args with
          | Some err =>
              trace m = pre ++ [EvRun bin args so true; failureReport err]
              /\ status m = Exited 1
          | None =>
              trace m = pre ++ EvRun bin args so true :: done
              /\ exists a, status m = Returned a
          end.

(** A run that is not over: it has asked for the stream of a video and is
    looking for a free name for its file, every name tried so far being
    taken. *)
Definition Searching (goos : OS) (w : World) (fuel : nat) {A}
    (m : Prog A) : Prop :=
  exists pre video format,
    trace m = pre ++ [EvGetStream video format]
    /\ runArgs pre = []
    /\ ensureUniqueFilename goos w fuel
         (sanitizeFilename (Title video) ++ ".mp4") = None
    /\ status m = Unfinished.

(** A step that starts no process: it goes on, ends the process with status
    1, or is searching. *)
Definition Quiet (goos : OS) (w : World) (fuel : nat) {A}
    (m : Prog A) : Prop :=
  runArgs (trace m) = []
  /\ (status m = Exited 1 \/ Searching goos w fuel m
      \/ exists a, status m = Returned a).

(** How a run of [main] can go: as a run that reaches the encoder, in a
    world [main] can be in, or searching. *)
Definition Ending (goos : OS) (filepath_Join : list string -> string)
    (filepath_Dir : string -> string) (w : World) (fuel : nat) (so : bool)
    {A} (m : Prog A) : Prop :=
  (runArgs (trace m) = [] /\ status m = Exited 1)
  \/ Searching goos w fuel m
  \/ exists w' out,
       reaches w w'
       /\ exists pre args,
            runArgs pre = []
            /\ match Run w (resolveBinary filepath_Join filepath_Dir w'
                              "ffmpeg") args with
               | Some err =>
                   trace m
                   = pre ++ [EvRun (resolveBinary filepath_Join filepath_Dir
                                      w' "ffmpeg") args so true;
                             failureReport err]
                   /\ status m = Exited 1
               | None =>
                   trace m
                   = pre ++ EvRun (resolveBinary filepath_Join filepath_Dir
                                     w' "ffmpeg") args so true
                            :: doneReport out
                   /\ exists a, status m = Returned a
               end.

(** The directories a run asked to create. *)
Fixpoint mkdirs (t : list Event) : list string :=
  match t with
  | [] => []
  | EvMkdirAll path :: t' => path :: mkdirs t'
  | _ :: t' => mkdirs t'
  end.

(** The URLs a run asked to fetch. *)
Fixpoint downloads (t : list Event) : list string :=
  match t with
  | [] => []
  | EvGetVideo url :: t' => url :: downloads t'
  | _ :: t' => downloads t'
  end.

(** [*inputPtr = v] *)
Definition withInputPtr (fl : Flags) (v : string) : Flags :=
  mkFlags v (outputPtr fl) (startPtr fl) (endPtr fl) (muteStartPtr fl)
          (muteEndPtr fl) (presetPtr fl) (crfPtr fl) (verbosePtr fl)
          (mp3Ptr fl) (urlPtr fl).

(** The input looks like a URL to [main]. *)
Definition urlLike (input : string) : bool :=
  HasPrefix input "http://" || HasPrefix input "https://"
  || HasPrefix input "www.".

(** A step that runs nothing and creates no directory, and either goes on
    or ends the process with status 1. *)
Definition Idle {A} (m : Prog A) : Prop :=
  runArgs (trace m) = [] /\ mkdirs (trace m) = []
  /\ (status m = Exited 1 \/ status m = Unfinished
      \/ exists a, status m = Returned a).

(** A run that has run nothing and created no directory, and that ends
    with status 1 or is not over. *)
Definition IdleStop {A} (m : Prog A) : Prop :=
  runArgs (trace m) = [] /\ mkdirs (trace m) = []
  /\ (status m = Exited 1 \/ status m = Unfinished).

(** A machine that has the input file but neither tool. *)
Definition toollessWorld : World :=
  mkWorld []
    (Some "/opt/mutecut/mutecut")
    (Some "/home/user")
    (fun path =>
       if String.eqb path "a.mp4" then StatOk false else StatNotExist)
    (fun _ => (EmptyString, Some "executable file not found in $PATH"))
    (fun _ => inr "no network")
    (fun _ _ => Some "no network")
    (fun _ => None)
    (fun _ => None)
    (fun _ _ => None).

(** [-i ignored.mp4 -url https://example.org/v] *)
Definition urlFlags : Flags :=
  mkFlags "ignored.mp4" EmptyString EmptyString EmptyString EmptyString
          EmptyString "medium" 23 false false "https://example.org/v".


(** [-i missing.mp4] *)
Definition missingFlags : Flags :=
  mkFlags "missing.mp4" EmptyString EmptyString EmptyString EmptyString
          EmptyString "medium" 23 false false EmptyString.

(** The same machine with another answer from [exec.LookPath]. *)
Definition withLookPath (w : World)
    (lookPath : string -> string * option string) : World :=
  mkWorld (stdin w) (Executable w) (Getwd w) (Stat w) lookPath
          (GetVideo w) (GetStream w) (Create w) (Copy w) (Run w).

(** The Configuration [main] builds from the flags once the input path is
    settled (lines 136-150). *)
Definition configOfFlags (goos : OS) (filepath_Join : list string -> string)
    (filepath_Dir : string -> string) (w : World) (fl : Flags)
    (input : string) : Config :=
  mkConfig input (outputFileOf goos (outputPtr fl) input (muteStartPtr fl))
           zero 0 (presetPtr fl) (crfPtr fl)
           (muteStartPtr fl) (muteEndPtr fl) (startPtr fl) (endPtr fl)
           (resolveBinary filepath_Join filepath_Dir w "ffmpeg")
           (resolveBinary filepath_Join filepath_Dir w "ffprobe")
           (verbosePtr fl) (mp3Ptr fl).

(** The arguments of a trim or mute run. *)
Definition cutArgs (cfg : Config) : list string :=
  getInputArgs cfg ++ encodeFlags cfg
  ++ (if muteWindow cfg
      then ["-af"; muteFilter (seconds (MuteStart cfg))
                              (seconds (MuteEnd cfg))]
      else [])
  ++ ["-y"; OutputFile cfg].

(** [-i a.mp4 -start 10 -o out/clip.mp4] *)
Definition trimFlags : Flags :=
  mkFlags "a.mp4" "out/clip.mp4" "10" EmptyString EmptyString EmptyString
          "medium" 23 false false EmptyString.

(** A byte that is neither a dot nor a path separator, and a string of
    such bytes. *)
Definition plainByte (goos : OS) (c : ascii) : bool :=
  negb (IsPathSeparator goos c) && negb (Ascii.eqb c ".").

Fixpoint plain (goos : OS) (s : string) : bool :=
  match s with
  | EmptyString => true
  | String c r => plainByte goos c && plain goos r
  end.

(** The path [extractAudio] writes to when it is given the non-empty output
    path [out]. *)
Definition mp3Path (unicodeLower : string -> string) (out : string)
  : string :=
  if HasSuffix (ToLower unicodeLower out) ".mp3" then out
  else (out ++ ".mp3")%string.

(** The spellings of the extension ".mp3" that differ by the case of its
    letters. *)
Definition mp3Spellings : list string := [".mp3"; ".mP3"; ".Mp3"; ".MP3"].

(** [-i a.mp4 -mp3] *)
Definition mp3Flags : Flags :=
  mkFlags "a.mp4" EmptyString EmptyString EmptyString EmptyString
          EmptyString "medium" 23 false true EmptyString.

(** ** The fetch *)

(** The [i]-th name [ensureUniqueFilename] tries after [path] itself. *)
Definition numbered (goos : OS) (path : string) (i : Z) : string :=
  (TrimSuffix path (Ext goos path) ++ "_" ++ Itoa i ++ Ext goos path)%string.

(** No byte of [s] is one that [sanitizeFilename] replaces. *)
Fixpoint validName (s : string) : bool :=
  match s with
  | EmptyString => true
  | String c r => negb (invalidByte c) && validName r
  end.

(** The nine bytes [sanitizeFilename] replaces, in the order of its
    regular expression. *)
Definition invalidBytes : string :=
  ("<>:" ++ String (ascii_of_nat 34) "/\|?*")%string.

(** No byte of [s] is a path separator, on either platform. *)
Fixpoint noSeparator (s : string) : bool :=
  match s with
  | EmptyString => true
  | String c r => negb (IsPathSeparator Windows c) && noSeparator r
  end.

(** What a fetch that succeeds does, in order, for the video [video], its
    format [format] and the file [file]. *)
Definition fetchEvents (url : string) (video : Video) (format : Format)
    (file : string) : list Event :=
  [EvPrint ("Initializing YouTube client..." ++ nl);
   EvPrint ("Fetching video info for: " ++ url ++ nl);
   EvGetVideo url;
   EvPrint ("Found video: " ++ Title video ++ nl);
   EvPrint ("Downloading format: " ++ MimeType format
              ++ " (Quality: " ++ QualityLabel format ++ ")" ++ nl);
   EvGetStream video format;
   EvPrint ("Downloading to: " ++ file ++ nl);
   EvCreate file;
   EvCopy file;
   EvCloseFile file;
   EvCloseStream].

(** A video with a picture-only format and a format with sound, and a
    title that holds a colon and a slash. *)
Definition soundFormat : Format := mkFormat "video/mp4" "720p" 2.

Definition holiday : Video :=
  mkVideo "Holiday: day 1/2" [mkFormat "video/webm" "1080p" 0; soundFormat].

(** A machine on the network, with both tools, a working encoder, and a
    file that already has the name the video would get. *)
Definition onlineWorld : World :=
  mkWorld []
    (Some "/opt/mutecut/mutecut")
    (Some "/home/user")
    (fun path =>
       if String.eqb path "Holiday_ day 1_2.mp4"
          || String.eqb path "/opt/mutecut/bin/ffmpeg"
          || String.eqb path "/home/user/bin/ffprobe.exe"
       then StatOk false else StatNotExist)
    (fun _ => (EmptyString, Some "executable file not found in $PATH"))
    (fun _ => inl holiday)
    (fun _ _ => None)
    (fun _ => None)
    (fun _ => None)
    (fun _ _ => None).

(** The same machine in a working directory it may not search: [os.Stat]
    fails for every path, and never because the file does not exist. *)
Definition lockedWorld : World :=
  mkWorld [] (Executable onlineWorld) (Getwd onlineWorld)
    (fun _ => StatErr "permission denied")
    (LookPath onlineWorld) (GetVideo onlineWorld) (GetStream onlineWorld)
    (Create onlineWorld) (Copy onlineWorld) (Run onlineWorld).

(** * Properties *)

(** ** Strings *)

Section StringFacts.

Lemma length_app (a b : string) :
  String.length (a ++ b) = String.length a + String.length b.
Proof. induction a as [|c a IH]; simpl; [reflexivity | now rewrite IH]. Qed.

Lemma append_assoc_string (a b c : string) :
  (a ++ (b ++ c))%string = ((a ++ b) ++ c)%string.
Proof. induction a as [|x a IH]; simpl; [reflexivity | now rewrite IH]. Qed.

Lemma substring_zero_zero (s : string) : substring 0 0 s = EmptyString.
Proof. destruct s; reflexivity. Qed.

Lemma substring_app_prefix (a b : string) :
  substring 0 (String.length a) (a ++ b) = a.
Proof.
  induction a as [|c a IH]; simpl.
  - apply substring_zero_zero.
  - now rewrite IH.
Qed.

Lemma substring_whole (b : string) : substring 0 (String.length b) b = b.
Proof. induction b as [|c b IH]; simpl; [reflexivity | now rewrite IH]. Qed.

Lemma substring_app_suffix (a b : string) :
  substring (String.length a) (String.length b) (a ++ b) = b.
Proof.
  induction a as [|c a IH]; simpl.
  - apply substring_whole.
  - exact IH.
Qed.

Lemma substring_split (s : string) (i : nat) :
  i <= String.length s ->
  (substring 0 i s ++ substring i (String.length s - i) s)%string = s.
Proof.
  revert i; induction s as [|c s IH]; intros i Hi; simpl in Hi.
  - assert (i = 0) by lia; subst; reflexivity.
  - destruct i as [|i]; simpl.
    + now rewrite substring_whole.
    + rewrite IH by lia. reflexivity.
Qed.

Lemma HasSuffix_app (a b : string) : HasSuffix (a ++ b) b = true.
Proof.
  unfold HasSuffix. rewrite length_app.
  replace (String.length a + String.length b - String.length b)
    with (String.length a) by lia.
  rewrite substring_app_suffix, String.eqb_refl.
  rewrite andb_true_r. apply Nat.leb_le. lia.
Qed.

Lemma TrimSuffix_app (a b : string) : TrimSuffix (a ++ b) b = a.
Proof.
  unfold TrimSuffix. rewrite HasSuffix_app, length_app.
  replace (String.length a + String.length b - String.length b)
    with (String.length a) by lia.
  apply substring_app_prefix.
Qed.

Lemma get_app_right (a b : string) (k : nat) :
  String.get (String.length a + k) (a ++ b) = String.get k b.
Proof. induction a as [|c a IH]; simpl; [reflexivity | exact IH]. Qed.

Lemma substring_app_right (a b : string) (k m : nat) :
  substring (String.length a + k) m (a ++ b) = substring k m b.
Proof. induction a as [|c a IH]; simpl; [reflexivity | exact IH]. Qed.

Lemma nonEmpty_true (s : string) : nonEmpty s = true <-> s <> EmptyString.
Proof.
  unfold nonEmpty. rewrite negb_true_iff. apply String.eqb_neq.
Qed.

Lemma nonEmpty_false (s : string) : nonEmpty s = false <-> s = EmptyString.
Proof.
  unfold nonEmpty. rewrite negb_false_iff. apply String.eqb_eq.
Qed.

End StringFacts.

(** ** [filepath.Ext] *)

Section ExtFacts.

Variable goos : OS.

(** [Ext] returns a suffix of the path. *)
Lemma extLoop_suffix (path : string) (n : nat) :
  n <= String.length path ->
  exists i, i <= String.length path /\
    extLoop goos path n = substring i (String.length path - i) path.
Proof.
  induction n as [|n IH]; intros Hn; simpl.
  - exists (String.length path). split; [lia|].
    rewrite Nat.sub_diag.
    clear Hn. induction path as [|c p IHp]; simpl; [reflexivity | exact IHp].
  - destruct (String.get n path) as [c|] eqn:Hget.
    + destruct (IsPathSeparator goos c).
      * exists (String.length path). split; [lia|].
        rewrite Nat.sub_diag.
        clear. induction path as [|c p IHp]; simpl; [reflexivity | exact IHp].
      * destruct (Ascii.eqb c "."); [exists n; split; [lia | reflexivity]|].
        apply IH; lia.
    + exists (String.length path). split; [lia|].
      rewrite Nat.sub_diag.
      clear. induction path as [|c p IHp]; simpl; [reflexivity | exact IHp].
Qed.

Lemma Ext_suffix (path : string) :
  exists base, path = (base ++ Ext goos path)%string.
Proof.
  destruct (extLoop_suffix path (String.length path) (le_n _))
    as [i [Hi Hext]].
  exists (substring 0 i path). unfold Ext. rewrite Hext.
  symmetry. apply substring_split. exact Hi.
Qed.

(** The base and the extension that [main] and [extractAudio] compute put
    the path together again. *)
Lemma TrimSuffix_Ext (path : string) :
  (TrimSuffix path (Ext goos path) ++ Ext goos path)%string = path.
Proof.
  destruct (Ext_suffix path) as [base Hbase].
  rewrite Hbase at 1. rewrite TrimSuffix_app. symmetry. exact Hbase.
Qed.

Lemma extLoop_skip (path : string) (i : nat) (c : ascii) :
  String.get i path = Some c ->
  IsPathSeparator goos c = false ->
  Ascii.eqb c "." = false ->
  extLoop goos path (S i) = extLoop goos path i.
Proof. intros Hget Hsep Hdot. simpl. now rewrite Hget, Hsep, Hdot. Qed.

Lemma extLoop_dot (path : string) (i : nat) :
  String.get i path = Some "."%char ->
  extLoop goos path (S i) = substring i (String.length path - i) path.
Proof.
  intros Hget. simpl. rewrite Hget.
  now replace (IsPathSeparator goos ".") with false
    by (destruct goos; reflexivity).
Qed.

Lemma Ext_app_mp3 (x : string) : Ext goos (x ++ ".mp3") = ".mp3".
Proof.
  unfold Ext. rewrite length_app. simpl String.length.
  replace (String.length x + 4) with (S (String.length x + 3)) by lia.
  rewrite (extLoop_skip _ _ "3");
    [| now rewrite get_app_right | now destruct goos | reflexivity].
  replace (String.length x + 3) with (S (String.length x + 2)) by lia.
  rewrite (extLoop_skip _ _ "p");
    [| now rewrite get_app_right | now destruct goos | reflexivity].
  replace (String.length x + 2) with (S (String.length x + 1)) by lia.
  rewrite (extLoop_skip _ _ "m");
    [| now rewrite get_app_right | now destruct goos | reflexivity].
  replace (String.length x + 1) with (S (String.length x + 0)) by lia.
  rewrite extLoop_dot by now rewrite get_app_right.
  rewrite substring_app_right, length_app. simpl String.length.
  now replace (String.length x + 4 - (String.length x + 0)) with 4 by lia.
Qed.

End ExtFacts.

(** ** The timestamp parser *)

Section ParseTime.

Lemma firstn_snoc (parts : list string) (i : nat) (p : string) :
  nth_error parts i = Some p ->
  firstn (S i) parts = firstn i parts ++ [p].
Proof.
  revert i; induction parts as [|q parts IH]; intros [|i] H; simpl in *;
    try discriminate.
  - now inversion H.
  - now rewrite (IH i H).
Qed.

(** The index loop never leaves the slice, and computes the place-value
    sum of the first [n] segments. *)
Lemma sumParts_placeValueSum (parts : list string) :
  forall (n k : nat) (seconds : float64),
    n <= List.length parts ->
    sumParts parts n seconds (pow60 k)
    = Some (placeValueSum (rev (firstn n parts)) k seconds).
Proof.
  induction n as [|i IH]; intros k seconds Hn.
  - reflexivity.
  - simpl sumParts.
    destruct (nth_error parts i) as [p|] eqn:Hp.
    + rewrite (firstn_snoc _ _ _ Hp), rev_app_distr. simpl rev. simpl app.
      simpl placeValueSum. apply (IH (S k)). lia.
    + apply nth_error_None in Hp. lia.
Qed.

(** [parseTimeToSeconds] never panics: it returns [seconds]. *)
Lemma parseTimeToSeconds_seconds (ts : string) :
  parseTimeToSeconds ts = Some (seconds ts).
Proof.
  unfold parseTimeToSeconds, seconds.
  destruct (ParseFloat ts) as [val [e|]]; [|reflexivity].
  change (ofZ 1) with (pow60 0).
  rewrite sumParts_placeValueSum by lia.
  now rewrite firstn_all.
Qed.

Lemma ParseFloat_syntax_zero (s : string) (v : float64) :
  ParseFloat s = (v, Some ErrSyntax) -> v = zero.
Proof.
  unfold ParseFloat, atof64.
  destruct (special s) as [[sv sn]|].
  - destruct (substring sn (String.length s - sn) s); intro H;
      inversion H.
    reflexivity.
  - destruct (readFloat s) as [l|].
    + destruct (rest l); destruct (isInf (floatValue l)); intro H;
        inversion H; reflexivity.
    + destruct s; intro H; inversion H; reflexivity.
Qed.

Lemma ParseFloat_range_inf (s : string) (v : float64) :
  ParseFloat s = (v, Some ErrRange) -> isInf v = true.
Proof.
  unfold ParseFloat, atof64.
  destruct (special s) as [[sv sn]|].
  - destruct (substring sn (String.length s - sn) s); intro H;
      inversion H.
  - destruct (readFloat s) as [l|].
    + destruct (rest l); destruct (isInf (floatValue l)) eqn:Hinf; intro H;
        inversion H; subst; exact Hinf.
    + destruct s; intro H; inversion H.
Qed.

(** The first 174 weights are finite; the next one, 60^174, is +Inf. *)
Lemma pow60_finite (k : nat) : k < 174 -> posFinite (pow60 k) = true.
Proof.
  intros Hk.
  assert (Hall : forallb (fun i => posFinite (pow60 i)) (seq 0 174) = true)
    by (vm_compute; reflexivity).
  rewrite forallb_forall in Hall. apply Hall. apply in_seq. lia.
Qed.

Lemma term_specTerm (part : string) (k : nat) :
  snd (ParseFloat part) <> Some ErrRange ->
  k < 174 ->
  mul (segmentValue part) (pow60 k) = specTerm part k.
Proof.
  intros Hrange Hk. unfold segmentValue, specTerm.
  destruct (ParseFloat part) as [val [[|]|]] eqn:Hparse; simpl in *.
  - apply ParseFloat_syntax_zero in Hparse. subst val.
    pose proof (pow60_finite k Hk) as Hfin.
    destruct (pow60 k) as [| | |[|] m e]; try discriminate. reflexivity.
  - congruence.
  - reflexivity.
Qed.

Lemma placeValueSum_specSum (fromRight : list string) :
  forall (k : nat) (acc : float64),
    (forall part, In part fromRight ->
                  snd (ParseFloat part) <> Some ErrRange) ->
    k + List.length fromRight <= 174 ->
    placeValueSum fromRight k acc = specSum fromRight k acc.
Proof.
  induction fromRight as [|part more IH]; intros k acc Hrange Hlen.
  - reflexivity.
  - simpl in *. rewrite term_specTerm by (auto; lia).
    apply IH; [auto | lia].
Qed.

End ParseTime.

(** The float64 values named below, bit for bit and as ["%.3f"] prints
    them. *)
Example float64_constants :
  ofZ 90 = S754_finite false 6333186975989760 (-46)
  /\ (6333186975989760 = 90 * 2 ^ 46)%Z
  /\ ofZ 3600 = S754_finite false 7916483719987200 (-41)
  /\ (7916483719987200 = 3600 * 2 ^ 41)%Z
  /\ fmtFloat3 (ofZ 90) = "90.000"
  /\ fmtFloat3 (ofZ 3600) = "3600.000".
Proof. repeat split; vm_compute; reflexivity. Qed.

(** C1. [parseTimeToSeconds] returns 90.0 for "90", 90.0 for "01:30" and
    3600.0 for "01:00:00". *)
Theorem parseTimeToSeconds_examples :
  parseTimeToSeconds "90" = Some (ofZ 90)
  /\ parseTimeToSeconds "01:30" = Some (ofZ 90)
  /\ parseTimeToSeconds "01:00:00" = Some (ofZ 3600).
Proof. repeat split; vm_compute; reflexivity. Qed.

(** C5, as the code has it. [parseTimeToSeconds] always returns a float64
    (no panic, no error): the value of [ParseFloat] when it reports no
    error, else the float64 place-value sum of the segments between the
    colons, the rightmost times 1, the next times 60, the next times 3600,
    every weight being 60 times the one before. A segment's value is what
    [ParseFloat] returns with its error dropped: 0 for a syntax error, an
    infinity for a value out of range. *)
Theorem parseTimeToSeconds_contract (ts : string) :
  parseTimeToSeconds ts
  = Some (match ParseFloat ts with
          | (val, None) => val
          | (_, Some _) => placeValueSum (rev (Split ts ":")) 0 zero
          end)
  /\ (pow60 0 = ofZ 1 /\ pow60 1 = ofZ 60 /\ pow60 2 = ofZ 3600
      /\ forall k, pow60 (S k) = mul (pow60 k) (ofZ 60))
  /\ (forall part : string,
        match ParseFloat part with
        | (val, None) => segmentValue part = val
        | (val, Some ErrSyntax) => segmentValue part = zero
        | (val, Some ErrRange) =>
            segmentValue part = val /\ isInf val = true
        end).
Proof.
  split; [|split].
  - apply parseTimeToSeconds_seconds.
  - repeat split; vm_compute; reflexivity.
  - intros part. unfold segmentValue.
    destruct (ParseFloat part) as [val [[|]|]] eqn:H; simpl.
    + now apply ParseFloat_syntax_zero in H.
    + split; [reflexivity | now apply ParseFloat_range_inf in H].
    + reflexivity.
Qed.

(** Where the two contracts meet: with at most 174 segments, none of them
    out of the float64 range, [parseTimeToSeconds] returns what the spec
    describes. *)
Lemma parseTimeToSeconds_agrees_with_spec (ts : string) :
  (forall part, In part (Split ts ":") ->
                snd (ParseFloat part) <> Some ErrRange) ->
  List.length (Split ts ":") <= 174 ->
  parseTimeToSeconds ts = Some (spec_parseTimeToSeconds ts).
Proof.
  intros Hrange Hlen.
  rewrite parseTimeToSeconds_seconds.
  unfold seconds, spec_parseTimeToSeconds.
  destruct (ParseFloat ts) as [val [e|]]; [|reflexivity].
  rewrite placeValueSum_specSum; [reflexivity | |].
  - intros part Hin. apply Hrange. now apply in_rev.
  - now rewrite length_rev.
Qed.

(** Beyond that the weight itself is +Inf, and an empty segment, worth 0,
    turns the sum into NaN: 174 colons make 175 empty segments. *)
Example parseTimeToSeconds_overflowed_weight :
  List.length (Split (colons 174) ":") = 175
  /\ pow60 174 = inf false
  /\ parseTimeToSeconds (colons 174) = Some nan
  /\ spec_parseTimeToSeconds (colons 174) = zero
  /\ parseTimeToSeconds (colons 173) = Some zero.
Proof. repeat split; vm_compute; reflexivity. Qed.

(** C5 as the spec states it fails: "1e400" does not parse (the value is
    out of range), its only segment is "1e400" again, and the result is
    +Inf where a zero contribution would give 0. *)
Lemma parseTimeToSeconds_range_segment_counts :
  snd (ParseFloat "1e400") = Some ErrRange
  /\ Split "1e400" ":" = ["1e400"]
  /\ spec_parseTimeToSeconds "1e400" = zero
  /\ parseTimeToSeconds "1e400" = Some (inf false)
  /\ parseTimeToSeconds "1e400" <> Some (spec_parseTimeToSeconds "1e400").
Proof.
  assert (H : parseTimeToSeconds "1e400" = Some (inf false))
    by (vm_compute; reflexivity).
  assert (Hs : spec_parseTimeToSeconds "1e400" = zero)
    by (vm_compute; reflexivity).
  repeat split; try (vm_compute; reflexivity); try assumption.
  rewrite H, Hs. discriminate.
Qed.

(** ** The argument builder *)

Section Builder.

Variable w : World.

Lemma bind_ret {A B} (a : A) (k : A -> Prog B) : bind (ret a) k = k a.
Proof. unfold bind, ret. now destruct (k a). Qed.

Lemma bind_emit {B} (e : Event) (k : unit -> Prog B) :
  bind (emit e) k = (e :: trace (k tt), status (k tt)).
Proof. unfold bind, emit, trace, status. now destruct (k tt). Qed.

Lemma runFFmpeg_runArgs (cfg : Config) (args : list string) :
  runArgs (trace (runFFmpeg w cfg args)) = [args].
Proof.
  unfold runFFmpeg. rewrite bind_emit. simpl.
  destruct (Run w (FfmpegBin cfg) args); reflexivity.
Qed.

(** [simpleCut] runs the encoder once, on an argument list that is a
    function of the Configuration. *)
Lemma simpleCut_runFFmpeg (cfg : Config) :
  simpleCut w cfg
  = runFFmpeg w cfg
      (getInputArgs cfg ++ encodeFlags cfg
       ++ (if muteWindow cfg
           then ["-af"; muteFilter (seconds (MuteStart cfg))
                                   (seconds (MuteEnd cfg))]
           else [])
       ++ ["-y"; OutputFile cfg]).
Proof.
  unfold simpleCut, muteWindow, encodeFlags.
  destruct (nonEmpty (MuteStart cfg) && nonEmpty (MuteEnd cfg)).
  - rewrite !parseTimeToSeconds_seconds. unfold orPanic.
    rewrite !bind_ret. simpl List.length.
    change (0 <? 1)%nat with true. cbn iota.
    simpl Join. now rewrite <- !app_assoc.
  - rewrite bind_ret. simpl List.length.
    change (0 <? 0)%nat with false. cbn iota.
    now rewrite <- !app_assoc.
Qed.

End Builder.

(** C8. [getInputArgs] is the seek-start flag and its value exactly when a
    start boundary is set, then the seek-end flag and its value exactly when
    an end boundary is set, then always the input flag and the input
    path. *)
Theorem getInputArgs_order (cfg : Config) :
  getInputArgs cfg
  = (if nonEmpty (StartTime cfg) then ["-ss"; StartTime cfg] else [])
    ++ (if nonEmpty (EndTime cfg) then ["-to"; EndTime cfg] else [])
    ++ ["-i"; InputFile cfg]
  /\ (hd_error (getInputArgs cfg) = Some "-ss"
      <-> StartTime cfg <> EmptyString)
  /\ (nth_error (getInputArgs cfg)
                (if nonEmpty (StartTime cfg) then 2 else 0) = Some "-to"
      <-> EndTime cfg <> EmptyString)
  /\ skipn (List.length (getInputArgs cfg) - 2) (getInputArgs cfg)
     = ["-i"; InputFile cfg].
Proof.
  unfold getInputArgs.
  destruct (nonEmpty (StartTime cfg)) eqn:Hs;
    destruct (nonEmpty (EndTime cfg)) eqn:He; simpl;
    (split; [reflexivity|]);
    try apply nonEmpty_true in Hs; try apply nonEmpty_true in He;
    try apply nonEmpty_false in Hs; try apply nonEmpty_false in He;
    (split; [split; intro; try assumption; try reflexivity;
             try discriminate; try congruence|]);
    (split; [split; intro; try assumption; try reflexivity;
             try discriminate; try congruence|]);
    reflexivity.
Qed.

(** C9. The argument list is a function of the Configuration alone: two
    invocations on equal Configurations, in whatever state of the world,
    hand the encoder the same single argument list, and [getInputArgs]
    returns the same prefix of it. *)
Theorem argument_list_deterministic (w1 w2 : World) (cfg1 cfg2 : Config) :
  cfg1 = cfg2 ->
  getInputArgs cfg1 = getInputArgs cfg2
  /\ runArgs (trace (simpleCut w1 cfg1)) = runArgs (trace (simpleCut w2 cfg2))
  /\ exists args, runArgs (trace (simpleCut w1 cfg1)) = [args]
                  /\ firstn (List.length (getInputArgs cfg1)) args
                     = getInputArgs cfg1.
Proof.
  intros <-. split; [reflexivity|].
  rewrite !simpleCut_runFFmpeg, !runFFmpeg_runArgs.
  split; [reflexivity|].
  eexists; split; [reflexivity|].
  rewrite firstn_app, Nat.sub_diag, firstn_all. simpl. apply app_nil_r.
Qed.

(** C2, as the code has it. With both mute boundaries given, the argument
    list carries, after the codec flags and before the output path, the
    flag [-af] and the token [volume=0:enable='between(t,S,E)'], S and E
    being the parsed second offsets of mute-start and mute-end printed with
    three decimals. Nothing orders the two offsets. *)
Theorem simpleCut_mute_filter (w : World) (cfg : Config) :
  MuteStart cfg <> EmptyString ->
  MuteEnd cfg <> EmptyString ->
  exists startSec endSec,
    parseTimeToSeconds (MuteStart cfg) = Some startSec
    /\ parseTimeToSeconds (MuteEnd cfg) = Some endSec
    /\ runArgs (trace (simpleCut w cfg))
       = [getInputArgs cfg ++ encodeFlags cfg
          ++ ["-af";
              ("volume=0:enable='between(t," ++ fmtFloat3 startSec ++ ","
                 ++ fmtFloat3 endSec ++ ")'")%string]
          ++ ["-y"; OutputFile cfg]].
Proof.
  intros Hs He.
  exists (seconds (MuteStart cfg)), (seconds (MuteEnd cfg)).
  split; [apply parseTimeToSeconds_seconds|].
  split; [apply parseTimeToSeconds_seconds|].
  rewrite simpleCut_runFFmpeg, runFFmpeg_runArgs. unfold muteWindow.
  apply nonEmpty_true in Hs. apply nonEmpty_true in He.
  rewrite Hs, He. reflexivity.
Qed.

(** C10. With mute-start given and mute-end empty, the generated output
    name carries [_cleaned_muted], and the argument list goes from the
    codec flags straight to the output path: no [-af] and no filter. *)
Theorem mute_start_without_end (goos : OS) (w : World) (cfg : Config) :
  MuteStart cfg <> EmptyString ->
  MuteEnd cfg = EmptyString ->
  outputFileOf goos EmptyString (InputFile cfg) (MuteStart cfg)
  = (TrimSuffix (InputFile cfg) (Ext goos (InputFile cfg))
     ++ "_cleaned_muted" ++ Ext goos (InputFile cfg))%string
  /\ runArgs (trace (simpleCut w cfg))
     = [getInputArgs cfg ++ encodeFlags cfg ++ ["-y"; OutputFile cfg]].
Proof.
  intros Hs He. split.
  - unfold outputFileOf. apply nonEmpty_true in Hs. now rewrite Hs.
  - rewrite simpleCut_runFFmpeg, runFFmpeg_runArgs. unfold muteWindow.
    rewrite He. simpl nonEmpty. now rewrite andb_false_r.
Qed.

(** C3, as the code has it. With no output path given, the output path is
    the input path with a suffix put in before its extension:
    [_cleaned_muted] when mute-start is given (so whenever a mute window is
    set), [_cleaned] when mute-start is empty; "a.mp4" gives
    "a_cleaned.mp4" and "a_cleaned_muted.mp4". *)
Theorem outputFileOf_default (goos : OS) (input muteStart : string) :
  (TrimSuffix input (Ext goos input) ++ Ext goos input)%string = input
  /\ outputFileOf goos EmptyString input muteStart
     = (TrimSuffix input (Ext goos input)
        ++ (if nonEmpty muteStart then "_cleaned_muted" else "_cleaned")
        ++ Ext goos input)%string
  /\ outputFileOf goos EmptyString "a.mp4" EmptyString = "a_cleaned.mp4"
  /\ outputFileOf goos EmptyString "a.mp4" "00:06:00" = "a_cleaned_muted.mp4".
Proof.
  split; [apply TrimSuffix_Ext|].
  split.
  - unfold outputFileOf. simpl String.eqb. cbn iota.
    destruct (nonEmpty muteStart); reflexivity.
  - split; destruct goos; reflexivity.
Qed.

(** ** The binary resolver *)

Section Resolver.

Variable filepath_Join : list string -> string.
Variable filepath_Dir : string -> string.
Variable w : World.

Lemma tryBin_find (dir name : string) :
  tryBin filepath_Join w dir name
  = find (statOk w) (binCandidates filepath_Join dir name).
Proof.
  unfold tryBin, binCandidates. simpl.
  destruct (statOk w (filepath_Join [dir; "bin"; name])); [reflexivity|].
  now destruct (statOk w (filepath_Join [dir; "bin"; name] ++ ".exe")).
Qed.

Lemma find_app {A} (f : A -> bool) (l1 l2 : list A) :
  find f (l1 ++ l2)
  = match find f l1 with Some x => Some x | None => find f l2 end.
Proof.
  induction l1 as [|a l1 IH]; simpl; [reflexivity|].
  now destruct (f a).
Qed.

End Resolver.

(** C6. [resolveBinary] returns the first candidate that exists, taking
    them in this order: [bin/name] and [bin/name.exe] next to the running
    executable, [bin/name] and [bin/name.exe] under the working directory;
    when none exists it returns what the search of the system path
    ([exec.LookPath]) returns, and so the empty string when that finds
    nothing either. *)
Theorem resolveBinary_search_order
    (filepath_Join : list string -> string) (filepath_Dir : string -> string)
    (w : World) (name : string) :
  resolveBinary filepath_Join filepath_Dir w name
  = match find (statOk w) (searchOrder filepath_Join filepath_Dir w name) with
    | Some found => found
    | None => fst (LookPath w name)
    end
  /\ ((forall p, In p (searchOrder filepath_Join filepath_Dir w name) ->
                 statOk w p = false) ->
      fst (LookPath w name) = EmptyString ->
      resolveBinary filepath_Join filepath_Dir w name = EmptyString).
Proof.
  assert (Heq :
    resolveBinary filepath_Join filepath_Dir w name
    = match find (statOk w) (searchOrder filepath_Join filepath_Dir w name) with
      | Some found => found
      | None => fst (LookPath w name)
      end).
  { unfold resolveBinary, searchOrder. rewrite find_app.
    destruct (Executable w) as [exePath|];
      destruct (Getwd w) as [cwd|];
      rewrite ?tryBin_find; cbn [find];
      repeat match goal with
             | |- context [find ?f (binCandidates ?j ?d ?n)] =>
                 destruct (find f (binCandidates j d n))
             end; reflexivity. }
  split; [exact Heq|].
  intros Hnone Hpath. rewrite Heq.
  destruct (find (statOk w) (searchOrder filepath_Join filepath_Dir w name))
    as [found|] eqn:Hfind; [|exact Hpath].
  apply find_some in Hfind. destruct Hfind as [Hin Hok].
  rewrite (Hnone _ Hin) in Hok. discriminate.
Qed.

(** ** Traces *)

Section TraceFacts.

Lemma runArgs_app (t1 t2 : list Event) :
  runArgs (t1 ++ t2) = runArgs t1 ++ runArgs t2.
Proof.
  induction t1 as [|e t1 IH]; simpl; [reflexivity|].
  destruct e; simpl; now rewrite ?IH.
Qed.

Lemma trace_bind {A B} (m : Prog A) (k : A -> Prog B) :
  trace (bind m k)
  = trace m ++ match status m with
               | Returned a => trace (k a)
               | _ => []
               end.
Proof.
  destruct m as [t [a|c| |]]; simpl; rewrite ?app_nil_r; try reflexivity.
  now destruct (k a).
Qed.

Lemma status_bind {A B} (m : Prog A) (k : A -> Prog B) :
  status (bind m k)
  = match status m with
    | Returned a => status (k a)
    | Exited c => Exited c
    | Panicked => Panicked
    | Unfinished => Unfinished
    end.
Proof.
  destruct m as [t [a|c| |]]; simpl; try reflexivity.
  now destruct (k a).
Qed.

Lemma In_run_runArgs (t : list Event) (bin : string) (args : list string)
                     (so se : bool) :
  In (EvRun bin args so se) t -> runArgs t <> [].
Proof.
  induction t as [|e t IH]; simpl; [tauto|].
  intros [He|Hin].
  - subst e. discriminate.
  - destruct e; try discriminate; now apply IH.
Qed.

End TraceFacts.

(** ** The fetch and the world it leaves *)

Section Fetch.

Variable goos : OS.
Variable w : World.

Ltac run_status :=
  repeat (rewrite status_bind;
          cbn [status snd Println Print emit ret exit unfinished]).

(** A fetch that returns to [main] has created the file it names: the
    world it leaves is [w] with that file in it. *)
Lemma download_world (fuel : nat) (url file : string) (w' : World) :
  status (download goos w fuel url) = Returned (file, w') ->
  w' = created w file.
Proof.
  unfold download. rewrite status_bind.
  destruct (status (downloadYoutubeVideo goos w fuel url))
    as [[[f e] w1]|c| |] eqn:Hst; try discriminate.
  destruct e as [e|]; [run_status; discriminate|].
  cbn [status snd ret]. intros H. inversion H. subst f w1. clear H.
  revert Hst. unfold downloadYoutubeVideo. run_status.
  destruct (GetVideo w url) as [video|err]; [|discriminate].
  run_status.
  destruct (WithAudioChannels (Formats video)) as [|format more];
    [discriminate|].
  run_status.
  destruct (GetStream w video format) as [err|]; [discriminate|].
  destruct (ensureUniqueFilename goos w fuel
              (sanitizeFilename (Title video) ++ ".mp4")) as [outputFile|];
    [|discriminate].
  run_status.
  destruct (Create w outputFile) as [err|]; run_status; [discriminate|].
  destruct (Copy w outputFile) as [err|]; run_status; [discriminate|].
  intros H. inversion H. reflexivity.
Qed.

(** The step of [main] that settles the input returns a world [main] can
    be in. *)
Lemma located_reaches (fuel : nat) (fl : Flags) (input : string)
                      (w' : World) :
  status (if nonEmpty (urlPtr fl) then
            Println "YouTube URL provided. Downloading..." ;;;
            download goos w fuel (urlPtr fl)
          else if HasPrefix (inputPtr fl) "http://"
                  || HasPrefix (inputPtr fl) "https://"
                  || HasPrefix (inputPtr fl) "www." then
            Println "YouTube URL detected. Downloading..." ;;;
            download goos w fuel (inputPtr fl)
          else ret (inputPtr fl, w))
  = Returned (input, w') ->
  reaches w w'.
Proof.
  destruct (nonEmpty (urlPtr fl)).
  - unfold Println. rewrite bind_emit. cbn [status snd]. intros H.
    right. exists input. exact (download_world _ _ _ _ H).
  - destruct (_ || _).
    + unfold Println. rewrite bind_emit. cbn [status snd]. intros H.
      right. exists input. exact (download_world _ _ _ _ H).
    + intros H. inversion H. now left.
Qed.

End Fetch.

(** ** The process runner *)

Section Runner.

Variable goos : OS.
Variable unicodeLower : string -> string.
Variable TrimSpace : string -> string.
Variable filepath_Join : list string -> string.
Variable filepath_Dir : string -> string.
Variable w : World.

Lemma Silent_ret {A} (a : A) : Silent (ret a).
Proof. split; [reflexivity | right; right; now exists a]. Qed.

Lemma Silent_exit {A} : Silent (@exit A 1).
Proof. split; [reflexivity | now left]. Qed.

Lemma Silent_unfinished {A} : Silent (@unfinished A).
Proof. split; [reflexivity | right; now left]. Qed.

Lemma Silent_Print (s : string) : Silent (Print s).
Proof. split; [reflexivity | right; right; now exists tt]. Qed.

Lemma Silent_Println (s : string) : Silent (Println s).
Proof. split; [reflexivity | right; right; now exists tt]. Qed.

Lemma Silent_mkdir (p : string) : Silent (emit (EvMkdirAll p)).
Proof. split; [reflexivity | right; right; now exists tt]. Qed.

(** Any event but the start of a process. *)
Lemma Silent_emit (e : Event) : runArgs [e] = [] -> Silent (emit e).
Proof. intros He. split; [exact He | right; right; now exists tt]. Qed.

Lemma Silent_bind {A B} (m : Prog A) (k : A -> Prog B) :
  Silent m -> (forall a, Silent (k a)) -> Silent (bind m k).
Proof.
  intros [Hm Hst] Hk; unfold Silent;
    rewrite trace_bind, status_bind, runArgs_app, Hm.
  destruct Hst as [Hex|[Hun|[a Ha]]].
  - rewrite Hex. split; [reflexivity | now left].
  - rewrite Hun. split; [reflexivity | right; now left].
  - rewrite Ha. destruct (Hk a) as [Hka Hks]. split; assumption.
Qed.

Ltac silent :=
  repeat first
    [ apply Silent_ret | apply Silent_exit | apply Silent_unfinished
    | apply Silent_Print | apply Silent_Println | apply Silent_mkdir
    | apply Silent_emit; reflexivity
    | apply Silent_bind; [|intros]
    | match goal with
      | |- Silent (let '(_, _) := ?x in _) => destruct x
      | |- Silent (if ?c then _ else _) => destruct c
      | |- Silent (match ?x with _ => _ end) => destruct x
      end ].

Lemma Silent_interactiveMode : Silent (interactiveMode TrimSpace w).
Proof. unfold interactiveMode. silent. Qed.

Lemma Silent_downloadYoutubeVideo (fuel : nat) (url : string) :
  Silent (downloadYoutubeVideo goos w fuel url).
Proof. unfold downloadYoutubeVideo. silent. Qed.

Lemma Silent_download (fuel : nat) (url : string) :
  Silent (download goos w fuel url).
Proof.
  unfold download.
  apply Silent_bind; [apply Silent_downloadYoutubeVideo|].
  intros [[file err] w']. destruct err; silent.
Qed.

(** The encoder answers the same in every world [main] can be in. *)
Lemma RunsOnce_reaches {A} (w' : World) (m : Prog A) :
  reaches w w' -> RunsOnce w' m -> RunsOnce w m.
Proof.
  intros [Hw | [path Hw]] H; subst w'; exact H.
Qed.

Lemma RunsOnce_runFFmpeg (cfg : Config) (args : list string) :
  RunsOnce w (runFFmpeg w cfg args).
Proof.
  right. exists [], (FfmpegBin cfg), args, (Verbose cfg), true.
  unfold runFFmpeg. rewrite bind_emit.
  destruct (Run w (FfmpegBin cfg) args) as [err|] eqn:Hrun.
  - exists [failureReport err]. repeat split; reflexivity.
  - exists []. repeat split; try reflexivity. right. right. now exists tt.
Qed.

(** Quiet steps before the encoder change nothing. *)
Lemma RunsOnce_after {A B} (m : Prog A) (k : A -> Prog B) :
  Silent m -> (forall a, status m = Returned a -> RunsOnce w (k a)) ->
  RunsOnce w (bind m k).
Proof.
  intros Hsilent Hk.
  destruct Hsilent as [Hm [Hex|[Hun|[a Ha]]]].
  - left. split.
    + now rewrite trace_bind, runArgs_app, Hm, Hex.
    + left. now rewrite status_bind, Hex.
  - left. split.
    + now rewrite trace_bind, runArgs_app, Hm, Hun.
    + right. left. now rewrite status_bind, Hun.
  - destruct (Hk a Ha)
      as [[Hka Hks] | (pre & bin & args & so & se & post & H1 & H2 & H3 & H4)].
    + left. split.
      * now rewrite trace_bind, runArgs_app, Hm, Ha, Hka.
      * now rewrite status_bind, Ha.
    + right. exists (trace m ++ pre), bin, args, so, se, post.
      rewrite runArgs_app, Hm, H1, trace_bind, status_bind, Ha, H3, app_assoc.
      repeat split; try reflexivity; assumption.
Qed.

(** Quiet steps after the encoder happen only when it succeeded. *)
Lemma RunsOnce_then {A B} (m : Prog A) (k : A -> Prog B) :
  RunsOnce w m -> (forall a, Silent (k a)) -> RunsOnce w (bind m k).
Proof.
  intros [Hsilent | (pre & bin & args & so & se & post & H1 & H2 & H3 & H4)] Hk.
  - left. now apply Silent_bind.
  - right. rewrite trace_bind, status_bind.
    destruct (Run w bin args) as [err|] eqn:Hrun.
    + destruct H4 as [Hpost Hst]. rewrite Hst, app_nil_r.
      exists pre, bin, args, so, se, post. rewrite Hrun.
      repeat split; assumption.
    + destruct H4 as [Hst | [Hst | [a Hst]]]; rewrite Hst.
      * rewrite app_nil_r. exists pre, bin, args, so, se, post. rewrite Hrun.
        repeat split; try assumption. now left.
      * rewrite app_nil_r. exists pre, bin, args, so, se, post. rewrite Hrun.
        repeat split; try assumption. right. now left.
      * destruct (Hk a) as [Hka Hks].
        exists pre, bin, args, so, se, (post ++ trace (k a)).
        rewrite Hrun, runArgs_app, H2, Hka, H3, <- app_assoc.
        repeat split; try reflexivity; assumption.
Qed.

Lemma RunsOnce_simpleCut (cfg : Config) : RunsOnce w (simpleCut w cfg).
Proof. rewrite simpleCut_runFFmpeg. apply RunsOnce_runFFmpeg. Qed.

Lemma RunsOnce_extractAudio (cfg : Config) :
  RunsOnce w (extractAudio goos unicodeLower w cfg).
Proof.
  unfold extractAudio. apply RunsOnce_after; [apply Silent_Print|].
  intros _ _. apply RunsOnce_runFFmpeg.
Qed.

End Runner.

Section RunnerOfMain.

Variable goos : OS.
Variable unicodeLower : string -> string.
Variable TrimSpace : string -> string.
Variable filepath_Join : list string -> string.
Variable filepath_Dir : string -> string.
Variable w : World.

Lemma RunsOnce_main (fuel : nat) (fl : Flags) :
  RunsOnce w
    (main goos unicodeLower TrimSpace filepath_Join filepath_Dir w fuel fl).
Proof.
  unfold main.
  apply RunsOnce_after.
  { destruct (_ && _); [|apply Silent_ret].
    apply Silent_bind; [apply Silent_Println|]. intros _.
    apply Silent_bind; [apply Silent_interactiveMode|]. intros ic.
    apply Silent_ret. }
  intros fl' _. apply RunsOnce_after.
  { destruct (_ && _);
      [apply Silent_bind; [apply Silent_Println | intros _; apply Silent_exit]
      | apply Silent_ret]. }
  intros _ _. apply RunsOnce_after.
  { destruct (nonEmpty (urlPtr fl')).
    - apply Silent_bind; [apply Silent_Println|]. intros _.
      apply Silent_download.
    - destruct (_ || _); [|apply Silent_ret].
      apply Silent_bind; [apply Silent_Println|]. intros _.
      apply Silent_download. }
  intros [input w'] Hloc.
  apply (RunsOnce_reaches w w'); [exact (located_reaches _ _ _ _ _ _ Hloc)|].
  clear Hloc. unfold process.
  destruct (Stat w' input) as [[|]| |msg];
    [ left; apply Silent_bind; [apply Silent_Print | intros _; apply Silent_exit]
    |
    | left; apply Silent_bind; [apply Silent_Print | intros _; apply Silent_exit]
    | left; apply Silent_bind; [apply Silent_Print | intros _; apply Silent_exit] ].
  cbv zeta.
  destruct (_ || _).
  { left. apply Silent_bind; [apply Silent_Println|]. intros _.
    apply Silent_bind; [apply Silent_Println | intros _; apply Silent_exit]. }
  apply RunsOnce_after; [apply Silent_mkdir|]. intros _ _.
  apply RunsOnce_after; [apply Silent_Println|]. intros _ _.
  apply RunsOnce_then.
  - match goal with
    | |- context [if ExtractMP3 ?c then _ else _] => destruct (ExtractMP3 c)
    end; [apply RunsOnce_extractAudio | apply RunsOnce_simpleCut].
  - intros _. unfold printStats.
    apply Silent_bind; [apply Silent_Println | intros _; apply Silent_Print].
Qed.

End RunnerOfMain.

(** C7, as the code has it. When the encoder process that the tool
    started exits with a non-zero code, [runFFmpeg] prints the failure with
    that code and ends the process with status 1, whatever the code was, and
    nothing sequenced after it runs; so [main] ends with status 1, having
    run the encoder exactly once, the failure report being the last thing
    it did: nothing is retried, nothing recovers. *)
Theorem encoder_failure_is_fatal
    (goos : OS) (unicodeLower TrimSpace : string -> string)
    (filepath_Join : list string -> string) (filepath_Dir : string -> string)
    (w : World) (fuel : nat) (fl : Flags)
    (bin : string) (args : list string) (so se : bool) (code : Z) :
  let run :=
    main goos unicodeLower TrimSpace filepath_Join filepath_Dir w fuel fl in
  code <> 0%Z ->
  In (EvRun bin args so se) (trace run) ->
  Run w bin args = Some (ExitError code) ->
  status run = Exited 1
  /\ runArgs (trace run) = [args]
  /\ (exists pre,
        runArgs pre = []
        /\ trace run
           = pre ++ [EvRun bin args so se;
                     EvPrint (" FFmpeg Error: exit status "
                                ++ Itoa code ++ nl)])
  /\ (forall cfg (k : unit -> Prog unit),
        FfmpegBin cfg = bin ->
        runFFmpeg w cfg args
        = ([EvRun bin args (Verbose cfg) true;
            EvPrint (" FFmpeg Error: exit status " ++ Itoa code ++ nl)],
           Exited 1)
        /\ bind (runFFmpeg w cfg args) k = runFFmpeg w cfg args).
Proof.
  intros run _ Hin Hrun.
  assert (Hlocal :
    forall cfg (k : unit -> Prog unit),
      FfmpegBin cfg = bin ->
      runFFmpeg w cfg args
      = ([EvRun bin args (Verbose cfg) true;
          EvPrint (" FFmpeg Error: exit status " ++ Itoa code ++ nl)],
         Exited 1)
      /\ bind (runFFmpeg w cfg args) k = runFFmpeg w cfg args).
  { intros cfg k Hbin. unfold runFFmpeg. rewrite Hbin, Hrun.
    split; reflexivity. }
  destruct (RunsOnce_main goos unicodeLower TrimSpace filepath_Join
              filepath_Dir w fuel fl)
    as [[Hnone _]
       | (pre & bin' & args' & so' & se' & post & Hpre & Hpost & Htr & Hres)].
  - exfalso. exact (In_run_runArgs _ _ _ _ _ Hin Hnone).
  - fold run in Htr, Hres.
    assert (Hsame : EvRun bin args so se = EvRun bin' args' so' se').
    { rewrite Htr in Hin. apply in_app_or in Hin.
      destruct Hin as [Hin | [Hin | Hin]].
      - exfalso. exact (In_run_runArgs _ _ _ _ _ Hin Hpre).
      - now symmetry.
      - exfalso. exact (In_run_runArgs _ _ _ _ _ Hin Hpost). }
    inversion Hsame; subst bin' args' so' se'.
    rewrite Hrun in Hres. destruct Hres as [Hpost' Hst]. subst post.
    split; [exact Hst|]. split.
    + rewrite Htr, runArgs_app, Hpre. reflexivity.
    + split; [|exact Hlocal]. exists pre. split; [exact Hpre | exact Htr].
Qed.

(** ** Concrete runs *)

Lemma simpleCut_mute_filter_witness :
  exists startSec endSec,
    parseTimeToSeconds "00:06:00" = Some startSec
    /\ parseTimeToSeconds "00:06:30" = Some endSec
    /\ runArgs (trace (simpleCut bareWorld (configOf "00:06:00" "00:06:30")))
       = [getInputArgs (configOf "00:06:00" "00:06:30")
          ++ encodeFlags (configOf "00:06:00" "00:06:30")
          ++ ["-af";
              ("volume=0:enable='between(t," ++ fmtFloat3 startSec ++ ","
                 ++ fmtFloat3 endSec ++ ")'")%string]
          ++ ["-y"; "out.mp4"]].
Proof.
  apply (simpleCut_mute_filter bareWorld (configOf "00:06:00" "00:06:30"));
    discriminate.
Defined.

(** C2 as the spec states it fails: with mute-start "10" and mute-end "5" a
    mute window is present, the token is [between(t,10.000,5.000)], and the
    parsed start is not less than the parsed end. *)
Lemma simpleCut_mute_window_unordered :
  muteWindow (configOf "10" "5") = true
  /\ parseTimeToSeconds "10" = Some (ofZ 10)
  /\ parseTimeToSeconds "5" = Some (ofZ 5)
  /\ ltb (ofZ 10) (ofZ 5) = false
  /\ runArgs (trace (simpleCut bareWorld (configOf "10" "5")))
     = [["-i"; "a.mp4"; "-c:v"; "libx264"; "-preset"; "medium"; "-crf"; "23";
         "-c:a"; "aac"; "-b:a"; "192k";
         "-af"; "volume=0:enable='between(t,10.000,5.000)'";
         "-y"; "out.mp4"]].
Proof. repeat split; vm_compute; reflexivity. Qed.

(** C3 as the spec states it fails: with mute-start "10" and no mute-end no
    mute window is set and no filter is passed, yet the generated name is
    "a_cleaned_muted.mp4", not "a_cleaned.mp4". *)
Lemma outputFileOf_muted_without_window :
  muteWindow (configOf "10" EmptyString) = false
  /\ runArgs (trace (simpleCut bareWorld (configOf "10" EmptyString)))
     = [["-i"; "a.mp4"; "-c:v"; "libx264"; "-preset"; "medium"; "-crf"; "23";
         "-c:a"; "aac"; "-b:a"; "192k"; "-y"; "out.mp4"]]
  /\ outputFileOf Unix EmptyString "a.mp4"
                  (MuteStart (configOf "10" EmptyString))
     = "a_cleaned_muted.mp4"
  /\ outputFileOf Unix EmptyString "a.mp4"
                  (MuteStart (configOf "10" EmptyString))
     <> "a_cleaned.mp4".
Proof.
  repeat split; try (vm_compute; reflexivity).
  vm_compute. discriminate.
Qed.

Lemma argument_list_deterministic_witness :
  getInputArgs (configOf "10" "20") = getInputArgs (configOf "10" "20")
  /\ runArgs (trace (simpleCut bareWorld (configOf "10" "20")))
     = runArgs (trace (simpleCut failingWorld (configOf "10" "20")))
  /\ exists args,
       runArgs (trace (simpleCut bareWorld (configOf "10" "20"))) = [args]
       /\ firstn (List.length (getInputArgs (configOf "10" "20"))) args
          = getInputArgs (configOf "10" "20").
Proof.
  apply (argument_list_deterministic bareWorld failingWorld
           (configOf "10" "20") (configOf "10" "20")).
  reflexivity.
Defined.

Lemma mute_start_without_end_witness :
  outputFileOf Unix EmptyString "a.mp4" "10" = "a_cleaned_muted.mp4"
  /\ runArgs (trace (simpleCut bareWorld (configOf "10" EmptyString)))
     = [["-i"; "a.mp4"; "-c:v"; "libx264"; "-preset"; "medium"; "-crf"; "23";
         "-c:a"; "aac"; "-b:a"; "192k"; "-y"; "out.mp4"]].
Proof.
  apply (mute_start_without_end Unix bareWorld (configOf "10" EmptyString));
    [discriminate | reflexivity].
Defined.

Lemma resolveBinary_search_order_witness :
  resolveBinary unixJoin unixDir bareWorld "ffmpeg" = EmptyString.
Proof.
  apply (resolveBinary_search_order unixJoin unixDir bareWorld
           "ffmpeg");
    [intros p _; reflexivity | reflexivity].
Defined.

(** The order shows when several candidates exist: [ffmpeg] is found next
    to the executable, [ffprobe] only as [ffprobe.exe] under the working
    directory. *)
Example resolveBinary_prefers_earlier_candidates :
  searchOrder unixJoin unixDir failingWorld "ffprobe"
  = ["/opt/mutecut/bin/ffprobe"; "/opt/mutecut/bin/ffprobe.exe";
     "/home/user/bin/ffprobe"; "/home/user/bin/ffprobe.exe"]
  /\ resolveBinary unixJoin unixDir failingWorld "ffmpeg"
     = "/opt/mutecut/bin/ffmpeg"
  /\ resolveBinary unixJoin unixDir failingWorld "ffprobe"
     = "/home/user/bin/ffprobe.exe".
Proof. repeat split; vm_compute; reflexivity. Qed.

Lemma encoder_failure_is_fatal_witness :
  status (main Unix sameString sameString unixJoin unixDir
               failingWorld 5 reversedMuteFlags)
  = Exited 1.
Proof.
  apply (encoder_failure_is_fatal Unix sameString sameString unixJoin
           unixDir failingWorld 5 reversedMuteFlags
           "/opt/mutecut/bin/ffmpeg"
           ["-i"; "a.mp4"; "-c:v"; "libx264"; "-preset"; "medium"; "-crf";
            "23"; "-c:a"; "aac"; "-b:a"; "192k";
            "-af"; "volume=0:enable='between(t,10.000,5.000)'";
            "-y"; "a_cleaned_muted.mp4"]
           false true 2).
  - discriminate.
  - vm_compute. tauto.
  - reflexivity.
Defined.

(** C7 as the spec states it fails: the encoder exits with code 2, the
    report says so, and the tool exits with status 1, not 2. *)
Lemma encoder_exit_code_not_propagated :
  Run failingWorld "/opt/mutecut/bin/ffmpeg"
      ["-i"; "a.mp4"; "-c:v"; "libx264"; "-preset"; "medium"; "-crf"; "23";
       "-c:a"; "aac"; "-b:a"; "192k";
       "-af"; "volume=0:enable='between(t,10.000,5.000)'";
       "-y"; "a_cleaned_muted.mp4"]
  = Some (ExitError 2)
  /\ main Unix sameString sameString unixJoin unixDir
          failingWorld 5 reversedMuteFlags
     = ([EvMkdirAll ".";
         EvPrint ("Mode: Processing (Cut/Mute)..." ++ nl);
         EvRun "/opt/mutecut/bin/ffmpeg"
           ["-i"; "a.mp4"; "-c:v"; "libx264"; "-preset"; "medium"; "-crf";
            "23"; "-c:a"; "aac"; "-b:a"; "192k";
            "-af"; "volume=0:enable='between(t,10.000,5.000)'";
            "-y"; "a_cleaned_muted.mp4"]
           false true;
         EvPrint (" FFmpeg Error: exit status 2" ++ nl)],
        Exited 1)
  /\ @Exited unit 1 <> Exited 2.
Proof.
  repeat split; try (vm_compute; reflexivity).
  discriminate.
Qed.

(** A whole run through the prompts: mute-start alone names the output
    [_cleaned_muted] and passes no filter, and the run ends normally. *)
Example main_interactive_mute_start_only :
  let run := main Unix sameString sameString unixJoin unixDir
                  workingWorld 5 defaultFlags in
  status run = Returned tt
  /\ runArgs (trace run)
     = [["-i"; "a.mp4"; "-c:v"; "libx264"; "-preset"; "medium"; "-crf"; "23";
         "-c:a"; "aac"; "-b:a"; "192k"; "-y"; "a_cleaned_muted.mp4"]]
  /\ last (trace run) (EvPrint EmptyString)
     = EvPrint ("Output: a_cleaned_muted.mp4" ++ nl).
Proof. repeat split; vm_compute; reflexivity. Qed.

(** Audio extraction after the default name was generated: ".mp3" is
    appended to it. *)
Example main_extract_audio_run :
  runArgs (trace (main Unix sameString sameString unixJoin unixDir
                       workingWorld 5
                       (mkFlags "a.mp4" EmptyString EmptyString EmptyString
                                EmptyString EmptyString "medium" 23 false true
                                EmptyString)))
  = [["-i"; "a.mp4"; "-vn"; "-acodec"; "libmp3lame"; "-q:a"; "2"; "-y";
      "a_cleaned.mp4.mp3"]].
Proof. vm_compute; reflexivity. Qed.

(** * Further properties of the program *)

(** ** How a run of [main] can end *)

Section Outcomes.

Variable goos : OS.
Variable unicodeLower : string -> string.
Variable TrimSpace : string -> string.
Variable filepath_Join : list string -> string.
Variable filepath_Dir : string -> string.
Variable w : World.
Variable fuel : nat.

Lemma Outcome_runFFmpeg (cfg : Config) (args : list string) :
  Outcome w (FfmpegBin cfg) (Verbose cfg) [] (runFFmpeg w cfg args).
Proof.
  right. exists [], args. split; [reflexivity|].
  unfold runFFmpeg. rewrite bind_emit.
  destruct (Run w (FfmpegBin cfg) args) as [err|].
  - split; reflexivity.
  - split; [reflexivity | now exists tt].
Qed.

(** An event before the encoder, other than the start of a process. *)
Lemma Outcome_emit {A} (bin : string) (so : bool) (done : list Event)
                   (e : Event) (m : Prog A) :
  runArgs [e] = [] ->
  Outcome w bin so done m -> Outcome w bin so done (emit e ;;; m).
Proof.
  intros He [[Hnone Hst] | (pre & args & Hpre & Hres)]; rewrite bind_emit.
  - left. cbn [trace fst status snd].
    change (e :: trace m) with ([e] ++ trace m).
    rewrite runArgs_app, He, Hnone. split; [reflexivity | exact Hst].
  - right. exists (e :: pre), args.
    change (e :: pre) with ([e] ++ pre). rewrite runArgs_app, He, Hpre.
    split; [reflexivity|]. cbn [trace fst status snd app].
    destruct (Run w bin args) as [err|];
      destruct Hres as [Htr Hst]; rewrite Htr; split;
      try reflexivity; exact Hst.
Qed.

(** What follows the encoder happens only when it succeeded. *)
Lemma Outcome_then {A} (bin : string) (so : bool)
                   (m : Prog A) (k : A -> Prog unit) (done : list Event) :
  Outcome w bin so [] m ->
  (forall a, k a = (done, Returned tt)) ->
  Outcome w bin so done (bind m k).
Proof.
  intros [[Hnone Hst] | (pre & args & Hpre & Hres)] Hk.
  - left. rewrite trace_bind, status_bind, Hst, app_nil_r.
    split; [exact Hnone | reflexivity].
  - right. exists pre, args. split; [exact Hpre|].
    rewrite trace_bind, status_bind.
    destruct (Run w bin args) as [err|].
    + destruct Hres as [Htr Hst]. rewrite Hst, app_nil_r.
      split; [exact Htr | reflexivity].
    + destruct Hres as [Htr [a Hst]]. rewrite Hst, Hk, Htr. simpl.
      rewrite <- app_assoc. split; [reflexivity | now exists tt].
Qed.

Lemma printStats_doneReport (cfg : Config) :
  printStats cfg = (doneReport (OutputFile cfg), Returned tt).
Proof. reflexivity. Qed.

Lemma Outcome_simpleCut (cfg : Config) :
  Outcome w (FfmpegBin cfg) (Verbose cfg) [] (simpleCut w cfg).
Proof. rewrite simpleCut_runFFmpeg. apply Outcome_runFFmpeg. Qed.

Lemma Outcome_extractAudio (cfg : Config) :
  Outcome w (FfmpegBin cfg) (Verbose cfg) []
          (extractAudio goos unicodeLower w cfg).
Proof.
  unfold extractAudio, Print. apply Outcome_emit; [reflexivity|].
  exact (Outcome_runFFmpeg (withOutputFile cfg _) _).
Qed.

(** [process] stops with status 1 before running anything, or runs the
    [ffmpeg] it resolved once. *)
Lemma Outcome_process (fl : Flags) (input : string) :
  Outcome w (resolveBinary filepath_Join filepath_Dir w "ffmpeg")
    (verbosePtr fl)
    (doneReport (outputFileOf goos (outputPtr fl) input (muteStartPtr fl)))
    (process goos unicodeLower filepath_Join filepath_Dir w fl input).
Proof.
  unfold process.
  destruct (Stat w input) as [[|]| |msg];
    try (left; unfold Print; rewrite bind_emit; split; reflexivity).
  cbv zeta.
  destruct (_ || _).
  - left. unfold Println. rewrite !bind_emit. split; reflexivity.
  - apply Outcome_emit; [reflexivity|].
    unfold Println at 1. apply Outcome_emit; [reflexivity|].
    apply Outcome_then; [|intros _; apply printStats_doneReport].
    match goal with
    | |- context [if ExtractMP3 ?c then _ else _] =>
        destruct (ExtractMP3 c);
        [exact (Outcome_extractAudio c) | exact (Outcome_simpleCut c)]
    end.
Qed.

(** [interactiveMode] always returns, whatever is typed and however early
    the input ends. *)
Lemma interactiveMode_returns :
  exists t ic, interactiveMode TrimSpace w = (t, Returned ic).
Proof.
  unfold interactiveMode, scanInto, scan.
  destruct (stdin w) as [|l1 [|l2 [|l3 [|l4 r]]]];
    cbn [bind Print Println emit ret];
    repeat match goal with
           | |- context [if ?c then _ else _] => destruct c
           end;
    cbn [bind Print Println emit ret app];
    eexists; eexists; reflexivity.
Qed.

(** *** Steps that start nothing *)

Lemma Quiet_finished {A} (m : Prog A) :
  Silent m -> status m <> Unfinished -> Quiet goos w fuel m.
Proof.
  intros [Hm [H|[H|H]]] Hn; split; try exact Hm.
  - now left.
  - contradiction.
  - right. now right.
Qed.

Lemma Quiet_bind {A B} (m : Prog A) (k : A -> Prog B) :
  Quiet goos w fuel m -> (forall a, Quiet goos w fuel (k a)) ->
  Quiet goos w fuel (bind m k).
Proof.
  intros [Hm Hst] Hk. split.
  - rewrite trace_bind, runArgs_app, Hm. destruct Hst as [H|[H|[a H]]].
    + now rewrite H.
    + destruct H as (pre & v & f & _ & _ & _ & Hs). now rewrite Hs.
    + rewrite H. apply (Hk a).
  - destruct Hst as [H|[H|[a H]]].
    + left. now rewrite status_bind, H.
    + right; left. destruct H as (pre & v & f & Ht & Hp & He & Hs).
      exists pre, v, f. rewrite trace_bind, status_bind, Hs, app_nil_r.
      repeat split; assumption.
    + destruct (Hk a) as [Hka [Hs|[Hs|[b Hs]]]].
      * left. now rewrite status_bind, H.
      * right; left. destruct Hs as (pre & v & f & Ht & Hp & He & Hs).
        exists (trace m ++ pre), v, f.
        rewrite trace_bind, status_bind, H, Ht, Hs, runArgs_app, Hm, Hp,
          app_assoc.
        repeat split; try reflexivity; assumption.
      * right; right. exists b. now rewrite status_bind, H.
Qed.

Lemma Quiet_Println (s : string) : Quiet goos w fuel (Println s).
Proof. apply Quiet_finished; [apply Silent_Println | discriminate]. Qed.

Lemma Quiet_Print (s : string) : Quiet goos w fuel (Print s).
Proof. apply Quiet_finished; [apply Silent_Print | discriminate]. Qed.

Lemma Quiet_exit {A} : Quiet goos w fuel (@exit A 1).
Proof. apply Quiet_finished; [apply Silent_exit | discriminate]. Qed.

Lemma Quiet_ret {A} (a : A) : Quiet goos w fuel (ret a).
Proof. apply Quiet_finished; [apply Silent_ret | discriminate]. Qed.

(** The fetch starts nothing; when it is not over, it is looking for a
    free name for the file of the video it has found. *)
Lemma Quiet_downloadYoutubeVideo (url : string) :
  Quiet goos w fuel (downloadYoutubeVideo goos w fuel url).
Proof.
  unfold downloadYoutubeVideo, Println, Print.
  destruct (GetVideo w url) as [video|err];
    [|cbn [bind emit ret app];
      split; [reflexivity | right; right; eexists; reflexivity]].
  destruct (WithAudioChannels (Formats video)) as [|format more];
    [cbn [bind emit ret app];
      split; [reflexivity | right; right; eexists; reflexivity]|].
  destruct (GetStream w video format) as [err|];
    [cbn [bind emit ret app];
      split; [reflexivity | right; right; eexists; reflexivity]|].
  destruct (ensureUniqueFilename goos w fuel
              (sanitizeFilename (Title video) ++ ".mp4"))
    as [outputFile|] eqn:Hname.
  - destruct (Create w outputFile) as [err|];
      [|destruct (Copy w outputFile) as [err|]];
      cbn [bind emit ret app];
      (split; [reflexivity | right; right; eexists; reflexivity]).
  - cbn [bind emit ret app unfinished].
    split; [reflexivity|]. right. left.
    exists [EvPrint ("Initializing YouTube client..." ++ nl);
            EvPrint ("Fetching video info for: " ++ url ++ nl);
            EvGetVideo url;
            EvPrint ("Found video: " ++ Title video ++ nl);
            EvPrint ("Downloading format: " ++ MimeType format
                       ++ " (Quality: " ++ QualityLabel format ++ ")" ++ nl)],
           video, format.
    repeat split; try reflexivity. exact Hname.
Qed.

Lemma Quiet_download (url : string) :
  Quiet goos w fuel (download goos w fuel url).
Proof.
  unfold download. apply Quiet_bind; [apply Quiet_downloadYoutubeVideo|].
  intros [[file [e|]] w'].
  - apply Quiet_bind; [apply Quiet_Print | intros _; apply Quiet_exit].
  - apply Quiet_ret.
Qed.

Lemma Ending_after {A B} (so : bool) (m : Prog A) (k : A -> Prog B) :
  Quiet goos w fuel m ->
  (forall a, status m = Returned a ->
             Ending goos filepath_Join filepath_Dir w fuel so (k a)) ->
  Ending goos filepath_Join filepath_Dir w fuel so (bind m k).
Proof.
  intros [Hm [H|[H|[a H]]]] Hk.
  - left. rewrite trace_bind, status_bind, runArgs_app, Hm, H.
    split; reflexivity.
  - right; left. destruct H as (pre & v & f & Ht & Hp & He & Hs).
    exists pre, v, f. rewrite trace_bind, status_bind, Hs, app_nil_r.
    repeat split; assumption.
  - destruct (Hk a H)
      as [[Hka Hks] | [Hs | (w' & out & Hw & pre & args & Hpre & Hres)]].
    + left. rewrite trace_bind, status_bind, runArgs_app, Hm, H, Hka.
      split; [reflexivity | exact Hks].
    + right; left. destruct Hs as (pre & v & f & Ht & Hp & He & Hs).
      exists (trace m ++ pre), v, f.
      rewrite trace_bind, status_bind, H, Ht, Hs, runArgs_app, Hm, Hp,
        app_assoc.
      repeat split; try reflexivity; assumption.
    + right; right. exists w', out. split; [exact Hw|].
      exists (trace m ++ pre), args.
      rewrite runArgs_app, Hm, Hpre, trace_bind, status_bind, H.
      split; [reflexivity|].
      destruct (Run w _ args) as [err|];
        destruct Hres as [Htr Hst]; rewrite Htr, app_assoc;
        split; try reflexivity; exact Hst.
Qed.

End Outcomes.

Section OutcomeOfMain.

Variable goos : OS.
Variable unicodeLower : string -> string.
Variable TrimSpace : string -> string.
Variable filepath_Join : list string -> string.
Variable filepath_Dir : string -> string.
Variable w : World.
Variable fuel : nat.

Lemma Ending_main (fl : Flags) :
  Ending goos filepath_Join filepath_Dir w fuel (verbosePtr fl)
    (main goos unicodeLower TrimSpace filepath_Join filepath_Dir w fuel fl).
Proof.
  unfold main.
  apply Ending_after.
  { destruct (_ && _); [|apply Quiet_ret].
    apply Quiet_bind; [apply Quiet_Println|]. intros _.
    destruct (interactiveMode_returns TrimSpace w) as (t & ic & Hic).
    apply Quiet_bind; [|intros ic'; apply Quiet_ret].
    apply Quiet_finished; [apply Silent_interactiveMode|].
    rewrite Hic. discriminate. }
  intros fl' Hfl.
  assert (Hv : verbosePtr fl' = verbosePtr fl).
  { revert Hfl. destruct (_ && _).
    - destruct (interactiveMode_returns TrimSpace w) as (t & ic & Hic).
      unfold Println. rewrite bind_emit, Hic. cbn [status snd bind ret].
      intros H. inversion H. reflexivity.
    - intros H. inversion H. reflexivity. }
  clear Hfl. rewrite <- Hv.
  apply Ending_after.
  { destruct (_ && _);
      [apply Quiet_bind; [apply Quiet_Println | intros _; apply Quiet_exit]
      | apply Quiet_ret]. }
  intros _ _. apply Ending_after.
  { destruct (nonEmpty (urlPtr fl')).
    - apply Quiet_bind; [apply Quiet_Println|]. intros _.
      apply Quiet_download.
    - destruct (_ || _); [|apply Quiet_ret].
      apply Quiet_bind; [apply Quiet_Println|]. intros _.
      apply Quiet_download. }
  intros [input w'] Hloc.
  pose proof (located_reaches _ _ _ _ _ _ Hloc) as Hreach. clear Hloc.
  pose proof (Outcome_process goos unicodeLower filepath_Join filepath_Dir
                w' fl' input) as [[Hnone Hst] | Hrun].
  - left. split; assumption.
  - right; right.
    exists w', (outputFileOf goos (outputPtr fl') input (muteStartPtr fl')).
    split; [exact Hreach|].
    destruct Hreach as [Hw | [path Hw]]; subst w'; exact Hrun.
Qed.

End OutcomeOfMain.

(** X1. How a run of [main] can go, once the operating system, the network
    and the encoder have answered its calls; it never panics.
    [flag.Parse()] ends it with status 0 after the usage text, or with
    status 2 after the report on a command line it rejects. Otherwise
    [main] stops with status 1 before starting any process; or the fetch is
    still looking for a free file name when the fuel is spent, having asked
    for the stream and started nothing; or [main] starts the [ffmpeg] it
    resolved exactly once, standard error mirrored always and standard
    output when [-v] was given, and that run fails, after which the failure
    report is the last event and the status is 1, or succeeds, after which
    [main] prints the "Done!" and "Output:" lines and returns. *)
Theorem main_outcome
    (goos : OS) (unicodeLower TrimSpace : string -> string)
    (filepath_Join : list string -> string) (filepath_Dir : string -> string)
    (w : World) (fuel : nat) (cl : CommandLine) :
  let run :=
    mainFromCommandLine goos unicodeLower TrimSpace filepath_Join
      filepath_Dir w fuel cl in
  status run <> Panicked
  /\ match cl with
     | HelpRequested usage => run = ([EvStderr usage], Exited 0)
     | Rejected report => run = ([EvStderr report], Exited 2)
     | Accepted fl =>
         (runArgs (trace run) = [] /\ status run = Exited 1)
         \/ (exists pre video format,
               trace run = pre ++ [EvGetStream video format]
               /\ runArgs pre = []
               /\ ensureUniqueFilename goos w fuel
                    (sanitizeFilename (Title video) ++ ".mp4") = None
               /\ status run = Unfinished)
         \/ (exists w' pre args,
               reaches w w' /\ runArgs pre = []
               /\ let bin :=
                    resolveBinary filepath_Join filepath_Dir w' "ffmpeg" in
                  match Run w bin args with
                  | Some err =>
                      trace run
                      = pre ++ [EvRun bin args (verbosePtr fl) true;
                                EvPrint (" FFmpeg Error: " ++ errorText err
                                           ++ nl)]
                      /\ status run = Exited 1
                  | None =>
                      exists out,
                        trace run
                        = pre ++ [EvRun bin args (verbosePtr fl) true;
                                  EvPrint (nl ++ " Done!" ++ nl);
                                  EvPrint ("Output: " ++ out ++ nl)]
                        /\ status run = Returned tt
                  end)
     end.
Proof.
  intros run. subst run.
  destruct cl as [fl|usage|report];
    [|split; [discriminate | reflexivity]
     |split; [discriminate | reflexivity]].
  cbn [mainFromCommandLine].
  destruct (Ending_main goos unicodeLower TrimSpace filepath_Join
              filepath_Dir w fuel fl)
    as [[Hnone Hst]
       | [(pre & v & f & Ht & Hp & He & Hs)
         | (w' & out & Hw & pre & args & Hpre & Hres)]].
  - split; [rewrite Hst; discriminate|]. left. split; assumption.
  - split; [rewrite Hs; discriminate|]. right; left.
    exists pre, v, f. repeat split; assumption.
  - cbv zeta.
    destruct (Run w (resolveBinary filepath_Join filepath_Dir w' "ffmpeg")
                  args) as [err|] eqn:Hrun.
    + destruct Hres as [Htr Hst]. split; [rewrite Hst; discriminate|].
      right; right. exists w', pre, args. rewrite Hrun.
      repeat split; assumption.
    + destruct Hres as [Htr [[] Hst]]. split; [rewrite Hst; discriminate|].
      right; right. exists w', pre, args. rewrite Hrun.
      split; [exact Hw|]. split; [exact Hpre|].
      exists out. split; assumption.
Qed.

(** ** What [main] refuses *)

Section Refusals.

Variable goos : OS.
Variable unicodeLower : string -> string.
Variable TrimSpace : string -> string.
Variable filepath_Join : list string -> string.
Variable filepath_Dir : string -> string.
Variable w : World.

Lemma mkdirs_app (t1 t2 : list Event) :
  mkdirs (t1 ++ t2) = mkdirs t1 ++ mkdirs t2.
Proof.
  induction t1 as [|e t1 IH]; simpl; [reflexivity|].
  destruct e; simpl; now rewrite ?IH.
Qed.

Lemma Idle_ret {A} (a : A) : Idle (ret a).
Proof. repeat split; try reflexivity. right. right. now exists a. Qed.

Lemma Idle_exit {A} : Idle (@exit A 1).
Proof. repeat split; try reflexivity. now left. Qed.

Lemma Idle_unfinished {A} : Idle (@unfinished A).
Proof. repeat split; try reflexivity. right. now left. Qed.

Lemma Idle_Print (s : string) : Idle (Print s).
Proof. repeat split; try reflexivity. right. right. now exists tt. Qed.

Lemma Idle_Println (s : string) : Idle (Println s).
Proof. repeat split; try reflexivity. right. right. now exists tt. Qed.

(** Any event but the start of a process or the creation of a
    directory. *)
Lemma Idle_emit (e : Event) :
  runArgs [e] = [] -> mkdirs [e] = [] -> Idle (emit e).
Proof.
  intros Hr Hm. repeat split; try assumption. right. right. now exists tt.
Qed.

Lemma Idle_bind {A B} (m : Prog A) (k : A -> Prog B) :
  Idle m -> (forall a, Idle (k a)) -> Idle (bind m k).
Proof.
  intros (Hr & Hm & Hst) Hk; unfold Idle;
    rewrite trace_bind, status_bind, runArgs_app, mkdirs_app, Hr, Hm.
  destruct Hst as [Hex|[Hun|[a Ha]]].
  - rewrite Hex. repeat split; try reflexivity. now left.
  - rewrite Hun. repeat split; try reflexivity. right. now left.
  - rewrite Ha. destruct (Hk a) as (Hkr & Hkm & Hks). repeat split; assumption.
Qed.

Lemma IdleStop_exit {A} : IdleStop (@exit A 1).
Proof. repeat split; try reflexivity. now left. Qed.

Lemma IdleStop_after {A B} (m : Prog A) (k : A -> Prog B) :
  Idle m -> (forall a, status m = Returned a -> IdleStop (k a)) ->
  IdleStop (bind m k).
Proof.
  intros (Hr & Hm & Hst) Hk; unfold IdleStop;
    rewrite trace_bind, status_bind, runArgs_app, mkdirs_app, Hr, Hm.
  destruct Hst as [Hex|[Hun|[a Ha]]].
  - rewrite Hex. repeat split; try reflexivity. now left.
  - rewrite Hun. repeat split; try reflexivity. now right.
  - rewrite Ha. destruct (Hk a Ha) as (Hkr & Hkm & Hks).
    repeat split; assumption.
Qed.

Ltac idle :=
  repeat first
    [ apply Idle_ret | apply Idle_exit | apply Idle_unfinished
    | apply Idle_Print | apply Idle_Println
    | apply Idle_emit; reflexivity
    | apply Idle_bind; [|intros]
    | match goal with
      | |- Idle (let '(_, _) := ?x in _) => destruct x
      | |- Idle (if ?c then _ else _) => destruct c
      | |- Idle (match ?x with _ => _ end) => destruct x
      end ].

Lemma Idle_interactiveMode : Idle (interactiveMode TrimSpace w).
Proof. unfold interactiveMode. idle. Qed.

Lemma Idle_downloadYoutubeVideo (fuel : nat) (url : string) :
  Idle (downloadYoutubeVideo goos w fuel url).
Proof. unfold downloadYoutubeVideo. idle. Qed.

Lemma Idle_download (fuel : nat) (url : string) :
  Idle (download goos w fuel url).
Proof.
  unfold download.
  apply Idle_bind; [apply Idle_downloadYoutubeVideo|].
  intros [[file err] w']. destruct err; idle.
Qed.

End Refusals.

(** Without one of the tools [process] ends with status 1, having started
    nothing and created nothing. *)
Lemma process_without_tools
    (goos : OS) (unicodeLower : string -> string)
    (filepath_Join : list string -> string) (filepath_Dir : string -> string)
    (w : World) (fl : Flags) (input : string) :
  resolveBinary filepath_Join filepath_Dir w "ffmpeg" = EmptyString
  \/ resolveBinary filepath_Join filepath_Dir w "ffprobe" = EmptyString ->
  let run :=
    process goos unicodeLower filepath_Join filepath_Dir w fl input in
  runArgs (trace run) = [] /\ mkdirs (trace run) = []
  /\ status run = Exited 1.
Proof.
  intros Hnone run. subst run. unfold process.
  destruct (Stat w input) as [[|]| |msg];
    try (unfold Print; rewrite bind_emit; repeat split; reflexivity).
  cbv zeta. cbn [FfmpegBin FfprobeBin withFfmpegBin withFfprobeBin].
  replace (String.eqb (resolveBinary filepath_Join filepath_Dir w "ffmpeg")
                      EmptyString
           || String.eqb (resolveBinary filepath_Join filepath_Dir w "ffprobe")
                         EmptyString) with true.
  - unfold Println. rewrite !bind_emit. repeat split; reflexivity.
  - symmetry. apply orb_true_iff.
    destruct Hnone as [H|H]; rewrite H; [left | right]; reflexivity.
Qed.

Section RefusalsOfMain.

Variable goos : OS.
Variable unicodeLower : string -> string.
Variable TrimSpace : string -> string.
Variable filepath_Join : list string -> string.
Variable filepath_Dir : string -> string.
Variable w : World.

Lemma IdleStop_main_without_tools (fuel : nat) (fl : Flags) :
  (forall w', reaches w w' ->
     resolveBinary filepath_Join filepath_Dir w' "ffmpeg" = EmptyString
     \/ resolveBinary filepath_Join filepath_Dir w' "ffprobe" = EmptyString) ->
  IdleStop
    (main goos unicodeLower TrimSpace filepath_Join filepath_Dir w fuel fl).
Proof.
  intros Hmissing. unfold main.
  apply IdleStop_after.
  { destruct (_ && _); [|apply Idle_ret].
    apply Idle_bind; [apply Idle_Println|]. intros _.
    apply Idle_bind; [apply Idle_interactiveMode|]. intros ic.
    apply Idle_ret. }
  intros fl' _. apply IdleStop_after.
  { destruct (_ && _);
      [apply Idle_bind; [apply Idle_Println | intros _; apply Idle_exit]
      | apply Idle_ret]. }
  intros _ _. apply IdleStop_after.
  { destruct (nonEmpty (urlPtr fl')).
    - apply Idle_bind; [apply Idle_Println|]. intros _. apply Idle_download.
    - destruct (_ || _); [|apply Idle_ret].
      apply Idle_bind; [apply Idle_Println|]. intros _. apply Idle_download. }
  intros [input w'] Hloc.
  pose proof (Hmissing w' (located_reaches _ _ _ _ _ _ Hloc)) as Hnone.
  clear Hloc.
  destruct (process_without_tools goos unicodeLower filepath_Join
              filepath_Dir w' fl' input Hnone) as (Hr & Hm & Hst).
  repeat split; try assumption. now left.
Qed.

(** With an input path that is given and is no URL, [main] is [process]
    on that path. *)
Lemma main_local (fuel : nat) (fl : Flags) :
  inputPtr fl <> EmptyString ->
  urlPtr fl = EmptyString ->
  urlLike (inputPtr fl) = false ->
  main goos unicodeLower TrimSpace filepath_Join filepath_Dir w fuel fl
  = process goos unicodeLower filepath_Join filepath_Dir w fl (inputPtr fl).
Proof.
  intros Hin Hurl Hlike.
  apply String.eqb_neq in Hin.
  unfold main. rewrite Hin, Hurl. cbn [andb]. rewrite !bind_ret.
  rewrite Hin, ?Hurl. cbn [andb]. rewrite bind_ret, ?Hurl.
  change (nonEmpty EmptyString) with false. cbv iota.
  unfold urlLike in Hlike. rewrite Hlike, bind_ret. reflexivity.
Qed.

Lemma downloads_app (t1 t2 : list Event) :
  downloads (t1 ++ t2) = downloads t1 ++ downloads t2.
Proof.
  induction t1 as [|e t1 IH]; simpl; [reflexivity|].
  destruct e; simpl; now rewrite ?IH.
Qed.

Lemma bind_returned {A B} (t : list Event) (a : A) (k : A -> Prog B) :
  bind (t, Returned a) k = (t ++ trace (k a), status (k a)).
Proof. unfold bind, trace, status. now destruct (k a). Qed.

(** Every fetch asks the video site for its URL. *)
Lemma download_asks (fuel : nat) (url : string) :
  exists rest,
    trace (download goos w fuel url)
    = EvPrint ("Initializing YouTube client..." ++ nl)
      :: EvPrint ("Fetching video info for: " ++ url ++ nl)
      :: EvGetVideo url :: rest.
Proof.
  unfold download. rewrite trace_bind.
  unfold downloadYoutubeVideo at 1. unfold Println, Print.
  rewrite !bind_emit. cbn [trace fst app].
  eexists. reflexivity.
Qed.

(** Lines 89-168 of [main], after events [pre] among which is no request
    to the video site: when there is no such request at all, they are
    [process] on the input path as it was given. *)
Lemma located_without_fetch (fuel : nat) (fl : Flags) (pre : list Event) :
  let rest :=
    located <-
      (if nonEmpty (urlPtr fl) then
         Println "YouTube URL provided. Downloading..." ;;;
         download goos w fuel (urlPtr fl)
       else if HasPrefix (inputPtr fl) "http://"
               || HasPrefix (inputPtr fl) "https://"
               || HasPrefix (inputPtr fl) "www." then
         Println "YouTube URL detected. Downloading..." ;;;
         download goos w fuel (inputPtr fl)
       else ret (inputPtr fl, w)) ;;
    let '(input, w') := located in
    process goos unicodeLower filepath_Join filepath_Dir w' fl input in
  downloads (pre ++ trace rest) = [] ->
  rest = process goos unicodeLower filepath_Join filepath_Dir w fl
           (inputPtr fl).
Proof.
  intros rest Hquiet. subst rest.
  assert (Hfetch : forall notice url (k : string * World -> Prog unit),
    downloads
      (pre ++ trace (bind (Println notice ;;; download goos w fuel url) k))
    <> []).
  { intros notice url k H.
    rewrite downloads_app, trace_bind in H.
    unfold Println in H. rewrite bind_emit in H. cbn [trace fst] in H.
    destruct (download_asks fuel url) as [more Hmore].
    rewrite Hmore in H. cbn [downloads app] in H.
    apply app_eq_nil in H. destruct H as [_ H]. discriminate H. }
  destruct (nonEmpty (urlPtr fl)).
  - exfalso. exact (Hfetch _ _ _ Hquiet).
  - destruct (_ || _).
    + exfalso. exact (Hfetch _ _ _ Hquiet).
    + now rewrite bind_ret.
Qed.

(** A run of [main] that asks nothing of the video site is, after what the
    prompts print, the refusal for want of an input, or [process] in the
    world [main] started in. *)
Lemma main_without_fetch (fuel : nat) (fl : Flags) :
  let run :=
    main goos unicodeLower TrimSpace filepath_Join filepath_Dir w fuel fl in
  downloads (trace run) = [] ->
  exists pre,
    runArgs pre = [] /\ mkdirs pre = []
    /\ (run = (pre ++ [EvPrint ("Error: Input file or YouTube URL required."
                                  ++ nl)], Exited 1)
        \/ exists fl' input,
             run = (pre ++ trace (process goos unicodeLower filepath_Join
                                    filepath_Dir w fl' input),
                    status (process goos unicodeLower filepath_Join
                              filepath_Dir w fl' input))).
Proof.
  intros run. subst run. unfold main.
  destruct (String.eqb (inputPtr fl) EmptyString
            && String.eqb (urlPtr fl) EmptyString) eqn:Hflags.
  - destruct (interactiveMode_returns TrimSpace w) as (t & ic & Hic).
    pose proof (Idle_interactiveMode TrimSpace w) as (Hr & Hm & _).
    rewrite Hic in Hr, Hm. cbn [trace fst] in Hr, Hm.
    match goal with
    | |- context [bind (Println ?msg ;;; ic0 <- _ ;; ret (@?F ic0)) _] =>
        assert (Hfirst :
          (Println msg ;;; ic0 <- interactiveMode TrimSpace w ;; ret (F ic0))
          = (EvPrint (msg ++ nl) :: t, Returned (F ic)))
          by (rewrite Hic; unfold Println; cbn [bind emit ret app];
              now rewrite app_nil_r)
    end.
    rewrite Hfirst, bind_returned. clear Hfirst. cbv beta.
    match goal with
    | |- context [bind (if ?c then _ else ret tt) _] => destruct c
    end.
    + intros _. exists (EvPrint
        ("No input file provided via flags. Entering Interactive Mode..."
           ++ nl) :: t).
      repeat split; try assumption. left.
      unfold Println. rewrite !bind_emit. reflexivity.
    + rewrite bind_ret. cbn [trace fst]. intros Hquiet.
      exists (EvPrint
        ("No input file provided via flags. Entering Interactive Mode..."
           ++ nl) :: t).
      repeat split; try assumption. right.
      eexists. eexists.
      rewrite (located_without_fetch fuel _ _ Hquiet). reflexivity.
  - rewrite !bind_ret, Hflags, bind_ret. intros Hquiet.
    exists []. repeat split; try reflexivity. right.
    exists fl, (inputPtr fl).
    rewrite (located_without_fetch fuel fl [] Hquiet).
    now destruct (process _ _ _ _ _ _ _).
Qed.

(** [process] is over when it ends. *)
Lemma process_finished (fl : Flags) (input : string) :
  status (process goos unicodeLower filepath_Join filepath_Dir w fl input)
  <> Unfinished.
Proof.
  destruct (Outcome_process goos unicodeLower filepath_Join filepath_Dir
              w fl input) as [[_ Hst] | (pre & args & _ & Hres)].
  - rewrite Hst. discriminate.
  - destruct (Run w _ args); destruct Hres as [_ Hst];
      [|destruct Hst as [a Hst]]; rewrite Hst; discriminate.
Qed.

End RefusalsOfMain.

Section CreatedFiles.

Variable filepath_Join : list string -> string.
Variable filepath_Dir : string -> string.

(** A file that is none of the [bin] candidates changes nothing for
    [resolveBinary] when it is created. *)
Lemma resolveBinary_created (w : World) (name path : string) :
  ~ In path (searchOrder filepath_Join filepath_Dir w name) ->
  resolveBinary filepath_Join filepath_Dir (created w path) name
  = resolveBinary filepath_Join filepath_Dir w name.
Proof.
  intros Hout.
  assert (Hstat : forall dir,
            ~ In path (binCandidates filepath_Join dir name) ->
            tryBin filepath_Join (created w path) dir name
            = tryBin filepath_Join w dir name).
  { intros dir Hdir. unfold tryBin, statOk, created. cbn [Stat].
    destruct (String.eqb (filepath_Join [dir; "bin"; name]) path) eqn:E1.
    - exfalso. apply Hdir. left. now apply String.eqb_eq.
    - destruct (String.eqb (filepath_Join [dir; "bin"; name] ++ ".exe") path)
        eqn:E2.
      + exfalso. apply Hdir. right. left. now apply String.eqb_eq.
      + reflexivity. }
  unfold resolveBinary, searchOrder in *.
  cbn [Executable Getwd LookPath created].
  destruct (Executable w) as [exePath|], (Getwd w) as [cwd|];
    rewrite ?Hstat; try reflexivity;
    intros Hin; apply Hout; rewrite ?app_nil_r;
    try apply in_or_app; auto.
Qed.

End CreatedFiles.

(** X2. Both tools are required, though only [ffmpeg] is ever started. When
    [resolveBinary] finds no [ffmpeg] or no [ffprobe], a run of [main] that
    asks nothing of the video site starts no process, creates no directory
    and ends with status 1. A run that fetches a video does the same if a
    tool is still missing once the fetched file is there, unless the fetch
    is still looking for a free file name when the fuel is spent. *)
Theorem main_requires_both_tools
    (goos : OS) (unicodeLower TrimSpace : string -> string)
    (filepath_Join : list string -> string) (filepath_Dir : string -> string)
    (w : World) (fuel : nat) (fl : Flags) :
  resolveBinary filepath_Join filepath_Dir w "ffmpeg" = EmptyString
  \/ resolveBinary filepath_Join filepath_Dir w "ffprobe" = EmptyString ->
  let run :=
    main goos unicodeLower TrimSpace filepath_Join filepath_Dir w fuel fl in
  (downloads (trace run) = [] ->
   runArgs (trace run) = [] /\ mkdirs (trace run) = []
   /\ status run = Exited 1)
  /\ ((forall path,
         resolveBinary filepath_Join filepath_Dir (created w path) "ffmpeg"
         = EmptyString
         \/ resolveBinary filepath_Join filepath_Dir (created w path) "ffprobe"
            = EmptyString) ->
      runArgs (trace run) = [] /\ mkdirs (trace run) = []
      /\ (status run = Exited 1 \/ status run = Unfinished)).
Proof.
  intros Hmissing run. split.
  - intros Hquiet.
    destruct (main_without_fetch goos unicodeLower TrimSpace filepath_Join
                filepath_Dir w fuel fl Hquiet)
      as (pre & Hr & Hm & [Hrun | (fl' & input & Hrun)]);
      fold run in Hrun; rewrite Hrun; cbn [trace fst status snd];
      rewrite runArgs_app, mkdirs_app, Hr, Hm.
    + repeat split; reflexivity.
    + destruct (process_without_tools goos unicodeLower filepath_Join
                  filepath_Dir w fl' input Hmissing) as (Hpr & Hpm & Hps).
      repeat split; assumption.
  - intros Hcreated.
    apply (IdleStop_main_without_tools goos unicodeLower TrimSpace
             filepath_Join filepath_Dir w fuel fl).
    intros w' [Hw | [path Hw]]; subst w'; [exact Hmissing | apply Hcreated].
Qed.

Lemma main_requires_both_tools_witness :
  let run :=
    main Unix sameString sameString unixJoin unixDir
         toollessWorld 5 reversedMuteFlags in
  (resolveBinary unixJoin unixDir toollessWorld "ffmpeg" = EmptyString
   \/ resolveBinary unixJoin unixDir toollessWorld "ffprobe" = EmptyString)
  /\ downloads (trace run) = []
  /\ runArgs (trace run) = [] /\ mkdirs (trace run) = []
  /\ status run = Exited 1.
Proof.
  assert (Hmissing :
    resolveBinary unixJoin unixDir toollessWorld "ffmpeg" = EmptyString
    \/ resolveBinary unixJoin unixDir toollessWorld "ffprobe" = EmptyString)
    by (left; reflexivity).
  split; [exact Hmissing|]. split; [reflexivity|].
  apply (proj1 (main_requires_both_tools Unix sameString sameString unixJoin
                  unixDir toollessWorld 5 reversedMuteFlags Hmissing)).
  reflexivity.
Defined.

(** ** Where the input comes from *)

(** X3. With [-url] given, the [-i] flag has no effect: the run is the same
    whatever input path accompanies the URL. *)
Theorem main_url_overrides_input
    (goos : OS) (unicodeLower TrimSpace : string -> string)
    (filepath_Join : list string -> string) (filepath_Dir : string -> string)
    (w : World) (fuel : nat) (fl : Flags) (other : string) :
  urlPtr fl <> EmptyString ->
  main goos unicodeLower TrimSpace filepath_Join filepath_Dir w fuel
       (withInputPtr fl other)
  = main goos unicodeLower TrimSpace filepath_Join filepath_Dir w fuel fl.
Proof.
  intros Hurl.
  assert (Heq : String.eqb (urlPtr fl) EmptyString = false)
    by now apply String.eqb_neq.
  assert (Hne : nonEmpty (urlPtr fl) = true) by now apply nonEmpty_true.
  unfold main. cbn [urlPtr withInputPtr].
  rewrite Heq, !andb_false_r, !bind_ret.
  cbn [urlPtr inputPtr outputPtr startPtr endPtr muteStartPtr muteEndPtr
       presetPtr crfPtr verbosePtr mp3Ptr withInputPtr].
  rewrite Heq, !andb_false_r, !bind_ret, Hne. reflexivity.
Qed.

Lemma main_url_overrides_input_witness :
  main Unix sameString sameString unixJoin unixDir failingWorld 5
       (withInputPtr urlFlags "a.mp4")
  = main Unix sameString sameString unixJoin unixDir failingWorld 5
         urlFlags.
Proof.
  apply (main_url_overrides_input Unix sameString sameString unixJoin
           unixDir failingWorld 5 urlFlags "a.mp4").
  discriminate.
Defined.

Section FetchOfMain.

Variable goos : OS.
Variable unicodeLower : string -> string.
Variable TrimSpace : string -> string.
Variable filepath_Join : list string -> string.
Variable filepath_Dir : string -> string.
Variable w : World.

(** [main] with a [-url]: the notice, the fetch, and [process] on the
    fetched file in the world the fetch left. *)
Lemma main_fetch (fuel : nat) (fl : Flags) :
  urlPtr fl <> EmptyString ->
  main goos unicodeLower TrimSpace filepath_Join filepath_Dir w fuel fl
  = located <- (Println "YouTube URL provided. Downloading..." ;;;
                download goos w fuel (urlPtr fl)) ;;
    let '(input, w') := located in
    process goos unicodeLower filepath_Join filepath_Dir w' fl input.
Proof.
  intros Hurl.
  assert (Heq : String.eqb (urlPtr fl) EmptyString = false)
    by now apply String.eqb_neq.
  assert (Hne : nonEmpty (urlPtr fl) = true) by now apply nonEmpty_true.
  unfold main. rewrite Heq, !andb_false_r, !bind_ret.
  rewrite Heq, !andb_false_r, !bind_ret, Hne. reflexivity.
Qed.

End FetchOfMain.

(** X4. When the fetch of [-url] fails, [main] adds the notice before what
    the fetch did and the error message after it, and ends with status 1:
    no directory is created and nothing is started. When the fetch fails
    because the video cannot be found, the run is exactly the notice, the
    two lines the fetch prints first, the request, and the error
    message. *)
Theorem main_download_failure
    (goos : OS) (unicodeLower TrimSpace : string -> string)
    (filepath_Join : list string -> string) (filepath_Dir : string -> string)
    (w : World) (fuel : nat) (fl : Flags) :
  urlPtr fl <> EmptyString ->
  let run :=
    main goos unicodeLower TrimSpace filepath_Join filepath_Dir w fuel fl in
  (forall t file err w',
     downloadYoutubeVideo goos w fuel (urlPtr fl)
     = (t, Returned (file, Some err, w')) ->
     run = (EvPrint ("YouTube URL provided. Downloading..." ++ nl) :: t
            ++ [EvPrint ("Error downloading YouTube video: " ++ err ++ nl)],
            Exited 1)
     /\ runArgs (trace run) = [] /\ mkdirs (trace run) = [])
  /\ (forall err,
        GetVideo w (urlPtr fl) = inr err ->
        run = ([EvPrint ("YouTube URL provided. Downloading..." ++ nl);
                EvPrint ("Initializing YouTube client..." ++ nl);
                EvPrint ("Fetching video info for: " ++ urlPtr fl ++ nl);
                EvGetVideo (urlPtr fl);
                EvPrint ("Error downloading YouTube video: "
                           ++ "failed to get video info: " ++ err ++ nl)],
               Exited 1)).
Proof.
  intros Hurl run. subst run.
  rewrite (main_fetch goos unicodeLower TrimSpace filepath_Join filepath_Dir
             w fuel fl Hurl).
  split.
  - intros t file err w' Hfetch.
    assert (Hrun :
      (located <- (Println "YouTube URL provided. Downloading..." ;;;
                   download goos w fuel (urlPtr fl)) ;;
       let '(input, w1) := located in
       process goos unicodeLower filepath_Join filepath_Dir w1 fl input)
      = (EvPrint ("YouTube URL provided. Downloading..." ++ nl) :: t
         ++ [EvPrint ("Error downloading YouTube video: " ++ err ++ nl)],
         Exited 1)).
    { unfold download. rewrite Hfetch. unfold Println, Print.
      cbn [bind emit exit ret app]. rewrite ?app_nil_r. reflexivity. }
    rewrite Hrun. cbn [trace fst].
    pose proof (Idle_downloadYoutubeVideo goos w fuel (urlPtr fl))
      as (Hr & Hm & _).
    rewrite Hfetch in Hr, Hm. cbn [trace fst] in Hr, Hm.
    split; [reflexivity|].
    change (EvPrint ("YouTube URL provided. Downloading..." ++ nl) :: t
            ++ [EvPrint ("Error downloading YouTube video: " ++ err ++ nl)])
      with ([EvPrint ("YouTube URL provided. Downloading..." ++ nl)] ++ t
            ++ [EvPrint ("Error downloading YouTube video: " ++ err ++ nl)]).
    rewrite !runArgs_app, !mkdirs_app, Hr, Hm. split; reflexivity.
  - intros err Hvideo.
    unfold download, downloadYoutubeVideo. rewrite Hvideo.
    unfold Println, Print. reflexivity.
Qed.

Lemma main_download_failure_witness :
  main Unix sameString sameString unixJoin unixDir failingWorld 5 urlFlags
  = ([EvPrint ("YouTube URL provided. Downloading..." ++ nl);
      EvPrint ("Initializing YouTube client..." ++ nl);
      EvPrint ("Fetching video info for: https://example.org/v" ++ nl);
      EvGetVideo "https://example.org/v";
      EvPrint ("Error downloading YouTube video: "
                 ++ "failed to get video info: no network" ++ nl)],
     Exited 1).
Proof.
  apply (main_download_failure Unix sameString sameString unixJoin
           unixDir failingWorld 5 urlFlags).
  - discriminate.
  - reflexivity.
Defined.



(** X6. An input path given with [-i] that is not URL-like is checked
    before anything else happens: if it does not exist, cannot be
    accessed, or is a directory, the run is one error message and status
    1; if it is a regular file, nothing is asked of the video site. *)
Theorem main_input_validation
    (goos : OS) (unicodeLower TrimSpace : string -> string)
    (filepath_Join : list string -> string) (filepath_Dir : string -> string)
    (w : World) (fuel : nat) (fl : Flags) :
  inputPtr fl <> EmptyString ->
  urlPtr fl = EmptyString ->
  urlLike (inputPtr fl) = false ->
  let run :=
    main goos unicodeLower TrimSpace filepath_Join filepath_Dir w fuel fl in
  match Stat w (inputPtr fl) with
  | StatNotExist =>
      run = ([EvPrint ("Error: Input file '" ++ inputPtr fl
                         ++ "' does not exist." ++ nl)], Exited 1)
  | StatErr msg =>
      run = ([EvPrint ("Error: Cannot access input file: " ++ msg ++ nl)],
             Exited 1)
  | StatOk true =>
      run = ([EvPrint ("Error: Input '" ++ inputPtr fl
                         ++ "' is a directory. Please specify a video file."
                         ++ nl)], Exited 1)
  | StatOk false => downloads (trace run) = []
  end.
Proof.
  intros Hin Hurl Hlike run. subst run.
  apply String.eqb_neq in Hin.
  unfold main. rewrite Hin, Hurl. cbn [andb]. rewrite !bind_ret.
  rewrite Hin, ?Hurl. cbn [andb]. rewrite bind_ret, ?Hurl.
  change (nonEmpty EmptyString) with false. cbv iota.
  unfold urlLike in Hlike. rewrite Hlike, bind_ret. cbv beta iota.
  unfold process.
  destruct (Stat w (inputPtr fl)) as [[|]| |msg]; try reflexivity.
  cbv zeta.
  match goal with
  | |- context [if ?c then _ ;;; _ ;;; exit 1 else _] => destruct c
  end.
  - reflexivity.
  - unfold Println. rewrite !bind_emit. cbn [trace fst downloads].
    rewrite trace_bind.
    match goal with
    | |- context [if ExtractMP3 ?c then _ else _] => destruct (ExtractMP3 c)
    end.
    + unfold extractAudio, Print, runFFmpeg. rewrite !bind_emit.
      cbn [trace fst status snd].
      match goal with
      | |- context [Run w ?b ?a] => destruct (Run w b a)
      end; reflexivity.
    + rewrite simpleCut_runFFmpeg. unfold runFFmpeg. rewrite bind_emit.
      cbn [trace fst status snd].
      match goal with
      | |- context [Run w ?b ?a] => destruct (Run w b a)
      end; reflexivity.
Qed.

Lemma main_input_validation_witness :
  main Unix sameString sameString unixJoin unixDir failingWorld 5
       missingFlags
  = ([EvPrint ("Error: Input file 'missing.mp4' does not exist." ++ nl)],
     Exited 1).
Proof.
  apply (main_input_validation Unix sameString sameString unixJoin
           unixDir failingWorld 5 missingFlags);
    [discriminate | reflexivity | reflexivity].
Defined.

(** ** The interactive prompts *)

(** X7. [interactiveMode] always returns, whatever is typed and wherever
    the input ends (an invalid mode prints a notice and returns too); it
    starts nothing, fetches nothing and creates nothing; and the
    Configuration it returns never has an output path and asks for at most
    one of a trim, a mute window, or audio extraction. *)
Theorem interactiveMode_choices
    (TrimSpace : string -> string) (w : World) :
  exists t ic,
    interactiveMode TrimSpace w = (t, Returned ic)
    /\ runArgs t = [] /\ downloads t = [] /\ mkdirs t = []
    /\ OutputFile ic = EmptyString
    /\ (ExtractMP3 ic = true ->
        StartTime ic = EmptyString /\ EndTime ic = EmptyString
        /\ MuteStart ic = EmptyString /\ MuteEnd ic = EmptyString)
    /\ (StartTime ic <> EmptyString \/ EndTime ic <> EmptyString ->
        MuteStart ic = EmptyString /\ MuteEnd ic = EmptyString
        /\ ExtractMP3 ic = false)
    /\ (MuteStart ic <> EmptyString \/ MuteEnd ic <> EmptyString ->
        StartTime ic = EmptyString /\ EndTime ic = EmptyString
        /\ ExtractMP3 ic = false).
Proof.
  unfold interactiveMode, scanInto, scan.
  destruct (stdin w) as [|l1 [|l2 [|l3 [|l4 r]]]];
    cbn [bind Print Println emit ret];
    repeat match goal with
           | |- context [if ?c then _ else _] => destruct c
           end;
    cbn [bind Print Println emit ret app];
    eexists; eexists; (split; [reflexivity|]);
    cbn; repeat split; try reflexivity; try discriminate;
    try match goal with
        | H : _ \/ _ |- _ => destruct H as [H|H]; exfalso; apply H; reflexivity
        end.
Qed.

(** ** Audio extraction, continued *)

Section Extraction.

Variable goos : OS.
Variable unicodeLower : string -> string.
Variable w : World.

(** The output path [extractAudio] hands to the encoder. *)
Lemma extractAudio_runArgs (cfg : Config) :
  runArgs (trace (extractAudio goos unicodeLower w cfg))
  = [["-i"; InputFile cfg; "-vn"; "-acodec"; "libmp3lame"; "-q:a"; "2"; "-y";
      if String.eqb (OutputFile cfg) EmptyString
      then (TrimSuffix (InputFile cfg) (Ext goos (InputFile cfg))
            ++ ".mp3")%string
      else if negb (HasSuffix (ToLower unicodeLower (OutputFile cfg)) ".mp3")
           then (OutputFile cfg ++ ".mp3")%string
           else OutputFile cfg]].
Proof.
  unfold extractAudio, Print. rewrite bind_emit. cbn [trace fst runArgs].
  now rewrite runFFmpeg_runArgs.
Qed.

End Extraction.

(** X8. In audio-extraction mode the trim and mute boundaries, the preset
    and the quality are ignored: two Configurations with the same input and
    output paths give the encoder the same arguments. *)
Theorem extractAudio_ignores_cut_and_mute
    (goos : OS) (unicodeLower : string -> string) (w1 w2 : World)
    (cfg1 cfg2 : Config) :
  InputFile cfg1 = InputFile cfg2 ->
  OutputFile cfg1 = OutputFile cfg2 ->
  runArgs (trace (extractAudio goos unicodeLower w1 cfg1))
  = runArgs (trace (extractAudio goos unicodeLower w2 cfg2)).
Proof.
  intros Hin Hout. rewrite !extractAudio_runArgs, Hin, Hout. reflexivity.
Qed.

(** ** Timestamps that are not numbers *)

Section NotANumber.

Lemma placeValueSum_zero (fromRight : list string) :
  forall k,
    (forall part, In part fromRight ->
                  snd (ParseFloat part) = Some ErrSyntax) ->
    k + List.length fromRight <= 174 ->
    placeValueSum fromRight k zero = zero.
Proof.
  induction fromRight as [|part more IH]; intros k Hsyn Hlen.
  - reflexivity.
  - simpl in *.
    assert (Hval : segmentValue part = zero).
    { unfold segmentValue. pose proof (Hsyn part (or_introl eq_refl)) as Hp.
      destruct (ParseFloat part) as [v e] eqn:Hparse. simpl in Hp. subst e.
      now apply ParseFloat_syntax_zero in Hparse. }
    rewrite Hval.
    pose proof (pow60_finite k ltac:(lia)) as Hfin.
    destruct (pow60 k) as [| | |[|] m e]; try discriminate.
    cbn [mul SFmul add SFadd zero xorb].
    apply IH; [auto | lia].
Qed.

Lemma seconds_no_number (ts : string) :
  snd (ParseFloat ts) <> None ->
  (forall part, In part (Split ts ":") ->
                snd (ParseFloat part) = Some ErrSyntax) ->
  List.length (Split ts ":") <= 174 ->
  seconds ts = zero.
Proof.
  intros Herr Hsyn Hlen. unfold seconds.
  destruct (ParseFloat ts) as [v [e|]]; [|now elim Herr].
  apply placeValueSum_zero.
  - intros part Hin. apply Hsyn. now apply in_rev.
  - now rewrite length_rev.
Qed.

End NotANumber.

(** X10. A timestamp none of whose segments is a number is silently 0
    seconds: when [ParseFloat] rejects the string and rejects every
    colon-separated segment for its syntax (at most 174 of them),
    [parseTimeToSeconds] returns 0. *)
Theorem parseTimeToSeconds_no_number_is_zero (ts : string) :
  snd (ParseFloat ts) <> None ->
  (forall part, In part (Split ts ":") ->
                snd (ParseFloat part) = Some ErrSyntax) ->
  List.length (Split ts ":") <= 174 ->
  parseTimeToSeconds ts = Some zero.
Proof.
  intros Herr Hsyn Hlen.
  rewrite parseTimeToSeconds_seconds. f_equal.
  now apply seconds_no_number.
Qed.

Lemma parseTimeToSeconds_no_number_is_zero_witness :
  parseTimeToSeconds "half:past" = Some zero.
Proof.
  apply (parseTimeToSeconds_no_number_is_zero "half:past").
  - discriminate.
  - intros part [<-|[<-|[]]]; reflexivity.
  - simpl. lia.
Defined.

(** X11. Mute boundaries that are not numbers are not refused: when
    neither contains a number, the encoder is still run, with a filter for
    the empty window [between(t,0.000,0.000)]. *)
Theorem simpleCut_unparsed_mute_window (w : World) (cfg : Config) :
  MuteStart cfg <> EmptyString ->
  MuteEnd cfg <> EmptyString ->
  (forall ts, ts = MuteStart cfg \/ ts = MuteEnd cfg ->
     snd (ParseFloat ts) <> None
     /\ (forall part, In part (Split ts ":") ->
                      snd (ParseFloat part) = Some ErrSyntax)
     /\ List.length (Split ts ":") <= 174) ->
  runArgs (trace (simpleCut w cfg))
  = [getInputArgs cfg ++ encodeFlags cfg
     ++ ["-af"; "volume=0:enable='between(t,0.000,0.000)'"]
     ++ ["-y"; OutputFile cfg]].
Proof.
  intros Hs He Hbad.
  rewrite simpleCut_runFFmpeg, runFFmpeg_runArgs. unfold muteWindow.
  apply nonEmpty_true in Hs. apply nonEmpty_true in He. rewrite Hs, He.
  destruct (Hbad _ (or_introl eq_refl)) as (H1 & H2 & H3).
  destruct (Hbad _ (or_intror eq_refl)) as (H4 & H5 & H6).
  rewrite (seconds_no_number _ H1 H2 H3), (seconds_no_number _ H4 H5 H6).
  reflexivity.
Qed.

Lemma simpleCut_unparsed_mute_window_witness :
  runArgs (trace (simpleCut bareWorld (configOf "soon" "later")))
  = [["-i"; "a.mp4"; "-c:v"; "libx264"; "-preset"; "medium"; "-crf"; "23";
      "-c:a"; "aac"; "-b:a"; "192k";
      "-af"; "volume=0:enable='between(t,0.000,0.000)'";
      "-y"; "out.mp4"]].
Proof.
  apply (simpleCut_unparsed_mute_window bareWorld (configOf "soon" "later")).
  - discriminate.
  - discriminate.
  - intros ts [->| ->]; (split; [discriminate|]);
      (split; [intros part [<-|[]]; reflexivity
              | simpl; lia]).
Defined.

(** ** The binary resolver, continued *)

Section Shadowing.

Variable filepath_Join : list string -> string.
Variable filepath_Dir : string -> string.

Lemma resolveBinary_find (w : World) (name : string) :
  resolveBinary filepath_Join filepath_Dir w name
  = match find (statOk w) (searchOrder filepath_Join filepath_Dir w name) with
    | Some found => found
    | None => fst (LookPath w name)
    end.
Proof.
  unfold resolveBinary, searchOrder. rewrite find_app.
  destruct (Executable w) as [exePath|];
    destruct (Getwd w) as [cwd|];
    rewrite ?tryBin_find; cbn [find];
    repeat match goal with
           | |- context [find ?f (binCandidates ?j ?d ?n)] =>
               destruct (find f (binCandidates j d n))
           end; reflexivity.
Qed.

Lemma find_exists {A} (f : A -> bool) (l : list A) (x : A) :
  In x l -> f x = true -> exists y, find f l = Some y.
Proof.
  induction l as [|a l IH]; simpl; [tauto|].
  intros [->|Hin] Hfx.
  - rewrite Hfx. now exists x.
  - destruct (f a); [now exists a | now apply IH].
Qed.

End Shadowing.

(** X12. A tool in a [bin] folder shadows the system search path: as soon
    as one of the four candidates exists, [resolveBinary] returns an
    existing candidate, and returns the same one whatever
    [exec.LookPath] would answer. *)
Theorem resolveBinary_bin_shadows_path
    (filepath_Join : list string -> string) (filepath_Dir : string -> string)
    (w : World) (name candidate : string) :
  In candidate (searchOrder filepath_Join filepath_Dir w name) ->
  statOk w candidate = true ->
  exists found,
    In found (searchOrder filepath_Join filepath_Dir w name)
    /\ statOk w found = true
    /\ forall lookPath,
         resolveBinary filepath_Join filepath_Dir (withLookPath w lookPath) name
         = found.
Proof.
  intros Hin Hok.
  destruct (find_exists (statOk w) _ _ Hin Hok) as [found Hfind].
  exists found. destruct (find_some _ _ Hfind) as [Hfin Hfok].
  repeat split; try assumption.
  intros lookPath. rewrite resolveBinary_find.
  change (searchOrder filepath_Join filepath_Dir (withLookPath w lookPath) name)
    with (searchOrder filepath_Join filepath_Dir w name).
  change (statOk (withLookPath w lookPath)) with (statOk w).
  now rewrite Hfind.
Qed.

Lemma resolveBinary_bin_shadows_path_witness :
  exists found,
    In found (searchOrder unixJoin unixDir failingWorld "ffprobe")
    /\ statOk failingWorld found = true
    /\ forall lookPath,
         resolveBinary unixJoin unixDir
                       (withLookPath failingWorld lookPath) "ffprobe"
         = found.
Proof.
  apply (resolveBinary_bin_shadows_path unixJoin unixDir failingWorld
           "ffprobe" "/home/user/bin/ffprobe.exe").
  - vm_compute. tauto.
  - reflexivity.
Defined.

(** ** The generated output path *)

Section OutputPath.

Variable goos : OS.

Lemma append_empty (s : string) : (s ++ EmptyString)%string = s.
Proof. induction s as [|c s IH]; simpl; [reflexivity | now rewrite IH]. Qed.

Lemma substring_end (s : string) :
  substring (String.length s) 0 s = EmptyString.
Proof. induction s as [|c s IH]; simpl; [reflexivity | exact IH]. Qed.

Lemma TrimSuffix_empty (s : string) : TrimSuffix s EmptyString = s.
Proof.
  unfold TrimSuffix, HasSuffix. simpl String.length.
  rewrite Nat.sub_0_r, substring_end. simpl. apply substring_whole.
Qed.

Lemma substring_get (s : string) :
  forall (i : nat) (c : ascii),
    String.get i s = Some c ->
    substring i (String.length s - i) s
    = String c (substring (S i) (String.length s - S i) s).
Proof.
  induction s as [|a s IH]; intros i c Hget; [discriminate|].
  destruct i as [|i]; simpl in *.
  - inversion Hget; subst. now rewrite Nat.sub_0_r.
  - exact (IH i c Hget).
Qed.

Lemma get_in_range (s : string) :
  forall i, i < String.length s -> exists c, String.get i s = Some c.
Proof.
  induction s as [|a s IH]; intros i Hi; simpl in *; [lia|].
  destruct i as [|i]; [now exists a | apply IH; lia].
Qed.

Lemma plain_get (s : string) :
  plain goos s = true ->
  forall j, j < String.length s ->
    exists c, String.get j s = Some c /\ plainByte goos c = true.
Proof.
  induction s as [|a s IH]; intros Hplain j Hj; simpl in *; [lia|].
  apply andb_true_iff in Hplain. destruct Hplain as [Ha Hs].
  destruct j as [|j]; [now exists a | apply IH; [exact Hs | lia]].
Qed.

Lemma extLoop_skip_plain (path : string) (n : nat) :
  forall k,
    (forall j, j < k ->
       exists c, String.get (n + j) path = Some c
                 /\ plainByte goos c = true) ->
    extLoop goos path (n + k) = extLoop goos path n.
Proof.
  induction k as [|k IH]; intros Hplain.
  - now rewrite Nat.add_0_r.
  - destruct (Hplain k (Nat.lt_succ_diag_r k)) as (c & Hget & Hc).
    apply andb_true_iff in Hc. destruct Hc as [Hsep Hdot].
    apply negb_true_iff in Hsep. apply negb_true_iff in Hdot.
    rewrite Nat.add_succ_r, (extLoop_skip goos path (n + k) c Hget Hsep Hdot).
    apply IH. intros j Hj. apply Hplain. lia.
Qed.

(** What [Ext] returns is empty, or a dot followed by plain bytes. *)
Lemma extLoop_shape (path : string) :
  forall n,
    n <= String.length path ->
    plain goos (substring n (String.length path - n) path) = true ->
    extLoop goos path n = EmptyString
    \/ exists e, extLoop goos path n = String "." e /\ plain goos e = true.
Proof.
  induction n as [|i IH]; intros Hn Hplain; [now left|].
  destruct (get_in_range path i Hn) as [c Hget].
  simpl. rewrite Hget.
  destruct (IsPathSeparator goos c) eqn:Hsep; [now left|].
  destruct (Ascii.eqb c ".") eqn:Hdot.
  - right. apply Ascii.eqb_eq in Hdot. subst c.
    rewrite (substring_get path i _ Hget). eexists. split; [reflexivity|].
    exact Hplain.
  - apply IH; [lia|].
    rewrite (substring_get path i c Hget). simpl.
    unfold plainByte. now rewrite Hsep, Hdot, Hplain.
Qed.

Lemma Ext_shape (path : string) :
  Ext goos path = EmptyString
  \/ exists e, Ext goos path = String "." e /\ plain goos e = true.
Proof.
  apply extLoop_shape; [lia|].
  now rewrite Nat.sub_diag, substring_end.
Qed.

Lemma get_app_left (a b : string) :
  forall i, i < String.length a -> String.get i (a ++ b) = String.get i a.
Proof.
  induction a as [|c a IH]; intros i Hi; simpl in *; [lia|].
  destruct i as [|i]; [reflexivity | apply IH; lia].
Qed.

Lemma extLoop_app_none (x s : string) :
  forall n,
    n <= String.length x ->
    extLoop goos x n = EmptyString ->
    extLoop goos (x ++ s) n = EmptyString.
Proof.
  induction n as [|i IH]; intros Hn Hnone; [reflexivity|].
  simpl in *. rewrite get_app_left by lia.
  destruct (String.get i x) as [c|] eqn:Hget; [|reflexivity].
  destruct (IsPathSeparator goos c); [reflexivity|].
  destruct (Ascii.eqb c ".") eqn:Hdot.
  - rewrite (substring_get x i c Hget) in Hnone. discriminate.
  - apply IH; [lia | exact Hnone].
Qed.

(** Plain bytes appended to a path without extension leave it without. *)
Lemma Ext_app_plain (x s : string) :
  plain goos s = true ->
  Ext goos x = EmptyString ->
  Ext goos (x ++ s) = EmptyString.
Proof.
  intros Hplain Hnone. unfold Ext. rewrite length_app.
  rewrite extLoop_skip_plain.
  - apply extLoop_app_none; [lia | exact Hnone].
  - intros j Hj. rewrite get_app_right. now apply plain_get.
Qed.

(** A dot and plain bytes appended to anything are the extension. *)
Lemma Ext_app_dot (y e : string) :
  plain goos e = true ->
  Ext goos (y ++ String "." e) = String "." e.
Proof.
  intros Hplain. unfold Ext. rewrite length_app. simpl String.length.
  replace (String.length y + S (String.length e))
    with (S (String.length y) + String.length e) by lia.
  rewrite extLoop_skip_plain.
  - replace (String.length y) with (String.length y + 0) at 1 by lia.
    rewrite extLoop_dot by now rewrite get_app_right.
    rewrite substring_app_right, length_app. simpl String.length.
    replace (String.length y + S (String.length e) - (String.length y + 0))
      with (S (String.length e)) by lia.
    simpl. now rewrite substring_whole.
  - intros j Hj.
    replace (S (String.length y) + j) with (String.length y + S j) by lia.
    rewrite get_app_right. simpl. now apply plain_get.
Qed.

Lemma suffix_plain (muteStart : string) :
  plain goos (if nonEmpty muteStart then "_cleaned_muted" else "_cleaned")
  = true.
Proof. destruct (nonEmpty muteStart); destruct goos; reflexivity. Qed.

End OutputPath.

(** X13. The output path [main] generates is a new file of the same kind:
    it is the input path made longer by 8 bytes ("_cleaned") or 14
    ("_cleaned_muted"), so it is never empty and never the input path
    itself, and its extension, as [filepath.Ext] finds it, is the input's
    extension. *)
Theorem outputFileOf_new_file_same_extension
    (goos : OS) (input muteStart : string) :
  let out := outputFileOf goos EmptyString input muteStart in
  String.length out
  = String.length input + (if nonEmpty muteStart then 14 else 8)
  /\ out <> input
  /\ out <> EmptyString
  /\ Ext goos out = Ext goos input.
Proof.
  intros out.
  assert (Hout : out = (TrimSuffix input (Ext goos input)
                        ++ (if nonEmpty muteStart
                            then "_cleaned_muted" else "_cleaned")
                        ++ Ext goos input)%string).
  { subst out. unfold outputFileOf. simpl String.eqb. cbv iota.
    destruct (nonEmpty muteStart); reflexivity. }
  assert (Hlen : String.length out
                 = String.length input
                   + (if nonEmpty muteStart then 14 else 8)).
  { assert (Hl : String.length input
                 = String.length (TrimSuffix input (Ext goos input))
                   + String.length (Ext goos input)).
    { rewrite <- (TrimSuffix_Ext goos input) at 1. apply length_app. }
    rewrite Hout, !length_app, Hl.
    destruct (nonEmpty muteStart); simpl String.length; lia. }
  split; [exact Hlen|]. split; [|split].
  - intros Heq. rewrite Heq in Hlen. destruct (nonEmpty muteStart); lia.
  - intros Heq. rewrite Heq in Hlen. simpl in Hlen.
    destruct (nonEmpty muteStart); lia.
  - rewrite Hout.
    destruct (Ext_shape goos input) as [Hnone | (e & Hext & Hplain)].
    + rewrite Hnone, TrimSuffix_empty, append_empty.
      apply Ext_app_plain; [apply suffix_plain | exact Hnone].
    + rewrite Hext, append_assoc_string.
      now apply Ext_app_dot.
Qed.

(** ** Audio extraction: the output path *)

Section Mp3Case.

Variable goos : OS.

Lemma length_mapBytes (f : ascii -> ascii) (s : string) :
  String.length (mapBytes f s) = String.length s.
Proof. induction s as [|c s IH]; simpl; [reflexivity | now rewrite IH]. Qed.

Lemma substring_mapBytes (f : ascii -> ascii) (s : string) :
  forall i k,
    substring i k (mapBytes f s) = mapBytes f (substring i k s).
Proof.
  induction s as [|c s IH]; intros [|i] [|k]; simpl; try reflexivity;
    now rewrite IH.
Qed.

Lemma lowerASCII_dot (c : ascii) : lowerASCII c = "."%char -> c = "."%char.
Proof.
  destruct c as [[] [] [] [] [] [] [] []]; vm_compute; intros H;
    try discriminate H; reflexivity.
Qed.

Lemma lowerASCII_3 (c : ascii) : lowerASCII c = "3"%char -> c = "3"%char.
Proof.
  destruct c as [[] [] [] [] [] [] [] []]; vm_compute; intros H;
    try discriminate H; reflexivity.
Qed.

Lemma lowerASCII_m (c : ascii) :
  lowerASCII c = "m"%char -> c = "m"%char \/ c = "M"%char.
Proof.
  destruct c as [[] [] [] [] [] [] [] []]; vm_compute; intros H;
    try discriminate H; auto.
Qed.

Lemma lowerASCII_p (c : ascii) :
  lowerASCII c = "p"%char -> c = "p"%char \/ c = "P"%char.
Proof.
  destruct c as [[] [] [] [] [] [] [] []]; vm_compute; intros H;
    try discriminate H; auto.
Qed.

(** A path that ends in ".mp3" once its ASCII letters are lowered has one
    of the four spellings of that extension. *)
Lemma Ext_lowered_mp3 (s : string) :
  HasSuffix (mapBytes lowerASCII s) ".mp3" = true ->
  In (Ext goos s) mp3Spellings.
Proof.
  unfold HasSuffix. rewrite length_mapBytes.
  change (String.length ".mp3") with 4.
  intros H. apply andb_true_iff in H. destruct H as [Hlen Heq].
  apply Nat.leb_le in Hlen. apply String.eqb_eq in Heq.
  rewrite substring_mapBytes in Heq.
  pose proof (substring_split s (String.length s - 4)) as Hs.
  replace (String.length s - (String.length s - 4)) with 4 in Hs by lia.
  specialize (Hs ltac:(lia)).
  remember (substring (String.length s - 4) 4 s) as e eqn:He. clear He.
  remember (substring 0 (String.length s - 4) s) as x eqn:Hx. clear Hx.
  subst s.
  destruct e as [|c0 [|c1 [|c2 [|c3 [|c4 e]]]]]; try discriminate Heq.
  simpl in Heq. injection Heq as H0 H1 H2 H3.
  apply lowerASCII_dot in H0. apply lowerASCII_3 in H3.
  apply lowerASCII_m in H1. apply lowerASCII_p in H2. subst c0 c3.
  unfold mp3Spellings.
  destruct H1 as [H1|H1], H2 as [H2|H2]; subst c1 c2;
    rewrite Ext_app_dot by (destruct goos; reflexivity);
    simpl; auto.
Qed.

End Mp3Case.

(** C4, as the code has it. [extractAudio] runs the encoder once with the
    input, [-vn] (no video), the audio codec [-acodec libmp3lame], the
    fixed quality [-q:a 2], [-y] and an output path that the Configuration
    determines: the input path with its extension replaced by ".mp3" when
    no output path is given; the given output path with ".mp3" appended;
    or the given output path as it is, when lower-cased it already ends in
    ".mp3". In the first two cases the extension of the path used is
    ".mp3". In the last it is ".mp3" up to the case of its letters when the
    path is ASCII: a path such as "song.MP3" is kept. *)
Theorem extractAudio_arguments
    (goos : OS) (unicodeLower : string -> string) (w : World) (cfg : Config) :
  let given := OutputFile cfg in
  let out :=
    if String.eqb given EmptyString
    then (TrimSuffix (InputFile cfg) (Ext goos (InputFile cfg))
          ++ ".mp3")%string
    else if HasSuffix (ToLower unicodeLower given) ".mp3" then given
    else (given ++ ".mp3")%string in
  runArgs (trace (extractAudio goos unicodeLower w cfg))
  = [["-i"; InputFile cfg; "-vn"; "-acodec"; "libmp3lame"; "-q:a"; "2";
      "-y"; out]]
  /\ (given = EmptyString
      \/ HasSuffix (ToLower unicodeLower given) ".mp3" = false ->
      HasSuffix out ".mp3" = true /\ Ext goos out = ".mp3")
  /\ (given <> EmptyString ->
      HasSuffix (ToLower unicodeLower given) ".mp3" = true ->
      out = given
      /\ (isASCII given = true ->
          In (Ext goos out) [".mp3"; ".mP3"; ".Mp3"; ".MP3"])).
Proof.
  intros given out. split; [|split].
  - rewrite extractAudio_runArgs. subst out given.
    destruct (String.eqb (OutputFile cfg) EmptyString); [reflexivity|].
    destruct (HasSuffix (ToLower unicodeLower (OutputFile cfg)) ".mp3");
      reflexivity.
  - intros Hcase. subst out.
    destruct (String.eqb given EmptyString) eqn:Hgiven.
    + split; [apply HasSuffix_app | apply Ext_app_mp3].
    + destruct Hcase as [Hempty | Hlow].
      * apply String.eqb_neq in Hgiven. contradiction.
      * rewrite Hlow. split; [apply HasSuffix_app | apply Ext_app_mp3].
  - intros Hgiven Hlow. subst out.
    apply String.eqb_neq in Hgiven. rewrite Hgiven, Hlow.
    split; [reflexivity|].
    intros Hascii. unfold ToLower in Hlow. rewrite Hascii in Hlow.
    exact (Ext_lowered_mp3 goos given Hlow).
Qed.

(** C4 as the spec states it fails: given the output path "song.MP3",
    [extractAudio] writes to "song.MP3", whose extension is ".MP3", not
    ".mp3". *)
Lemma extractAudio_keeps_upper_case_extension :
  runArgs (trace (extractAudio Unix sameString bareWorld
                    (withOutputFile (configOf EmptyString EmptyString)
                                    "song.MP3")))
  = [["-i"; "a.mp4"; "-vn"; "-acodec"; "libmp3lame"; "-q:a"; "2"; "-y";
      "song.MP3"]]
  /\ Ext Unix "song.MP3" = ".MP3"
  /\ Ext Unix "song.MP3" <> ".mp3"
  /\ HasSuffix "song.MP3" ".mp3" = false.
Proof.
  repeat split; try (vm_compute; reflexivity).
  vm_compute. discriminate.
Qed.

(** ** A run from the flags to the encoder *)

(** X14. A trim or mute run end to end. With a local input that is a
    regular file, both tools resolved and no [-mp3], [main] creates the
    output path's directory, announces the mode, and starts the resolved
    [ffmpeg] once on the arguments built from the flags; then it either
    reports the failure and ends with status 1, or prints the "Done!" and
    "Output:" lines and returns. *)
Theorem main_cut_run
    (goos : OS) (unicodeLower TrimSpace : string -> string)
    (filepath_Join : list string -> string) (filepath_Dir : string -> string)
    (w : World) (fuel : nat) (fl : Flags) :
  inputPtr fl <> EmptyString ->
  urlPtr fl = EmptyString ->
  urlLike (inputPtr fl) = false ->
  Stat w (inputPtr fl) = StatOk false ->
  resolveBinary filepath_Join filepath_Dir w "ffmpeg" <> EmptyString ->
  resolveBinary filepath_Join filepath_Dir w "ffprobe" <> EmptyString ->
  mp3Ptr fl = false ->
  let cfg :=
    configOfFlags goos filepath_Join filepath_Dir w fl (inputPtr fl) in
  main goos unicodeLower TrimSpace filepath_Join filepath_Dir w fuel fl
  = ([EvMkdirAll (filepath_Dir (OutputFile cfg));
      EvPrint ("Mode: Processing (Cut/Mute)..." ++ nl);
      EvRun (FfmpegBin cfg) (cutArgs cfg) (verbosePtr fl) true]
     ++ match Run w (FfmpegBin cfg) (cutArgs cfg) with
        | Some err => [failureReport err]
        | None => doneReport (OutputFile cfg)
        end,
     match Run w (FfmpegBin cfg) (cutArgs cfg) with
     | Some _ => Exited 1
     | None => Returned tt
     end).
Proof.
  intros Hin Hurl Hlike Hstat Hffmpeg Hffprobe Hmp3 cfg.
  apply String.eqb_neq in Hin.
  apply String.eqb_neq in Hffmpeg. apply String.eqb_neq in Hffprobe.
  unfold main. rewrite Hin, Hurl. cbn [andb]. rewrite !bind_ret.
  rewrite Hin, ?Hurl. cbn [andb]. rewrite bind_ret, ?Hurl.
  change (nonEmpty EmptyString) with false. cbv iota.
  unfold urlLike in Hlike. rewrite Hlike, bind_ret. cbv beta iota.
  unfold process. rewrite Hstat.
  cbv zeta.
  change (withFfprobeBin
            (withFfmpegBin
               (mkConfig (inputPtr fl)
                  (outputFileOf goos (outputPtr fl) (inputPtr fl)
                                (muteStartPtr fl))
                  zero 0 (presetPtr fl) (crfPtr fl) (muteStartPtr fl)
                  (muteEndPtr fl) (startPtr fl) (endPtr fl) EmptyString
                  EmptyString (verbosePtr fl) (mp3Ptr fl))
               (resolveBinary filepath_Join filepath_Dir w "ffmpeg"))
            (resolveBinary filepath_Join filepath_Dir w "ffprobe"))
    with cfg.
  change (FfprobeBin cfg)
    with (resolveBinary filepath_Join filepath_Dir w "ffprobe").
  change (FfmpegBin cfg)
    with (resolveBinary filepath_Join filepath_Dir w "ffmpeg") at 1.
  rewrite Hffmpeg, Hffprobe. cbn [orb].
  change (ExtractMP3 cfg) with (mp3Ptr fl). rewrite Hmp3.
  rewrite simpleCut_runFFmpeg. fold (cutArgs cfg).
  unfold Println, runFFmpeg. rewrite !bind_emit.
  change (Verbose cfg) with (verbosePtr fl).
  destruct (Run w (FfmpegBin cfg) (cutArgs cfg)); reflexivity.
Qed.

Lemma main_cut_run_witness :
  main Unix sameString sameString unixJoin unixDir workingWorld 5
       trimFlags
  = ([EvMkdirAll "out";
      EvPrint ("Mode: Processing (Cut/Mute)..." ++ nl);
      EvRun "/opt/mutecut/bin/ffmpeg"
        ["-ss"; "10"; "-i"; "a.mp4"; "-c:v"; "libx264"; "-preset"; "medium";
         "-crf"; "23"; "-c:a"; "aac"; "-b:a"; "192k"; "-y"; "out/clip.mp4"]
        false true;
      EvPrint (nl ++ " Done!" ++ nl);
      EvPrint ("Output: out/clip.mp4" ++ nl)],
     Returned tt).
Proof.
  apply (main_cut_run Unix sameString sameString unixJoin unixDir
           workingWorld 5 trimFlags);
    try discriminate; reflexivity.
Defined.

Lemma extractAudio_ignores_cut_and_mute_witness :
  runArgs (trace (extractAudio Unix sameString bareWorld
                               (configOf "10" "20")))
  = runArgs (trace (extractAudio Unix sameString failingWorld
                                 (configOf EmptyString EmptyString))).
Proof.
  apply (extractAudio_ignores_cut_and_mute Unix sameString bareWorld
           failingWorld (configOf "10" "20")
           (configOf EmptyString EmptyString)); reflexivity.
Defined.

Lemma outputFileOf_nonEmpty (goos : OS) (output input muteStart : string) :
  String.eqb (outputFileOf goos output input muteStart) EmptyString = false.
Proof.
  unfold outputFileOf.
  destruct (String.eqb output EmptyString) eqn:Hout; [|exact Hout].
  destruct (TrimSuffix input (Ext goos input));
    destruct (nonEmpty muteStart); reflexivity.
Qed.

(** X9. An audio-extraction run end to end. With a local input that is a
    regular file, both tools resolved and [-mp3], [main] starts the resolved
    [ffmpeg] once to write the output path with ".mp3" appended (as it is
    when it already ends in ".mp3", ignoring case); the output path is never
    derived from the input inside [extractAudio], because [main] never
    passes an empty one; and the directory created and the "Output:" line
    use the path as it was before ".mp3" was appended. *)
Theorem main_extract_run
    (goos : OS) (unicodeLower TrimSpace : string -> string)
    (filepath_Join : list string -> string) (filepath_Dir : string -> string)
    (w : World) (fuel : nat) (fl : Flags) :
  inputPtr fl <> EmptyString ->
  urlPtr fl = EmptyString ->
  urlLike (inputPtr fl) = false ->
  Stat w (inputPtr fl) = StatOk false ->
  resolveBinary filepath_Join filepath_Dir w "ffmpeg" <> EmptyString ->
  resolveBinary filepath_Join filepath_Dir w "ffprobe" <> EmptyString ->
  mp3Ptr fl = true ->
  let cfg :=
    configOfFlags goos filepath_Join filepath_Dir w fl (inputPtr fl) in
  let args :=
    ["-i"; inputPtr fl; "-vn"; "-acodec"; "libmp3lame"; "-q:a"; "2"; "-y";
     mp3Path unicodeLower (OutputFile cfg)] in
  main goos unicodeLower TrimSpace filepath_Join filepath_Dir w fuel fl
  = ([EvMkdirAll (filepath_Dir (OutputFile cfg));
      EvPrint ("Mode: Processing (Cut/Mute)..." ++ nl);
      EvPrint ("Extracting MP3 to: "
                 ++ mp3Path unicodeLower (OutputFile cfg) ++ nl);
      EvRun (FfmpegBin cfg) args (verbosePtr fl) true]
     ++ match Run w (FfmpegBin cfg) args with
        | Some err => [failureReport err]
        | None => doneReport (OutputFile cfg)
        end,
     match Run w (FfmpegBin cfg) args with
     | Some _ => Exited 1
     | None => Returned tt
     end).
Proof.
  intros Hin Hurl Hlike Hstat Hffmpeg Hffprobe Hmp3 cfg args.
  apply String.eqb_neq in Hin.
  apply String.eqb_neq in Hffmpeg. apply String.eqb_neq in Hffprobe.
  unfold main. rewrite Hin, Hurl. cbn [andb]. rewrite !bind_ret.
  rewrite Hin, ?Hurl. cbn [andb]. rewrite bind_ret, ?Hurl.
  change (nonEmpty EmptyString) with false. cbv iota.
  unfold urlLike in Hlike. rewrite Hlike, bind_ret. cbv beta iota.
  unfold process. rewrite Hstat.
  cbv zeta.
  change (withFfprobeBin
            (withFfmpegBin
               (mkConfig (inputPtr fl)
                  (outputFileOf goos (outputPtr fl) (inputPtr fl)
                                (muteStartPtr fl))
                  zero 0 (presetPtr fl) (crfPtr fl) (muteStartPtr fl)
                  (muteEndPtr fl) (startPtr fl) (endPtr fl) EmptyString
                  EmptyString (verbosePtr fl) (mp3Ptr fl))
               (resolveBinary filepath_Join filepath_Dir w "ffmpeg"))
            (resolveBinary filepath_Join filepath_Dir w "ffprobe"))
    with cfg.
  change (FfprobeBin cfg)
    with (resolveBinary filepath_Join filepath_Dir w "ffprobe").
  change (FfmpegBin cfg)
    with (resolveBinary filepath_Join filepath_Dir w "ffmpeg") at 1.
  rewrite Hffmpeg, Hffprobe. cbn [orb].
  change (ExtractMP3 cfg) with (mp3Ptr fl). rewrite Hmp3.
  unfold extractAudio.
  change (OutputFile cfg)
    with (outputFileOf goos (outputPtr fl) (inputPtr fl) (muteStartPtr fl)).
  rewrite outputFileOf_nonEmpty.
  subst args. unfold mp3Path.
  change (OutputFile cfg)
    with (outputFileOf goos (outputPtr fl) (inputPtr fl) (muteStartPtr fl)).
  destruct (HasSuffix
              (ToLower unicodeLower
                 (outputFileOf goos (outputPtr fl) (inputPtr fl)
                               (muteStartPtr fl))) ".mp3");
    cbn [negb];
    unfold Println, Print, runFFmpeg; rewrite !bind_emit;
    cbn [InputFile OutputFile FfmpegBin Verbose withOutputFile cfg
         configOfFlags];
    match goal with
    | |- context [Run w ?b ?a] => destruct (Run w b a)
    end; reflexivity.
Qed.

Lemma main_extract_run_witness :
  main Unix sameString sameString unixJoin unixDir workingWorld 5
       mp3Flags
  = ([EvMkdirAll ".";
      EvPrint ("Mode: Processing (Cut/Mute)..." ++ nl);
      EvPrint ("Extracting MP3 to: a_cleaned.mp4.mp3" ++ nl);
      EvRun "/opt/mutecut/bin/ffmpeg"
        ["-i"; "a.mp4"; "-vn"; "-acodec"; "libmp3lame"; "-q:a"; "2"; "-y";
         "a_cleaned.mp4.mp3"]
        false true;
      EvPrint (nl ++ " Done!" ++ nl);
      EvPrint ("Output: a_cleaned.mp4" ++ nl)],
     Returned tt).
Proof.
  apply (main_extract_run Unix sameString sameString unixJoin
           unixDir workingWorld 5 mp3Flags);
    try discriminate; reflexivity.
Defined.

(** ** The fetch *)

Section UniqueName.

Variable goos : OS.
Variable w : World.

Lemma uniqueLoop_free (base ext : string) :
  forall fuel i p,
    uniqueLoop w fuel base ext i = Some p ->
    Stat w p = StatNotExist
    /\ exists j, p = (base ++ "_" ++ Itoa j ++ ext)%string.
Proof.
  induction fuel as [|fuel IH]; intros i p H; cbn [uniqueLoop] in H; [discriminate|].
  destruct (Stat w (base ++ "_" ++ Itoa i ++ ext)) as [d| |msg] eqn:Hstat;
    try (apply IH in H; exact H).
  injection H as Hp. subst p. split; [exact Hstat | now exists i].
Qed.

Lemma uniqueLoop_more_fuel (base ext : string) :
  forall fuel fuel' i p,
    fuel <= fuel' ->
    uniqueLoop w fuel base ext i = Some p ->
    uniqueLoop w fuel' base ext i = Some p.
Proof.
  induction fuel as [|fuel IH]; intros fuel' i p Hle H;
    cbn [uniqueLoop] in H; [discriminate|].
  destruct fuel' as [|fuel']; [lia|]. cbn [uniqueLoop].
  destruct (Stat w (base ++ "_" ++ Itoa i ++ ext)) as [d| |msg];
    try (apply IH; [lia | exact H]).
  exact H.
Qed.

Lemma uniqueLoop_first (base ext : string) :
  forall k i fuel,
    (1 <= i)%Z -> (i + Z.of_nat k <= 9223372036854775807)%Z ->
    (forall j, (i <= j < i + Z.of_nat k)%Z ->
               Stat w (base ++ "_" ++ Itoa j ++ ext) <> StatNotExist) ->
    Stat w (base ++ "_" ++ Itoa (i + Z.of_nat k) ++ ext) = StatNotExist ->
    k < fuel ->
    uniqueLoop w fuel base ext i
    = Some (base ++ "_" ++ Itoa (i + Z.of_nat k) ++ ext)%string.
Proof.
  induction k as [|k IH]; intros i fuel Hi Hmax Htaken Hfree Hfuel;
    (destruct fuel as [|fuel]; [lia|]); cbn [uniqueLoop].
  - replace (i + Z.of_nat 0)%Z with i in * by lia.
    rewrite Hfree. reflexivity.
  - assert (Hhere : Stat w (base ++ "_" ++ Itoa i ++ ext) <> StatNotExist)
      by (apply Htaken; lia).
    assert (Hincr : incr i = (i + 1)%Z).
    { unfold incr.
      destruct (Z.eqb_spec i 9223372036854775807); [lia | reflexivity]. }
    assert (Hnext :
      uniqueLoop w fuel base ext (incr i)
      = Some (base ++ "_" ++ Itoa (i + Z.of_nat (S k)) ++ ext)%string).
    { rewrite Hincr.
      replace (i + Z.of_nat (S k))%Z with (i + 1 + Z.of_nat k)%Z by lia.
      apply IH; try lia.
      - intros j Hj. apply Htaken. lia.
      - replace (i + 1 + Z.of_nat k)%Z with (i + Z.of_nat (S k))%Z by lia.
        exact Hfree. }
    destruct (Stat w (base ++ "_" ++ Itoa i ++ ext)) as [d| |msg];
      [exact Hnext | contradiction | exact Hnext].
Qed.

Lemma uniqueLoop_never (base ext : string) :
  (forall j, Stat w (base ++ "_" ++ Itoa j ++ ext) <> StatNotExist) ->
  forall fuel i, uniqueLoop w fuel base ext i = None.
Proof.
  intros Htaken. induction fuel as [|fuel IH]; intros i;
    cbn [uniqueLoop]; [reflexivity|].
  specialize (Htaken i).
  destruct (Stat w (base ++ "_" ++ Itoa i ++ ext)) as [d| |msg];
    try apply IH.
  contradiction.
Qed.

(** The names tried for a title: the extension is ".mp4" and what comes
    before it is the sanitised title. *)
Lemma numbered_mp4 (x : string) (i : Z) :
  numbered goos (x ++ ".mp4") i = (x ++ "_" ++ Itoa i ++ ".mp4")%string.
Proof.
  unfold numbered.
  assert (Hext : Ext goos (x ++ ".mp4") = ".mp4").
  { apply (Ext_app_dot goos x "mp4"). destruct goos; reflexivity. }
  now rewrite Hext, TrimSuffix_app.
Qed.

Lemma ensureUniqueFilename_free (fuel : nat) (path p : string) :
  ensureUniqueFilename goos w fuel path = Some p ->
  Stat w p = StatNotExist
  /\ (p = path \/ exists i, p = numbered goos path i).
Proof.
  unfold ensureUniqueFilename, numbered. intros H.
  destruct (Stat w path) as [d| |msg] eqn:Hstat;
    try (apply uniqueLoop_free in H; destruct H as [Hfree [j Hj]];
         split; [exact Hfree | right; now exists j]).
  injection H as Hp. subst p. split; [exact Hstat | now left].
Qed.

Lemma ensureUniqueFilename_never (path : string) :
  Stat w path <> StatNotExist ->
  (forall i, Stat w (numbered goos path i) <> StatNotExist) ->
  forall fuel, ensureUniqueFilename goos w fuel path = None.
Proof.
  unfold ensureUniqueFilename, numbered. intros Hpath Htaken fuel.
  destruct (Stat w path) as [d| |msg];
    try (apply uniqueLoop_never; exact Htaken).
  contradiction.
Qed.

End UniqueName.

(** X15. [ensureUniqueFilename] by its results. A path that is free is
    returned as it is. A name it returns is free, and is the path itself or
    one of its numbered names; a result found
    with some fuel is found with any more; if the path is taken, its
    numbered names before the [n]-th are taken and the [n]-th is free, the
    result is the [n]-th numbered name, and [n] iterations are enough to
    reach it; and if the path is taken and none of its numbered names is
    free, because they exist or because [os.Stat] fails on them for another
    reason, the loop never returns. *)
Theorem ensureUniqueFilename_contract
    (goos : OS) (w : World) (path : string) :
  (Stat w path = StatNotExist ->
   forall fuel, ensureUniqueFilename goos w fuel path = Some path)
  /\ (forall fuel p,
     ensureUniqueFilename goos w fuel path = Some p ->
     Stat w p = StatNotExist
     /\ (p = path \/ exists i, p = numbered goos path i))
  /\ (forall fuel fuel' p,
        fuel <= fuel' ->
        ensureUniqueFilename goos w fuel path = Some p ->
        ensureUniqueFilename goos w fuel' path = Some p)
  /\ (forall n fuel,
        1 <= n -> (Z.of_nat n <= 9223372036854775807)%Z ->
        Stat w path <> StatNotExist ->
        (forall j, (1 <= j < Z.of_nat n)%Z ->
                   Stat w (numbered goos path j) <> StatNotExist) ->
        Stat w (numbered goos path (Z.of_nat n)) = StatNotExist ->
        n <= fuel ->
        ensureUniqueFilename goos w fuel path
        = Some (numbered goos path (Z.of_nat n)))
  /\ (Stat w path <> StatNotExist ->
      (forall i, Stat w (numbered goos path i) <> StatNotExist) ->
      forall fuel, ensureUniqueFilename goos w fuel path = None).
Proof.
  split; [|split; [|split; [|split]]].
  - intros Hfree fuel. unfold ensureUniqueFilename. now rewrite Hfree.
  - intros fuel p H. exact (ensureUniqueFilename_free goos w fuel path p H).
  - unfold ensureUniqueFilename. intros fuel fuel' p Hle H.
    destruct (Stat w path) as [d| |msg];
      try (exact (uniqueLoop_more_fuel w _ _ _ _ _ _ Hle H)).
    exact H.
  - unfold ensureUniqueFilename, numbered.
    intros n fuel Hn Hmax Hpath Htaken Hfree Hfuel.
    replace (Z.of_nat n) with (1 + Z.of_nat (n - 1))%Z in Hfree |- * by lia.
    assert (Hloop :
      uniqueLoop w fuel (TrimSuffix path (Ext goos path)) (Ext goos path) 1
      = Some (TrimSuffix path (Ext goos path) ++ "_"
              ++ Itoa (1 + Z.of_nat (n - 1)) ++ Ext goos path)%string).
    { apply uniqueLoop_first; try lia; [|exact Hfree].
      intros j Hj. apply Htaken. lia. }
    destruct (Stat w path) as [d| |msg];
      [exact Hloop | contradiction | exact Hloop].
  - exact (ensureUniqueFilename_never goos w path).
Qed.

Section FetchedFile.

Variable goos : OS.
Variable w : World.

Lemma noSeparator_app (a b : string) :
  noSeparator (a ++ b) = noSeparator a && noSeparator b.
Proof.
  induction a as [|c a IH]; simpl; [reflexivity|].
  now rewrite IH, andb_assoc.
Qed.

Lemma noSeparator_sanitizeFilename (name : string) :
  noSeparator (sanitizeFilename name) = true.
Proof.
  induction name as [|c name IH]; [reflexivity|].
  change (sanitizeFilename (String c name))
    with (String (if invalidByte c then "_"%char else c)
                 (sanitizeFilename name)).
  cbn [noSeparator]. rewrite IH, andb_true_r.
  destruct c as [[] [] [] [] [] [] [] []]; reflexivity.
Qed.

Lemma noSeparator_uint (d : Decimal.uint) :
  noSeparator (NilEmpty.string_of_uint d) = true.
Proof. induction d; simpl; try reflexivity; exact IHd. Qed.

Lemma noSeparator_Itoa (i : Z) : noSeparator (Itoa i) = true.
Proof.
  assert (Hdigits : forall n, noSeparator (digits n) = true).
  { intros n. unfold digits, NilZero.string_of_uint.
    destruct (N.to_uint (Z.to_N n)); try reflexivity;
      apply (noSeparator_uint (_ _)). }
  unfold Itoa. destruct (i <? 0)%Z; [|apply Hdigits].
  rewrite noSeparator_app, Hdigits. reflexivity.
Qed.

(** A fetch that succeeds, step by step. *)
Lemma downloadYoutubeVideo_success (fuel : nat) (url : string)
    (t : list Event) (file : string) (w' : World) :
  downloadYoutubeVideo goos w fuel url = (t, Returned (file, None, w')) ->
  exists video format more,
    GetVideo w url = inl video
    /\ WithAudioChannels (Formats video) = format :: more
    /\ GetStream w video format = None
    /\ ensureUniqueFilename goos w fuel
         (sanitizeFilename (Title video) ++ ".mp4") = Some file
    /\ Create w file = None /\ Copy w file = None
    /\ t = fetchEvents url video format file
    /\ w' = created w file.
Proof.
  unfold downloadYoutubeVideo, Println, Print.
  destruct (GetVideo w url) as [video|err];
    [|cbn [bind emit ret app]; discriminate].
  destruct (WithAudioChannels (Formats video)) as [|format more] eqn:Hformats;
    [cbn [bind emit ret app]; discriminate|].
  destruct (GetStream w video format) as [err|] eqn:Hstream;
    [cbn [bind emit ret app]; discriminate|].
  destruct (ensureUniqueFilename goos w fuel
              (sanitizeFilename (Title video) ++ ".mp4"))
    as [outputFile|] eqn:Hname;
    [|cbn [bind emit ret app unfinished]; discriminate].
  destruct (Create w outputFile) as [err|] eqn:Hcreate;
    [cbn [bind emit ret app]; discriminate|].
  destruct (Copy w outputFile) as [err|] eqn:Hcopy;
    cbn [bind emit ret app]; [discriminate|].
  intros H. inversion H. subst file.
  exists video, format, more. repeat split; try assumption; reflexivity.
Qed.

(** The file of a fetch that succeeds: its name, and that it is new. *)
Lemma downloadYoutubeVideo_file (fuel : nat) (url : string)
    (t : list Event) (file : string) (w' : World) :
  downloadYoutubeVideo goos w fuel url = (t, Returned (file, None, w')) ->
  exists video format more,
    GetVideo w url = inl video
    /\ WithAudioChannels (Formats video) = format :: more
    /\ t = fetchEvents url video format file
    /\ (file = (sanitizeFilename (Title video) ++ ".mp4")%string
        \/ exists i,
             file = (sanitizeFilename (Title video) ++ "_" ++ Itoa i
                     ++ ".mp4")%string)
    /\ Stat w file = StatNotExist
    /\ Stat w' file = StatOk false
    /\ w' = created w file.
Proof.
  intros Hfetch.
  destruct (downloadYoutubeVideo_success fuel url t file w' Hfetch)
    as (video & format & more & Hvideo & Hformats & _ & Hname & _ & _
        & Ht & Hw).
  exists video, format, more.
  destruct (ensureUniqueFilename_free goos w fuel _ file Hname)
    as [Hstat Hshape].
  repeat split; try assumption.
  - destruct Hshape as [Hsame | [i Hi]]; [now left|].
    right. exists i. now rewrite Hi, numbered_mp4.
  - subst w'. unfold created. cbn [Stat]. now rewrite String.eqb_refl.
Qed.

End FetchedFile.

(** X19. [sanitizeFilename] replaces bytes one for one and leaves a name
    that holds none of the nine bytes it replaces: the length is kept, a
    name without those bytes is left as it is, so sanitising twice is
    sanitising once, and the sanitised name of two parts is the sanitised
    parts put together. Each of the nine bytes becomes an underscore; other
    punctuation, spaces, dots and letters stay. *)
Theorem sanitizeFilename_valid (name : string) :
  String.length (sanitizeFilename name) = String.length name
  /\ validName (sanitizeFilename name) = true
  /\ (validName name = true -> sanitizeFilename name = name)
  /\ sanitizeFilename (sanitizeFilename name) = sanitizeFilename name
  /\ (forall rest,
        sanitizeFilename (name ++ rest)
        = (sanitizeFilename name ++ sanitizeFilename rest)%string)
  /\ sanitizeFilename invalidBytes = "_________"
  /\ sanitizeFilename "Day 1 (a+b) [x] {y} 'z' & co; 100%, #2 = ~new~.mp4"
     = "Day 1 (a+b) [x] {y} 'z' & co; 100%, #2 = ~new~.mp4".
Proof.
  assert (Hkeep : forall s, validName s = true -> sanitizeFilename s = s).
  { induction s as [|c s IH]; [reflexivity|].
    cbn [validName]. intros H. apply andb_true_iff in H.
    destruct H as [Hc Hs]. apply negb_true_iff in Hc.
    change (sanitizeFilename (String c s))
      with (String (if invalidByte c then "_"%char else c)
                   (sanitizeFilename s)).
    now rewrite Hc, IH. }
  assert (Hvalid : forall s, validName (sanitizeFilename s) = true).
  { induction s as [|c s IH]; [reflexivity|].
    change (sanitizeFilename (String c s))
      with (String (if invalidByte c then "_"%char else c)
                   (sanitizeFilename s)).
    cbn [validName]. rewrite IH, andb_true_r.
    destruct c as [[] [] [] [] [] [] [] []]; reflexivity. }
  repeat split.
  - apply length_mapBytes.
  - apply Hvalid.
  - apply Hkeep.
  - apply Hkeep, Hvalid.
  - intros rest. induction name as [|c name IH]; [reflexivity|].
    change (sanitizeFilename (String c name ++ rest))
      with (String (if invalidByte c then "_"%char else c)
                   (sanitizeFilename (name ++ rest))).
    now rewrite IH.
Qed.

(** X16. A fetch that succeeds has written the video to a new file in the
    working directory: whatever the title, the name of the file is the
    sanitised title followed by ".mp4", or by an underscore, a number and
    ".mp4"; it holds no path separator; no file of that name existed
    before, and it is a regular file afterwards. The fetch did the eleven
    things of [fetchEvents], in that order, and nothing else. *)
Theorem downloadYoutubeVideo_new_file
    (goos : OS) (w : World) (fuel : nat) (url : string)
    (t : list Event) (file : string) (w' : World) :
  downloadYoutubeVideo goos w fuel url = (t, Returned (file, None, w')) ->
  exists video format more,
    GetVideo w url = inl video
    /\ WithAudioChannels (Formats video) = format :: more
    /\ t = fetchEvents url video format file
    /\ (file = (sanitizeFilename (Title video) ++ ".mp4")%string
        \/ exists i,
             file = (sanitizeFilename (Title video) ++ "_" ++ Itoa i
                     ++ ".mp4")%string)
    /\ noSeparator file = true
    /\ Stat w file = StatNotExist
    /\ Stat w' file = StatOk false
    /\ w' = created w file.
Proof.
  intros Hfetch.
  destruct (downloadYoutubeVideo_file goos w fuel url t file w' Hfetch)
    as (video & format & more & Hvideo & Hformats & Ht & Hfile & Hstat
        & Hstat' & Hw).
  exists video, format, more.
  repeat split; try assumption.
  destruct Hfile as [Hf | [i Hf]]; rewrite Hf;
    rewrite ?noSeparator_app, ?noSeparator_sanitizeFilename,
      ?noSeparator_Itoa; reflexivity.
Qed.

Lemma downloadYoutubeVideo_new_file_witness :
  exists video format more,
    GetVideo onlineWorld "https://example.org/v" = inl video
    /\ WithAudioChannels (Formats video) = format :: more
    /\ fetchEvents "https://example.org/v" holiday soundFormat
         "Holiday_ day 1_2_1.mp4"
       = fetchEvents "https://example.org/v" video format
           "Holiday_ day 1_2_1.mp4"
    /\ ("Holiday_ day 1_2_1.mp4"
        = (sanitizeFilename (Title video) ++ ".mp4")%string
        \/ exists i,
             "Holiday_ day 1_2_1.mp4"
             = (sanitizeFilename (Title video) ++ "_" ++ Itoa i
                ++ ".mp4")%string)
    /\ noSeparator "Holiday_ day 1_2_1.mp4" = true
    /\ Stat onlineWorld "Holiday_ day 1_2_1.mp4" = StatNotExist
    /\ Stat (created onlineWorld "Holiday_ day 1_2_1.mp4")
            "Holiday_ day 1_2_1.mp4" = StatOk false
    /\ created onlineWorld "Holiday_ day 1_2_1.mp4"
       = created onlineWorld "Holiday_ day 1_2_1.mp4".
Proof.
  apply (downloadYoutubeVideo_new_file Unix onlineWorld 5
           "https://example.org/v").
  reflexivity.
Defined.

Section FetchAndProcess.

Variable goos : OS.
Variable unicodeLower : string -> string.
Variable TrimSpace : string -> string.
Variable filepath_Join : list string -> string.
Variable filepath_Dir : string -> string.
Variable w : World.

(** [process] on a regular file, with both tools and no [-mp3]. *)
Lemma process_cut_run (fl : Flags) (input : string) :
  Stat w input = StatOk false ->
  resolveBinary filepath_Join filepath_Dir w "ffmpeg" <> EmptyString ->
  resolveBinary filepath_Join filepath_Dir w "ffprobe" <> EmptyString ->
  mp3Ptr fl = false ->
  let cfg := configOfFlags goos filepath_Join filepath_Dir w fl input in
  process goos unicodeLower filepath_Join filepath_Dir w fl input
  = ([EvMkdirAll (filepath_Dir (OutputFile cfg));
      EvPrint ("Mode: Processing (Cut/Mute)..." ++ nl);
      EvRun (FfmpegBin cfg) (cutArgs cfg) (verbosePtr fl) true]
     ++ match Run w (FfmpegBin cfg) (cutArgs cfg) with
        | Some err => [failureReport err]
        | None => doneReport (OutputFile cfg)
        end,
     match Run w (FfmpegBin cfg) (cutArgs cfg) with
     | Some _ => Exited 1
     | None => Returned tt
     end).
Proof.
  intros Hstat Hffmpeg Hffprobe Hmp3 cfg.
  apply String.eqb_neq in Hffmpeg. apply String.eqb_neq in Hffprobe.
  unfold process. rewrite Hstat.
  cbv zeta.
  change (withFfprobeBin
            (withFfmpegBin
               (mkConfig input
                  (outputFileOf goos (outputPtr fl) input (muteStartPtr fl))
                  zero 0 (presetPtr fl) (crfPtr fl) (muteStartPtr fl)
                  (muteEndPtr fl) (startPtr fl) (endPtr fl) EmptyString
                  EmptyString (verbosePtr fl) (mp3Ptr fl))
               (resolveBinary filepath_Join filepath_Dir w "ffmpeg"))
            (resolveBinary filepath_Join filepath_Dir w "ffprobe"))
    with cfg.
  change (FfprobeBin cfg)
    with (resolveBinary filepath_Join filepath_Dir w "ffprobe").
  change (FfmpegBin cfg)
    with (resolveBinary filepath_Join filepath_Dir w "ffmpeg") at 1.
  rewrite Hffmpeg, Hffprobe. cbn [orb].
  change (ExtractMP3 cfg) with (mp3Ptr fl). rewrite Hmp3.
  rewrite simpleCut_runFFmpeg. fold (cutArgs cfg).
  unfold Println, runFFmpeg. rewrite !bind_emit.
  change (Verbose cfg) with (verbosePtr fl).
  destruct (Run w (FfmpegBin cfg) (cutArgs cfg)); reflexivity.
Qed.

End FetchAndProcess.

(** X17. A trim or mute run on a fetched video, end to end. With [-url],
    a fetch that succeeds, both tools resolved once the file is there and
    no [-mp3], [main] prints the notice, fetches, and goes on with the
    fetched file as its input, which it finds to be a regular file: it
    creates the output path's directory, announces the mode, and starts
    the resolved [ffmpeg] once on the arguments built from the flags and
    the fetched file; then it reports the failure and ends with status 1,
    or prints the "Done!" and "Output:" lines and returns. *)
Theorem main_fetch_cut_run
    (goos : OS) (unicodeLower TrimSpace : string -> string)
    (filepath_Join : list string -> string) (filepath_Dir : string -> string)
    (w : World) (fuel : nat) (fl : Flags)
    (t : list Event) (file : string) (w' : World) :
  urlPtr fl <> EmptyString ->
  downloadYoutubeVideo goos w fuel (urlPtr fl)
  = (t, Returned (file, None, w')) ->
  resolveBinary filepath_Join filepath_Dir w' "ffmpeg" <> EmptyString ->
  resolveBinary filepath_Join filepath_Dir w' "ffprobe" <> EmptyString ->
  mp3Ptr fl = false ->
  let cfg := configOfFlags goos filepath_Join filepath_Dir w' fl file in
  main goos unicodeLower TrimSpace filepath_Join filepath_Dir w fuel fl
  = (EvPrint ("YouTube URL provided. Downloading..." ++ nl) :: t
     ++ [EvMkdirAll (filepath_Dir (OutputFile cfg));
         EvPrint ("Mode: Processing (Cut/Mute)..." ++ nl);
         EvRun (FfmpegBin cfg) (cutArgs cfg) (verbosePtr fl) true]
     ++ match Run w (FfmpegBin cfg) (cutArgs cfg) with
        | Some err => [failureReport err]
        | None => doneReport (OutputFile cfg)
        end,
     match Run w (FfmpegBin cfg) (cutArgs cfg) with
     | Some _ => Exited 1
     | None => Returned tt
     end).
Proof.
  intros Hurl Hfetch Hffmpeg Hffprobe Hmp3 cfg.
  destruct (downloadYoutubeVideo_file goos w fuel (urlPtr fl) t file w'
              Hfetch)
    as (video & format & more & _ & _ & _ & _ & _ & Hstat & Hw).
  rewrite (main_fetch goos unicodeLower TrimSpace filepath_Join filepath_Dir
             w fuel fl Hurl).
  unfold download. rewrite Hfetch. unfold Println.
  cbn [bind emit ret app].
  pose proof (process_cut_run goos unicodeLower filepath_Join filepath_Dir
                w' fl file Hstat Hffmpeg Hffprobe Hmp3) as Hrun.
  cbv zeta in Hrun. fold cfg in Hrun. rewrite Hrun.
  replace (Run w' (FfmpegBin cfg) (cutArgs cfg))
    with (Run w (FfmpegBin cfg) (cutArgs cfg)) by (now rewrite Hw).
  rewrite app_nil_r. reflexivity.
Qed.

Lemma main_fetch_cut_run_witness :
  main Unix sameString sameString unixJoin unixDir onlineWorld 5
       (withInputPtr urlFlags EmptyString)
  = (EvPrint ("YouTube URL provided. Downloading..." ++ nl)
     :: fetchEvents "https://example.org/v" holiday soundFormat
          "Holiday_ day 1_2_1.mp4"
     ++ [EvMkdirAll ".";
         EvPrint ("Mode: Processing (Cut/Mute)..." ++ nl);
         EvRun "/opt/mutecut/bin/ffmpeg"
           ["-i"; "Holiday_ day 1_2_1.mp4"; "-c:v"; "libx264"; "-preset";
            "medium"; "-crf"; "23"; "-c:a"; "aac"; "-b:a"; "192k"; "-y";
            "Holiday_ day 1_2_1_cleaned.mp4"]
           false true;
         EvPrint (nl ++ " Done!" ++ nl);
         EvPrint ("Output: Holiday_ day 1_2_1_cleaned.mp4" ++ nl)],
     Returned tt).
Proof.
  apply (main_fetch_cut_run Unix sameString sameString unixJoin unixDir
           onlineWorld 5 (withInputPtr urlFlags EmptyString)
           (fetchEvents "https://example.org/v" holiday soundFormat
              "Holiday_ day 1_2_1.mp4")
           "Holiday_ day 1_2_1.mp4"
           (created onlineWorld "Holiday_ day 1_2_1.mp4"));
    try discriminate; reflexivity.
Defined.

(** X18. A fetch that never ends. When the video and its stream are there
    but the name its file would get is taken, and so is every numbered
    name, because the files exist or because [os.Stat] fails on them for
    any reason but their absence, [main] never gets past the search for a
    free name: whatever the fuel, the run is the notice and the fetch up to
    the request for the stream, and it is not over. *)
Theorem main_fetch_never_ends
    (goos : OS) (unicodeLower TrimSpace : string -> string)
    (filepath_Join : list string -> string) (filepath_Dir : string -> string)
    (w : World) (fl : Flags)
    (video : Video) (format : Format) (more : list Format) :
  urlPtr fl <> EmptyString ->
  GetVideo w (urlPtr fl) = inl video ->
  WithAudioChannels (Formats video) = format :: more ->
  GetStream w video format = None ->
  Stat w (sanitizeFilename (Title video) ++ ".mp4") <> StatNotExist ->
  (forall i,
     Stat w (sanitizeFilename (Title video) ++ "_" ++ Itoa i ++ ".mp4")
     <> StatNotExist) ->
  forall fuel,
    main goos unicodeLower TrimSpace filepath_Join filepath_Dir w fuel fl
    = ([EvPrint ("YouTube URL provided. Downloading..." ++ nl);
        EvPrint ("Initializing YouTube client..." ++ nl);
        EvPrint ("Fetching video info for: " ++ urlPtr fl ++ nl);
        EvGetVideo (urlPtr fl);
        EvPrint ("Found video: " ++ Title video ++ nl);
        EvPrint ("Downloading format: " ++ MimeType format
                   ++ " (Quality: " ++ QualityLabel format ++ ")" ++ nl);
        EvGetStream video format],
       Unfinished).
Proof.
  intros Hurl Hvideo Hformats Hstream Hpath Htaken fuel.
  rewrite (main_fetch goos unicodeLower TrimSpace filepath_Join filepath_Dir
             w fuel fl Hurl).
  pose proof (ensureUniqueFilename_never goos w
                (sanitizeFilename (Title video) ++ ".mp4")) as Hnever.
  unfold download, downloadYoutubeVideo.
  rewrite Hvideo, Hformats, Hstream, Hnever.
  - reflexivity.
  - exact Hpath.
  - intros i. rewrite numbered_mp4. apply Htaken.
Qed.

Lemma main_fetch_never_ends_witness :
  main Unix sameString sameString unixJoin unixDir lockedWorld 1000
       (withInputPtr urlFlags EmptyString)
  = ([EvPrint ("YouTube URL provided. Downloading..." ++ nl);
      EvPrint ("Initializing YouTube client..." ++ nl);
      EvPrint ("Fetching video info for: https://example.org/v" ++ nl);
      EvGetVideo "https://example.org/v";
      EvPrint ("Found video: Holiday: day 1/2" ++ nl);
      EvPrint ("Downloading format: video/mp4 (Quality: 720p)" ++ nl);
      EvGetStream holiday soundFormat],
     Unfinished).
Proof.
  apply (main_fetch_never_ends Unix sameString sameString unixJoin unixDir
           lockedWorld (withInputPtr urlFlags EmptyString)
           holiday soundFormat []);
    try discriminate; reflexivity.
Defined.
